(** * Deterministic entity selection and guarded feature mutation

    A shallow embedding of the Fusion RPC add-in's command handlers
    ([commands/_selection_helpers.py], [commands/extrude_feature.py],
    [commands/fillet_feature.py], [commands/hole_feature.py],
    [commands/revolve_feature.py], [commands/extrude_profile.py],
    [commands/shell_feature.py], [commands/mirror_feature.py],
    [commands/pattern_feature.py] and [commands/_feature_helpers.py]),
    followed by the properties of the selector resolver and of the plan /
    apply / recompute / guardrail / rollback protocol.

    Conventions of the embedding.
    - A Python [float] that is finite is the rational it denotes ([Qc],
      canonical rationals, so that equal numbers are equal terms); rounding,
      infinities and NaN are outside the model.  Python [int] is [Z].
    - A host attribute read guarded by [try/except] in the source is an
      [option]: [None] stands for "the read raised" (or returned [None]).
      Unguarded reads are total fields.
    - Python dictionaries built by the handlers are [pyval] association
      lists in insertion order.  [PyUnitVector x y z] is the dictionary
      [{"x": x/len, "y": y/len, "z": z/len}] with [len] the Euclidean
      length of [(x, y, z)], a square root that is not computed.
    - The CAD host is an oracle ([host]): the handlers call it through a few
      entry points and log every call that can mutate the document. *)

From Stdlib Require Import ZArith QArith Qcanon String Ascii List Bool.
From Stdlib Require Import Permutation Sorted Lia DecimalString.
Import ListNotations.

Open Scope list_scope.
Open Scope string_scope.

(** ** Python values *)

#[local] Unset Elimination Schemes.
Inductive pyval : Type :=
| PyNone
| PyBool (b : bool)
| PyInt (n : Z)
| PyFloat (q : Qc)
| PyStr (s : string)
| PyList (l : list pyval)
| PyDict (kv : list (string * pyval))
| PyUnitVector (vx vy vz : Qc).
#[local] Set Elimination Schemes.

Fixpoint assoc_get (k : string) (kv : list (string * pyval)) : option pyval :=
  match kv with
  | [] => None
  | (k', v) :: rest => if String.eqb k k' then Some v else assoc_get k rest
  end.

(** [d.get(k)] on a dictionary; [None] on anything else. *)
Definition dict_get (k : string) (d : pyval) : option pyval :=
  match d with
  | PyDict kv => assoc_get k kv
  | _ => None
  end.

Fixpoint assoc_set (k : string) (v : pyval) (kv : list (string * pyval))
  : list (string * pyval) :=
  match kv with
  | [] => [(k, v)]
  | (k', v') :: rest =>
      if String.eqb k k' then (k, v) :: rest else (k', v') :: assoc_set k v rest
  end.

(** [d[k] = v]: replaces in place or appends, as a Python dict does. *)
Definition dict_set (k : string) (v : pyval) (d : pyval) : pyval :=
  match d with
  | PyDict kv => PyDict (assoc_set k v kv)
  | other => other
  end.

(** Truth value of a Python object ([bool(v)], [if v:], [not v]). *)
Definition truthy (v : pyval) : bool :=
  match v with
  | PyNone => false
  | PyBool b => b
  | PyInt n => negb (Z.eqb n 0)
  | PyFloat q => if Qc_eq_dec q (Q2Qc 0) then false else true
  | PyStr s => negb (String.eqb s "")
  | PyList l => match l with [] => false | _ => true end
  | PyDict kv => match kv with [] => false | _ => true end
  | PyUnitVector _ _ _ => true
  end.

Definition opt_py {A : Type} (f : A -> pyval) (o : option A) : pyval :=
  match o with
  | Some a => f a
  | None => PyNone
  end.

(** Truth value of an optional string ([if body_name:]). *)
Definition str_truthy (o : option string) : bool :=
  match o with
  | Some s => negb (String.eqb s "")
  | None => false
  end.

(** [str(n)] for an integer. *)
Definition py_str_int (n : Z) : string := NilZero.string_of_int (Z.to_int n).

(** [str(x)] for a float whose value is the integer [n]: ["50.0"]. *)
Definition py_str_float_int (n : Z) : string := py_str_int n ++ ".0".

(** [repr] of a list of strings, as an f-string interpolates it.  Names are
    put between single quotes as they are: the escaping [repr] applies to
    quotes, backslashes and non-printable characters is not modelled. *)
Fixpoint py_repr_items (l : list string) : string :=
  match l with
  | [] => ""
  | [s] => "'" ++ s ++ "'"
  | s :: rest => "'" ++ s ++ "', " ++ py_repr_items rest
  end.

Definition py_repr_str_list (l : list string) : string :=
  "[" ++ py_repr_items l ++ "]".

(** ** Numbers *)

Definition float := Qc.

Definition Z2float (n : Z) : float := Q2Qc (inject_Z n).

Definition float_ltb (a b : float) : bool :=
  match Qccompare a b with Lt => true | _ => false end.

Definition float_leb (a b : float) : bool :=
  match Qccompare a b with Gt => false | _ => true end.

(** ** Python's ordering of sort keys

    [list.sort(key=...)] compares keys with [<]; on tuples the comparison is
    lexicographic, on floats numeric, on strings by code point (the byte
    order of [String.compare] on UTF-8 text). *)

Definition lex (c1 c2 : comparison) : comparison :=
  match c1 with
  | Eq => c2
  | _ => c1
  end.

Definition cmp_float (a b : float) : comparison := Qccompare a b.

Definition cmp_str (a b : string) : comparison := String.compare a b.

Definition cmp_float3 (p q : float * float * float) : comparison :=
  let '(p1, p2, p3) := p in
  let '(q1, q2, q3) := q in
  lex (cmp_float p1 q1) (lex (cmp_float p2 q2) (cmp_float p3 q3)).

(** The order of pairs, first components first. *)
Definition cmp_pair {A B : Type} (cA : A -> A -> comparison)
  (cB : B -> B -> comparison) (p q : A * B) : comparison :=
  lex (cA (fst p) (fst q)) (cB (snd p) (snd q)).

Definition is_lt (c : comparison) : bool :=
  match c with Lt => true | _ => false end.

(** A three-way comparison that is a total order. *)
Class PyOrd {K : Type} (cmp : K -> K -> comparison) : Prop := {
  cmp_eq : forall a b, cmp a b = Eq <-> a = b;
  cmp_antisym : forall a b, cmp b a = CompOpp (cmp a b);
  cmp_lt_trans : forall a b c, cmp a b = Lt -> cmp b c = Lt -> cmp a c = Lt
}.

(** ** Sorting

    [list.sort] is stable: elements with equal keys keep their relative
    order.  Insertion from the right computes that unique result; the
    element [b] already placed stays in front of [a] only if its key is
    strictly smaller. *)

Section Sort.
Context {A K : Type}.
Variable key : A -> K.
Variable cmp : K -> K -> comparison.

Fixpoint insert_by_key (a : A) (l : list A) : list A :=
  match l with
  | [] => [a]
  | b :: rest =>
      if is_lt (cmp (key b) (key a)) then b :: insert_by_key a rest
      else a :: b :: rest
  end.

Definition sort_by_key (l : list A) : list A :=
  fold_right insert_by_key [] l.

(** [a] comes no later than [b] in Python's order of keys. *)
Definition key_le (a b : A) : Prop := cmp (key a) (key b) <> Gt.
End Sort.

(** [sorted(names)] on strings. *)
Definition sorted_strs (l : list string) : list string :=
  sort_by_key (fun s => s) cmp_str l.

(** ** Host objects

    What the handlers read from the CAD host.  A record is the set of
    answers the host gives for one object; the identity attributes are
    already passed through [str]. *)

Record Point3D : Type := { pt_x : float; pt_y : float; pt_z : float }.

Record BoundingBox3D : Type := { minPoint : Point3D; maxPoint : Point3D }.

Record entity_ids : Type := {
  entityToken : option string;
  tempId : option string;
  entityId : option string
}.

Inductive SurfaceTypes : Type :=
| PlaneSurfaceType
| CylinderSurfaceType
| ConeSurfaceType
| SphereSurfaceType
| TorusSurfaceType
| NurbsSurfaceType.

Record Surface : Type := {
  surfaceType : option SurfaceTypes;
  isPlane : option bool;
  normal : option Point3D
}.

Record BRepFace : Type := {
  face_ids : entity_ids;
  face_geometry : option Surface;
  face_centroid : option Point3D;
  face_area : option float;
  face_worldBoundingBox : option BoundingBox3D;
  face_boundingBox : option BoundingBox3D
}.

(** [edge_eval_midpoint] is the point the edge evaluator returns at the
    middle parameter (when both evaluator calls report success);
    [edge_unit_direction] is the host vector
    [Vector3D.create(end - start)] after [normalize()], absent when the
    vertices cannot be read or the vector has no length. *)
Record BRepEdge : Type := {
  edge_ids : entity_ids;
  edge_length : option float;
  edge_eval_midpoint : option Point3D;
  edge_startVertex : option Point3D;
  edge_endVertex : option Point3D;
  edge_unit_direction : option Point3D
}.

Record BRepBody : Type := {
  body_ids : entity_ids;
  b_name : string;
  isSolid : option bool;
  isVisible : option bool;
  b_faces : list BRepFace;
  b_edges : list BRepEdge;
  b_vertices : list Point3D;
  body_worldBoundingBox : option BoundingBox3D;
  body_boundingBox : option BoundingBox3D;
  physical_volume : option float
}.

(** The units manager: [convert] towards millimetres and back; [None] when
    the host call raises, with [convert_exc] the text of the exception. *)
Record UnitsManager : Type := {
  convert_internal_to_mm : float -> option float;
  convert_mm_to_internal : float -> option float;
  convert_exc : string
}.

(** A body is a live host object: the handlers hold a reference to it and
    read it again after the document has changed.  A reference is a number
    and the document answers for it. *)
Definition body_ref := nat.

Record ProfileCurve : Type := { curve_sketchEntity : entity_ids }.

Record Profile : Type := { profileLoops : list (list ProfileCurve) }.

Record Sketch : Type := {
  sketch_ids : entity_ids;
  sketch_profiles : list Profile
}.

Record ConstructionAxis : Type := { axis_p1 : Point3D; axis_p2 : Point3D }.

Record Feature : Type := {
  feature_ids : entity_ids;
  feature_name : option string
}.

Record Component : Type := {
  bRepBodies : list body_ref;
  body_at : body_ref -> BRepBody;
  sketches : list Sketch;
  constructionAxes : list ConstructionAxis
}.

(** [FusionRPCAddIn._convert_mm]. *)
Definition _convert_mm (units_mgr : option UnitsManager) (value : float) : float :=
  match units_mgr with
  | Some um =>
      match convert_internal_to_mm um value with
      | Some r => r
      | None => (value * Q2Qc 10)%Qc
      end
  | None => (value * Q2Qc 10)%Qc
  end.

(** [_mm_to_internal] of the command modules. *)
Definition _mm_to_internal (units_mgr : option UnitsManager) (value_mm : float) : float :=
  match units_mgr with
  | None => value_mm
  | Some um =>
      match convert_mm_to_internal um value_mm with
      | Some r => r
      | None => (value_mm / Q2Qc 10)%Qc
      end
  end.

(** ** commands/_selection_helpers.py *)

Module selection_helpers.

Definition _entity_id (entity : entity_ids) : option string :=
  match entityToken entity with
  | Some v => Some v
  | None =>
      match tempId entity with
      | Some v => Some v
      | None => entityId entity
      end
  end.

Definition body_visible_solid (b : BRepBody) : bool :=
  match isSolid b with
  | None => false
  | Some solid =>
      if negb solid then false
      else match isVisible b with
           | None => false
           | Some visible => visible
           end
  end.

Definition _list_visible_bodies (root_comp : Component) : list body_ref :=
  filter (fun r => body_visible_solid (body_at root_comp r)) (bRepBodies root_comp).

Definition _resolve_body (root_comp : Component) (body_name : option string)
  : option body_ref * list body_ref :=
  let bodies := _list_visible_bodies root_comp in
  if str_truthy body_name then
    (find (fun r => match body_name with
                    | Some n => String.eqb (b_name (body_at root_comp r)) n
                    | None => false
                    end) bodies,
     bodies)
  else
    match bodies with
    | [b] => (Some b, bodies)
    | _ => (None, bodies)
    end.

Definition _collection_count {A : Type} (collection : list A) : Z :=
  Z.of_nat (length collection).

Definition _length_factor_mm (units_mgr : option UnitsManager)
  (convert_mm : option UnitsManager -> float -> float) : float :=
  convert_mm units_mgr (Q2Qc 1).

Definition py_point (xv yv zv : float) : pyval :=
  PyDict [("x", PyFloat xv); ("y", PyFloat yv); ("z", PyFloat zv)].

Definition _point_mm (convert_mm : option UnitsManager -> float -> float)
  (units_mgr : option UnitsManager) (point : Point3D) : pyval :=
  py_point (convert_mm units_mgr (pt_x point))
           (convert_mm units_mgr (pt_y point))
           (convert_mm units_mgr (pt_z point)).

Definition _point_tuple_mm (convert_mm : option UnitsManager -> float -> float)
  (units_mgr : option UnitsManager) (point : Point3D) : float * float * float :=
  (convert_mm units_mgr (pt_x point),
   convert_mm units_mgr (pt_y point),
   convert_mm units_mgr (pt_z point)).

(** The box in millimetres: corner points [min], [max]; the [size] entry of
    the source is their difference. *)
Record bbox_mm : Type := {
  bb_min : float * float * float;
  bb_max : float * float * float
}.

Definition _bbox_mm (world_box local_box : option BoundingBox3D)
  (units_mgr : option UnitsManager)
  (convert_mm : option UnitsManager -> float -> float) : option bbox_mm :=
  let bbox := match world_box with Some b => Some b | None => local_box end in
  match bbox with
  | None => None
  | Some b =>
      Some {| bb_min := _point_tuple_mm convert_mm units_mgr (minPoint b);
              bb_max := _point_tuple_mm convert_mm units_mgr (maxPoint b) |}
  end.

Definition py_bbox (b : bbox_mm) : pyval :=
  let '(x0, y0, z0) := bb_min b in
  let '(x1, y1, z1) := bb_max b in
  PyDict [("min", py_point x0 y0 z0);
          ("max", py_point x1 y1 z1);
          ("size", py_point (x1 - x0)%Qc (y1 - y0)%Qc (z1 - z0)%Qc)].

Inductive axis6 : Type := PlusX | MinusX | PlusY | MinusY | PlusZ | MinusZ.

Inductive axis3 : Type := AxisX | AxisY | AxisZ.


Definition _axis_vector (axis : axis6) : float * float * float :=
  match axis with
  | PlusX => (Q2Qc 1, Q2Qc 0, Q2Qc 0)
  | MinusX => (Q2Qc (-1), Q2Qc 0, Q2Qc 0)
  | PlusY => (Q2Qc 0, Q2Qc 1, Q2Qc 0)
  | MinusY => (Q2Qc 0, Q2Qc (-1), Q2Qc 0)
  | PlusZ => (Q2Qc 0, Q2Qc 0, Q2Qc 1)
  | MinusZ => (Q2Qc 0, Q2Qc 0, Q2Qc (-1))
  end.

Definition _is_planar (face : BRepFace) : bool :=
  match face_geometry face with
  | None => false
  | Some geom =>
      match surfaceType geom with
      | Some PlaneSurfaceType => true
      | _ =>
          match isPlane geom with
          | Some b => b
          | None => false
          end
      end
  end.

(** The result of [_normalize_vector] is the vector divided by its length,
    a square root.  It is kept as the vector it was computed from; the test
    [length <= 0.0] is made on the squared length. *)
Inductive unit_vector : Type := Normalized (v : Point3D).

Definition _normalize_vector (vector : Point3D) : option unit_vector :=
  let sq := (pt_x vector * pt_x vector + pt_y vector * pt_y vector
             + pt_z vector * pt_z vector)%Qc in
  if float_leb sq (Q2Qc 0) then None else Some (Normalized vector).

Definition _vector_dot (vector : Point3D) (axis : float * float * float) : float :=
  let '(a0, a1, a2) := axis in
  (pt_x vector * a0 + pt_y vector * a1 + pt_z vector * a2)%Qc.

Definition _face_area_mm2 (face : BRepFace) (units_mgr : option UnitsManager)
  (convert_mm : option UnitsManager -> float -> float) : option float :=
  match face_area face with
  | None => None
  | Some area =>
      let length_factor := _length_factor_mm units_mgr convert_mm in
      Some (area * (length_factor * length_factor))%Qc
  end.

Definition _edge_length_mm (edge : BRepEdge) (units_mgr : option UnitsManager)
  (convert_mm : option UnitsManager -> float -> float) : option float :=
  match edge_length edge with
  | None => None
  | Some len =>
      let length_factor := _length_factor_mm units_mgr convert_mm in
      Some (len * length_factor)%Qc
  end.

Definition half : float := Q2Qc (1 # 2).

Definition _edge_midpoint (edge : BRepEdge) : option Point3D :=
  match edge_eval_midpoint edge with
  | Some point => Some point
  | None =>
      match edge_startVertex edge, edge_endVertex edge with
      | Some start_pt, Some end_pt =>
          Some {| pt_x := ((pt_x start_pt + pt_x end_pt) * half)%Qc;
                  pt_y := ((pt_y start_pt + pt_y end_pt) * half)%Qc;
                  pt_z := ((pt_z start_pt + pt_z end_pt) * half)%Qc |}
      | _, _ => None
      end
  end.

Definition _edge_direction (edge : BRepEdge) : option Point3D :=
  match edge_startVertex edge, edge_endVertex edge with
  | Some _, Some _ => edge_unit_direction edge
  | _, _ => None
  end.

(** *** String operations used by the selector grammar

    [str.strip] and [str.lower] are modelled on ASCII. *)

Definition is_space (c : ascii) : bool :=
  let n := nat_of_ascii c in
  ((9 <=? n) && (n <=? 13) || (28 <=? n) && (n <=? 32))%nat.

Fixpoint lstrip (s : string) : string :=
  match s with
  | EmptyString => EmptyString
  | String c rest => if is_space c then lstrip rest else s
  end.

Fixpoint rstrip (s : string) : string :=
  match s with
  | EmptyString => EmptyString
  | String c rest =>
      match rstrip rest with
      | EmptyString => if is_space c then EmptyString else String c EmptyString
      | kept => String c kept
      end
  end.

Definition strip (s : string) : string := rstrip (lstrip s).

Definition lower_ascii (c : ascii) : ascii :=
  let n := nat_of_ascii c in
  if ((65 <=? n) && (n <=? 90))%nat then ascii_of_nat (n + 32) else c.

Fixpoint lower (s : string) : string :=
  match s with
  | EmptyString => EmptyString
  | String c rest => String (lower_ascii c) (lower rest)
  end.

(** [s.split(sep, 1)[1]] when [sep] occurs in [s]. *)
Fixpoint after_first (sep : ascii) (s : string) : string :=
  match s with
  | EmptyString => EmptyString
  | String c rest => if Ascii.eqb c sep then rest else after_first sep rest
  end.

Fixpoint last_piece_from (sep : ascii) (s piece : string) : string :=
  match s with
  | EmptyString => piece
  | String c rest =>
      if Ascii.eqb c sep then last_piece_from sep rest EmptyString
      else last_piece_from sep rest (piece ++ String c EmptyString)
  end.

(** [s.split(sep)[-1]]. *)
Definition last_piece (sep : ascii) (s : string) : string :=
  last_piece_from sep s EmptyString.

(** *** Selectors *)

Inductive face_selector : Type :=
| largest_planar
| largest_area
| normal_closest (axis : axis6)
| max_bbox (axis : axis3)
| min_bbox (axis : axis3).

Inductive edge_selector : Type :=
| longest_edge
| edge_normal_closest (axis : axis6)
| closest_to_point.

Definition parse_axis6 (s : string) : option axis6 :=
  if String.eqb s "+X" then Some PlusX
  else if String.eqb s "-X" then Some MinusX
  else if String.eqb s "+Y" then Some PlusY
  else if String.eqb s "-Y" then Some MinusY
  else if String.eqb s "+Z" then Some PlusZ
  else if String.eqb s "-Z" then Some MinusZ
  else None.

Definition parse_axis3 (s : string) : option axis3 :=
  if String.eqb s "x" then Some AxisX
  else if String.eqb s "y" then Some AxisY
  else if String.eqb s "z" then Some AxisZ
  else None.

Definition colon : ascii := ":"%char.
Definition underscore : ascii := "_"%char.

Definition parse_bbox_selector (selector : string) : option face_selector :=
  let as_max :=
    if String.prefix "max_bbox_" selector then
      option_map max_bbox (parse_axis3 (lower (last_piece underscore selector)))
    else None in
  match as_max with
  | Some sel => Some sel
  | None =>
      if String.prefix "min_bbox_" selector then
        option_map min_bbox (parse_axis3 (lower (last_piece underscore selector)))
      else None
  end.

Definition _parse_face_selector (selector : string) : option face_selector :=
  if String.eqb selector "largest_planar" then Some largest_planar
  else if String.eqb selector "largest_area" then Some largest_area
  else
    let as_normal :=
      if String.prefix "normal_closest:" selector then
        option_map normal_closest (parse_axis6 (strip (after_first colon selector)))
      else None in
    match as_normal with
    | Some sel => Some sel
    | None => parse_bbox_selector selector
    end.

Definition _parse_edge_selector (selector : string) : option edge_selector :=
  if String.eqb selector "longest_edge" then Some longest_edge
  else
    let as_normal :=
      if String.prefix "normal_closest:" selector then
        option_map edge_normal_closest (parse_axis6 (strip (after_first colon selector)))
      else None in
    match as_normal with
    | Some sel => Some sel
    | None =>
        if String.eqb selector "closest_to_point" then Some closest_to_point
        else None
    end.

(** *** Face selection *)

Record face_candidate : Type := {
  fc_face : BRepFace;
  fc_score : float;
  fc_area_mm2 : option float;
  fc_centroid : Point3D;
  fc_centroid_tuple : float * float * float;
  fc_face_id : string;
  fc_normal : option unit_vector
}.

Definition tuple_axis (t : float * float * float) (axis : axis3) : float :=
  let '(xv, yv, zv) := t in
  match axis with
  | AxisX => xv
  | AxisY => yv
  | AxisZ => zv
  end.

(** [_entity_id(face) or ""]. *)
Definition or_empty (o : option string) : string :=
  match o with
  | Some s => s
  | None => ""
  end.

(** One iteration of the loop over [body.faces]: the candidate appended
    for [face], or [None] where the source reaches a [continue]. *)
Definition face_candidate_of (selector : face_selector)
  (units_mgr : option UnitsManager)
  (convert_mm : option UnitsManager -> float -> float)
  (face : BRepFace) : option face_candidate :=
  let needs_planar :=
    match selector with
    | largest_planar => true
    | normal_closest _ => true
    | _ => false
    end in
  if needs_planar && negb (_is_planar face) then None
  else
    match face_centroid face with
    | None => None
    | Some centroid =>
        let area_mm2 := _face_area_mm2 face units_mgr convert_mm in
        let face_id := or_empty (_entity_id (face_ids face)) in
        let centroid_tuple := _point_tuple_mm convert_mm units_mgr centroid in
        let mk (score : float) (normal_out : option unit_vector) :=
          Some {| fc_face := face;
                  fc_score := score;
                  fc_area_mm2 := area_mm2;
                  fc_centroid := centroid;
                  fc_centroid_tuple := centroid_tuple;
                  fc_face_id := face_id;
                  fc_normal := normal_out |} in
        match selector with
        | largest_planar | largest_area =>
            match area_mm2 with
            | None => None
            | Some a => mk a None
            end
        | normal_closest axis =>
            match match face_geometry face with
                  | Some geom => normal geom
                  | None => None
                  end with
            | None => None
            | Some nrm =>
                mk (_vector_dot nrm (_axis_vector axis)) (_normalize_vector nrm)
            end
        | max_bbox axis =>
            match _bbox_mm (face_worldBoundingBox face) (face_boundingBox face)
                    units_mgr convert_mm with
            | None => None
            | Some bbox => mk (tuple_axis (bb_max bbox) axis) None
            end
        | min_bbox axis =>
            match _bbox_mm (face_worldBoundingBox face) (face_boundingBox face)
                    units_mgr convert_mm with
            | None => None
            | Some bbox => mk (- tuple_axis (bb_min bbox) axis)%Qc None
            end
        end
    end.

Fixpoint collect {A B : Type} (f : A -> option B) (l : list A) : list B :=
  match l with
  | [] => []
  | a :: rest =>
      match f a with
      | Some b => b :: collect f rest
      | None => collect f rest
      end
  end.

Definition face_key : Type := float * float * (float * float * float) * string.

Definition _tie_key (item : face_candidate) : face_key :=
  let area := match fc_area_mm2 item with
              | Some a => a
              | None => Q2Qc (-1)
              end in
  ((- fc_score item)%Qc, (- area)%Qc, fc_centroid_tuple item, fc_face_id item).

(** Python's order on the key tuples. *)
Definition cmp_face_key (k1 k2 : face_key) : comparison :=
  let '(s1, a1, c1, i1) := k1 in
  let '(s2, a2, c2, i2) := k2 in
  lex (cmp_float s1 s2)
      (lex (cmp_float a1 a2) (lex (cmp_float3 c1 c2) (cmp_str i1 i2))).

Definition face_candidates (body : BRepBody) (selector : face_selector)
  (units_mgr : option UnitsManager)
  (convert_mm : option UnitsManager -> float -> float) : list face_candidate :=
  collect (face_candidate_of selector units_mgr convert_mm) (b_faces body).

Definition _select_face (body : BRepBody) (selector : face_selector)
  (units_mgr : option UnitsManager)
  (convert_mm : option UnitsManager -> float -> float)
  : option face_candidate * nat :=
  let candidates := face_candidates body selector units_mgr convert_mm in
  match sort_by_key _tie_key cmp_face_key candidates with
  | [] => (None, 0%nat)
  | first :: _ => (Some first, length candidates)
  end.

(** *** Edge selection *)

Record edge_candidate : Type := {
  ec_edge : BRepEdge;
  ec_score : float;
  ec_length_mm : option float;
  ec_midpoint : Point3D;
  ec_midpoint_tuple : float * float * float;
  ec_edge_id : string
}.

Definition edge_candidate_of (selector : edge_selector)
  (units_mgr : option UnitsManager)
  (convert_mm : option UnitsManager -> float -> float)
  (point_mm : option (float * float * float))
  (edge : BRepEdge) : option edge_candidate :=
  let edge_id := or_empty (_entity_id (edge_ids edge)) in
  let length_mm := _edge_length_mm edge units_mgr convert_mm in
  match _edge_midpoint edge with
  | None => None
  | Some midpoint =>
      let midpoint_tuple := _point_tuple_mm convert_mm units_mgr midpoint in
      let mk (score : float) :=
        Some {| ec_edge := edge;
                ec_score := score;
                ec_length_mm := length_mm;
                ec_midpoint := midpoint;
                ec_midpoint_tuple := midpoint_tuple;
                ec_edge_id := edge_id |} in
      match selector with
      | longest_edge =>
          match length_mm with
          | None => None
          | Some len => mk len
          end
      | edge_normal_closest axis =>
          match _edge_direction edge with
          | None => None
          | Some direction => mk (_vector_dot direction (_axis_vector axis))
          end
      | closest_to_point =>
          match point_mm with
          | None => None
          | Some (qx, qy, qz) =>
              let '(mx, my, mz) := midpoint_tuple in
              let dx := (mx - qx)%Qc in
              let dy := (my - qy)%Qc in
              let dz := (mz - qz)%Qc in
              mk (- (dx * dx + dy * dy + dz * dz))%Qc
          end
      end
  end.

Definition edge_tie_key (item : edge_candidate) : face_key :=
  let len := match ec_length_mm item with
             | Some l => l
             | None => Q2Qc (-1)
             end in
  ((- ec_score item)%Qc, (- len)%Qc, ec_midpoint_tuple item, ec_edge_id item).

Definition _select_edge (entity : BRepBody) (selector : edge_selector)
  (units_mgr : option UnitsManager)
  (convert_mm : option UnitsManager -> float -> float)
  (point_mm : option (float * float * float))
  : option edge_candidate * nat :=
  let candidates :=
    collect (edge_candidate_of selector units_mgr convert_mm point_mm)
            (b_edges entity) in
  match sort_by_key edge_tie_key cmp_face_key candidates with
  | [] => (None, 0%nat)
  | first :: _ => (Some first, length candidates)
  end.

End selection_helpers.

(** ** The host as an oracle

    The handlers reach the document through a handful of host calls.  Each
    call may change the document in any way and may raise; what it does is
    the host's business and is given by a [host] value.  Every call that can
    mutate the document is appended to the log of the [world]. *)

Inductive revolve_axis : Type :=
| AxisEdge (edge : BRepEdge)
| AxisConstruction (axis : ConstructionAxis).

(** What a handler hands to the host between [createInput] and [add]. *)
Inductive apply_request : Type :=
| ExtrudeFace (face : BRepFace) (operation : string) (distance_mm : float)
    (direction : string)
| FilletEdge (edge : BRepEdge) (radius_internal : float)
| HoleOnFace (face : BRepFace) (body : option body_ref)
    (center_mm : float * float * float) (diameter_mm : float)
    (depth_mm : option float)
| RevolveProfile (profile : Profile) (axis : revolve_axis) (operation : string)
    (angle_deg : float)
| OtherFeature (command : string) (plan : pyval).

Inductive host_call : Type :=
| Call_apply (request : apply_request)
| Call_computeAll
| Call_deleteMe (feature : Feature)
| Call_constructionAxes_add (p1 p2 : float * float * float).

(** Outcome of the host operation: it raises, or [add] returns the feature
    (the API may also return nothing). *)
Inductive apply_outcome : Type :=
| Raises (exc : string)
| Returns (feature : option Feature).

Inductive axis_outcome : Type :=
| AxisRaises (exc : string)
| AxisReturns (axis : ConstructionAxis).

Record host : Type := {
  host_apply : apply_request -> Component -> apply_outcome * Component;
  host_computeAll : Component -> bool * Component;
  host_deleteMe : Feature -> Component -> bool * Component;
  host_constructionAxes_add :
    float * float * float -> float * float * float -> Component ->
    axis_outcome * Component;
  host_time : nat -> float
}.

Record world : Type := {
  root_comp : Component;
  clock_reads : nat;
  calls : list host_call
}.

(** [time.time()]: the next reading of the clock. *)
Definition time_time (H : host) (w : world) : float * world :=
  (host_time H (clock_reads w),
   {| root_comp := root_comp w;
      clock_reads := S (clock_reads w);
      calls := calls w |}).

Definition logged (w : world) (d : Component) (c : host_call) : world :=
  {| root_comp := d; clock_reads := clock_reads w; calls := (calls w ++ [c])%list |}.

Definition do_apply (H : host) (request : apply_request) (w : world)
  : apply_outcome * world :=
  let '(outcome, d) := host_apply H request (root_comp w) in
  (outcome, logged w d (Call_apply request)).

(** [design.computeAll()]; [true] when it returned. *)
Definition do_computeAll (H : host) (w : world) : bool * world :=
  let '(ran, d) := host_computeAll H (root_comp w) in
  (ran, logged w d Call_computeAll).

(** [feature.deleteMe()]; [true] when it returned. *)
Definition do_deleteMe (H : host) (feature : Feature) (w : world) : bool * world :=
  let '(done, d) := host_deleteMe H feature (root_comp w) in
  (done, logged w d (Call_deleteMe feature)).

Definition do_axis_add (H : host) (p1 p2 : float * float * float) (w : world)
  : axis_outcome * world :=
  let '(outcome, d) := host_constructionAxes_add H p1 p2 (root_comp w) in
  (outcome, logged w d (Call_constructionAxes_add p1 p2)).

(** The handler context built by [_handle_request]. *)
Record context : Type := {
  design : bool;
  has_root_comp : bool;
  units_mgr : option UnitsManager;
  convert_mm : option UnitsManager -> float -> float
}.

(** ** Pieces shared by the feature commands *)

(** The four module constants [MAX_APPLY_MS], [MAX_FACE_DELTA],
    [MAX_EDGE_DELTA], [MAX_BODY_DELTA] of a command. *)
Record GuardrailThresholds : Type := {
  max_apply_ms : Z;
  max_face_delta : Z;
  max_edge_delta : Z;
  max_body_delta : Z
}.

(** The [if / elif] chain after the "after" snapshot.  [MAX_APPLY_MS] is a
    float with an integral value ([1500.0]). *)
Definition guardrail_check (t : GuardrailThresholds) (timing_ms : float)
  (face_delta edge_delta body_delta : Z) : option string :=
  if float_ltb (Z2float (max_apply_ms t)) timing_ms then
    Some ("Apply exceeded MAX_APPLY_MS (" ++ py_str_float_int (max_apply_ms t) ++ " ms)")
  else if (max_face_delta t <? face_delta)%Z then
    Some ("face_count_delta exceeded MAX_FACE_DELTA ("
          ++ py_str_int (max_face_delta t) ++ ")")
  else if (max_edge_delta t <? edge_delta)%Z then
    Some ("edge_count_delta exceeded MAX_EDGE_DELTA ("
          ++ py_str_int (max_edge_delta t) ++ ")")
  else if (max_body_delta t <? body_delta)%Z then
    Some ("body_count_delta exceeded MAX_BODY_DELTA ("
          ++ py_str_int (max_body_delta t) ++ ")")
  else None.

Record counts : Type := { n_faces : Z; n_edges : Z; n_vertices : Z }.

Definition _total_counts (d : Component) (bodies : list body_ref) : counts :=
  fold_left
    (fun totals r =>
       let body := body_at d r in
       {| n_faces := n_faces totals + selection_helpers._collection_count (b_faces body);
          n_edges := n_edges totals + selection_helpers._collection_count (b_edges body);
          n_vertices :=
            n_vertices totals + selection_helpers._collection_count (b_vertices body) |})
    bodies {| n_faces := 0; n_edges := 0; n_vertices := 0 |}.

Definition response_error (msg : string) : pyval :=
  PyDict [("ok", PyBool false); ("error", PyStr msg)].

Definition response_error_candidates (msg : string) (candidates : list string) : pyval :=
  PyDict [("ok", PyBool false); ("error", PyStr msg);
          ("candidates", PyList (map PyStr candidates))].

(** [{"ok": False, "error": msg, "data": {"preview": {"plan": plan}}}]. *)
Definition response_error_plan (msg : string) (plan : pyval) : pyval :=
  PyDict [("ok", PyBool false); ("error", PyStr msg);
          ("data", PyDict [("preview", PyDict [("plan", plan)])])].

Definition response_ok (data : pyval) : pyval :=
  PyDict [("ok", PyBool true); ("error", PyNone); ("data", data)].

Definition preview_block (is_preview : bool) (plan : pyval) : pyval :=
  PyDict [("is_preview", PyBool is_preview); ("plan", plan)].

(** The reply every feature command gives when [_resolve_body] finds no
    body ([bodies] is the list it returned). *)
Definition body_not_resolved (d : Component) (body_name : option string)
  (bodies : list body_ref) : pyval :=
  let candidates := sorted_strs (map (fun r => b_name (body_at d r)) bodies) in
  if str_truthy body_name then
    response_error_candidates
      ("Body not found: " ++ match body_name with Some n => n | None => "" end
       ++ ". Candidates: " ++ py_repr_str_list candidates)
      candidates
  else
    match candidates with
    | [] => response_error_candidates "No visible solid body found." []
    | _ => response_error_candidates "Multiple visible bodies; specify body_name."
             candidates
    end.

Definition feature_id (feature : option Feature) : option string :=
  match feature with
  | Some f => selection_helpers._entity_id (feature_ids f)
  | None => None
  end.

Definition feature_name_of (feature : option Feature) : option string :=
  match feature with
  | Some f => feature_name f
  | None => None
  end.

Definition apply_block (feature : option Feature) (compute_ran : bool)
  (timing_ms : float) : pyval :=
  PyDict [("feature", PyDict [("id", opt_py PyStr (feature_id feature));
                              ("name", opt_py PyStr (feature_name_of feature))]);
          ("compute", PyDict [("ran", PyBool compute_ran)]);
          ("timing_ms", PyFloat timing_ms)].

(** The rollback block
    [try: feature.deleteMe(); (if compute:) design.computeAll()
     except Exception: pass].
    With no feature object the attribute access raises before the host is
    called; a failed delete skips the recompute; nothing is reported. *)
Definition rollback (H : host) (feature : option Feature) (recompute : bool)
  (w : world) : world :=
  match feature with
  | None => w
  | Some f =>
      let '(deleted, w1) := do_deleteMe H f w in
      if deleted then
        if recompute then snd (do_computeAll H w1) else w1
      else w1
  end.

Definition elapsed_ms (start_time now : float) : float :=
  ((now - start_time) * Z2float 1000)%Qc.

(** What distinguishes the feature commands that share the apply /
    recompute / guardrail / rollback code. *)
Record command_profile : Type := {
  thresholds : GuardrailThresholds;
  failure_prefix : string;
  guard_rereads_clock : bool
}.

(** What [handle] knows once the host operation has returned: the feature,
    the recompute flag, the timings and the count deltas between the
    "before" and "after" snapshots. *)
Record measured : Type := {
  m_feature : option Feature;
  m_compute_ran : bool;
  m_timing_ms : float;
  m_guard_ms : float;
  m_face_delta : Z;
  m_edge_delta : Z;
  m_body_delta : Z;
  m_before_visible : list body_ref;
  m_after_visible : list body_ref
}.

(** The [try] block failed with [exc], or the operation was applied. *)
Inductive attempt : Type :=
| Failed (exc : string)
| Applied (m : measured).

(** From the "before" snapshot to the "after" snapshot, as written in
    extrude_profile, fillet_feature, hole_feature, shell_feature,
    mirror_feature, pattern_feature and revolve_feature: a failed
    recompute is passed over.  [compute] is the value of the
    [if compute:] guard around the recompute ([true] where the source has
    no such guard). *)
Definition apply_and_measure (prof : command_profile) (H : host)
  (request : apply_request) (compute : bool) (w : world) : attempt * world :=
  let before_visible := selection_helpers._list_visible_bodies (root_comp w) in
  let before_counts := _total_counts (root_comp w) before_visible in
  let before_body_count := Z.of_nat (length before_visible) in
  let '(start_time, w) := time_time H w in
  let '(outcome, w) := do_apply H request w in
  match outcome with
  | Raises exc => (Failed exc, w)
  | Returns feature =>
      let '(compute_ran, w) :=
        if compute then do_computeAll H w else (false, w) in
      let '(now, w) := time_time H w in
      let timing_ms := elapsed_ms start_time now in
      let after_visible := selection_helpers._list_visible_bodies (root_comp w) in
      let after_counts := _total_counts (root_comp w) after_visible in
      let after_body_count := Z.of_nat (length after_visible) in
      let '(guard_ms, w) :=
        if guard_rereads_clock prof then
          let '(again, w') := time_time H w in (elapsed_ms start_time again, w')
        else (timing_ms, w) in
      (Applied {| m_feature := feature;
                  m_compute_ran := compute_ran;
                  m_timing_ms := timing_ms;
                  m_guard_ms := guard_ms;
                  m_face_delta := n_faces after_counts - n_faces before_counts;
                  m_edge_delta := n_edges after_counts - n_edges before_counts;
                  m_body_delta := after_body_count - before_body_count;
                  m_before_visible := before_visible;
                  m_after_visible := after_visible |},
       w)
  end.

Definition guardrail_error (t : GuardrailThresholds) (m : measured) : option string :=
  guardrail_check t (m_guard_ms m) (m_face_delta m) (m_edge_delta m) (m_body_delta m).

(** The part of [handle] after the preview return in those seven
    commands.  [rollback_compute] is the [if compute:] guard of the
    rollback recompute ([true] where the source has none). *)
Definition guarded_apply (prof : command_profile) (H : host)
  (request : apply_request) (plan : pyval) (compute rollback_compute : bool)
  (w : world) : pyval * world :=
  let '(result, w) := apply_and_measure prof H request compute w in
  match result with
  | Failed exc => (response_error_plan (failure_prefix prof ++ exc) plan, w)
  | Applied m =>
      match guardrail_error (thresholds prof) m with
      | Some message =>
          (response_error_plan message plan,
           rollback H (m_feature m) rollback_compute w)
      | None =>
          (response_ok
             (PyDict [("preview", preview_block false plan);
                      ("apply",
                       apply_block (m_feature m) (m_compute_ran m) (m_timing_ms m))]),
           w)
      end
  end.

(** A handler either returns early with a response or goes on with a
    value. *)
Inductive step (A : Type) : Type :=
| Respond (response : pyval)
| Go (a : A).
Arguments Respond {A} response.
Arguments Go {A} a.

Definition all_edges (d : Component) : list BRepEdge :=
  flat_map (fun r => b_edges (body_at d r)) (selection_helpers._list_visible_bodies d).

Definition all_faces (d : Component) : list (BRepFace * body_ref) :=
  flat_map (fun r => map (fun f => (f, r)) (b_faces (body_at d r)))
           (selection_helpers._list_visible_bodies d).

Definition id_is (ids : entity_ids) (wanted : string) : bool :=
  match selection_helpers._entity_id ids with
  | Some v => String.eqb v wanted
  | None => false
  end.

Definition py_opt_str (o : option string) : pyval := opt_py PyStr o.

Definition zero : float := Q2Qc 0.

(** ** commands/fillet_feature.py *)

Module fillet_feature.

Definition MAX_RADIUS_MM : Z := 50.

Definition MAX_APPLY_MS : Z := 5000.
Definition MAX_FACE_DELTA : Z := 300.
Definition MAX_EDGE_DELTA : Z := 600.
Definition MAX_BODY_DELTA : Z := 1.

Definition limits : GuardrailThresholds :=
  {| max_apply_ms := MAX_APPLY_MS;
     max_face_delta := MAX_FACE_DELTA;
     max_edge_delta := MAX_EDGE_DELTA;
     max_body_delta := MAX_BODY_DELTA |}.

Definition profile : command_profile :=
  {| thresholds := limits;
     failure_prefix := "Fillet failed: ";
     guard_rereads_clock := false |}.

(** The request after [request.get]: [radius_mm] is the result of
    [float(radius_mm)] ([None] when it raises), [point_mm] a dictionary
    with numeric coordinates ([None] when it is not a dictionary). *)
Record request : Type := {
  edge_id : option string;
  edge_selector : option string;
  body_name : option string;
  point_mm : option (float * float * float);
  radius_mm : option float;
  preview : bool;
  compute : bool
}.

Definition _find_edge_by_id (d : Component) (wanted : string) : option BRepEdge :=
  find (fun e => id_is (edge_ids e) wanted) (all_edges d).

Definition resolve_edge (rq : request) (ctx : context) (d : Component)
  : step BRepEdge :=
  if str_truthy (edge_id rq) then
    let wanted := match edge_id rq with Some s => s | None => "" end in
    match _find_edge_by_id d wanted with
    | None => Respond (response_error ("edge_id not found: " ++ wanted))
    | Some edge => Go edge
    end
  else
    let text := match edge_selector rq with Some s => s | None => "" end in
    match selection_helpers._parse_edge_selector text with
    | None => Respond (response_error ("Unsupported edge_selector: " ++ text))
    | Some selector =>
        match selection_helpers._resolve_body d (body_name rq) with
        | (None, bodies) => Respond (body_not_resolved d (body_name rq) bodies)
        | (Some body, _) =>
            let need_point :=
              match selector with
              | selection_helpers.closest_to_point => true
              | _ => false
              end in
            if need_point && match point_mm rq with None => true | Some _ => false end
            then Respond (response_error "point_mm is required for closest_to_point")
            else
              let point := if need_point then point_mm rq else None in
              match selection_helpers._select_edge (body_at d body) selector
                      (units_mgr ctx) (convert_mm ctx) point with
              | (None, _) => Respond (response_error "No edges matched selector.")
              | (Some selected, _) => Go (selection_helpers.ec_edge selected)
              end
        end
    end.

(** The [plan] dictionary. *)
Definition make_plan (rq : request) (edge : BRepEdge) (radius : float) : pyval :=
  PyDict [("edge_id", py_opt_str (selection_helpers._entity_id (edge_ids edge)));
          ("edge_selector", py_opt_str (edge_selector rq));
          ("radius_mm", PyFloat radius)].

Definition handle (H : host) (rq : request) (ctx : context) (w : world)
  : pyval * world :=
  if negb (design ctx) || negb (has_root_comp ctx) then
    (response_error "No active design.", w)
  else if negb (str_truthy (edge_id rq)) && negb (str_truthy (edge_selector rq)) then
    (response_error "edge_id or edge_selector is required", w)
  else
    match radius_mm rq with
    | None => (response_error "radius_mm must be numeric", w)
    | Some radius =>
        if float_leb radius zero then
          (response_error "radius_mm must be > 0", w)
        else if float_ltb (Z2float MAX_RADIUS_MM) radius then
          (response_error ("radius_mm exceeds MAX_RADIUS_MM ("
                           ++ py_str_float_int MAX_RADIUS_MM ++ ")"), w)
        else
          match resolve_edge rq ctx (root_comp w) with
          | Respond response => (response, w)
          | Go edge =>
              let plan := make_plan rq edge radius in
              if preview rq then
                (response_ok (PyDict [("preview", preview_block true plan);
                                      ("apply", PyNone)]), w)
              else
                guarded_apply profile H
                  (FilletEdge edge (_mm_to_internal (units_mgr ctx) radius))
                  plan (compute rq) true w
          end
    end.

End fillet_feature.

(** ** commands/hole_feature.py *)

Module hole_feature.

Definition MAX_DISTANCE_MM : Z := 50.

Definition MAX_APPLY_MS : Z := 5000.
Definition MAX_FACE_DELTA : Z := 200.
Definition MAX_EDGE_DELTA : Z := 400.
Definition MAX_BODY_DELTA : Z := 1.

Definition limits : GuardrailThresholds :=
  {| max_apply_ms := MAX_APPLY_MS;
     max_face_delta := MAX_FACE_DELTA;
     max_edge_delta := MAX_EDGE_DELTA;
     max_body_delta := MAX_BODY_DELTA |}.

Definition profile : command_profile :=
  {| thresholds := limits;
     failure_prefix := "Hole feature failed: ";
     guard_rereads_clock := true |}.

(** [center_mm] as received: not a dictionary, a dictionary with a
    coordinate [float] rejects, or a point (missing coordinates are 0.0). *)
Inductive center_field : Type :=
| CenterNotDict
| CenterNotNumeric
| Center (p : float * float * float).

Record request : Type := {
  body_name : option string;
  face_selector : option string;
  face_id : option string;
  center_mm : center_field;
  diameter_mm : option float;
  depth_mm : option float;
  through_all : bool;
  preview : bool
}.

Definition _find_face_by_id (d : Component) (wanted : string)
  : option (BRepFace * body_ref) :=
  find (fun fb => id_is (face_ids (fst fb)) wanted) (all_faces d).

Definition resolve_face (rq : request) (ctx : context) (d : Component)
  : step (BRepFace * body_ref) :=
  if str_truthy (face_id rq) then
    let wanted := match face_id rq with Some s => s | None => "" end in
    match _find_face_by_id d wanted with
    | None => Respond (response_error ("face_id not found: " ++ wanted))
    | Some found => Go found
    end
  else
    let text := match face_selector rq with Some s => s | None => "" end in
    match selection_helpers._parse_face_selector text with
    | None => Respond (response_error ("Unsupported face_selector: " ++ text))
    | Some selector =>
        match selection_helpers._resolve_body d (body_name rq) with
        | (None, bodies) => Respond (body_not_resolved d (body_name rq) bodies)
        | (Some body, _) =>
            match selection_helpers._select_face (body_at d body) selector
                    (units_mgr ctx) (convert_mm ctx) with
            | (None, _) => Respond (response_error "No faces matched selector.")
            | (Some selected, _) => Go (selection_helpers.fc_face selected, body)
            end
        end
    end.

(** The checks on [depth_mm], made only when [through_all] is false. *)
Definition check_depth (rq : request) : step (option float) :=
  if through_all rq then Go None
  else
    match depth_mm rq with
    | None => Respond (response_error "depth_mm must be numeric when through_all is false")
    | Some depth =>
        if float_leb depth zero then Respond (response_error "depth_mm must be > 0")
        else if float_ltb (Z2float MAX_DISTANCE_MM) depth then
          Respond (response_error ("depth_mm exceeds MAX_DISTANCE_MM ("
                                   ++ py_str_float_int MAX_DISTANCE_MM ++ ")"))
        else Go (Some depth)
    end.

(** The [plan] dictionary. *)
Definition make_plan (rq : request) (d : Component) (face : BRepFace)
  (body : body_ref) (center : float * float * float) (diameter : float)
  (depth : option float) : pyval :=
  let '(cx, cy, cz) := center in
  PyDict [("body_name", PyStr (b_name (body_at d body)));
          ("face",
           PyDict [("id", py_opt_str (selection_helpers._entity_id (face_ids face)));
                   ("selector", py_opt_str (face_selector rq))]);
          ("center_mm", selection_helpers.py_point cx cy cz);
          ("diameter_mm", PyFloat diameter);
          ("depth_mm", opt_py PyFloat depth);
          ("through_all", PyBool (through_all rq))].

Definition handle (H : host) (rq : request) (ctx : context) (w : world)
  : pyval * world :=
  if negb (design ctx) || negb (has_root_comp ctx) then
    (response_error "No active design.", w)
  else if negb (str_truthy (face_id rq)) && negb (str_truthy (face_selector rq)) then
    (response_error "face_selector or face_id is required", w)
  else
    match center_mm rq with
    | CenterNotDict =>
        (response_error "center_mm must be an object with x,y,z", w)
    | CenterNotNumeric =>
        (response_error "center_mm and diameter_mm must be numeric", w)
    | Center (cx, cy, cz) =>
        match diameter_mm rq with
        | None => (response_error "center_mm and diameter_mm must be numeric", w)
        | Some diameter =>
            if float_leb diameter zero then
              (response_error "diameter_mm must be > 0", w)
            else
              match check_depth rq with
              | Respond response => (response, w)
              | Go depth =>
                  match resolve_face rq ctx (root_comp w) with
                  | Respond response => (response, w)
                  | Go (face, body) =>
                      let plan :=
                        make_plan rq (root_comp w) face body (cx, cy, cz)
                          diameter depth in
                      if preview rq then
                        (response_ok (PyDict [("preview", preview_block true plan);
                                              ("apply", PyNone)]), w)
                      else
                        guarded_apply profile H
                          (HoleOnFace face (Some body) (cx, cy, cz) diameter depth)
                          plan true true w
                  end
              end
        end
    end.

End hole_feature.

(** ** commands/revolve_feature.py *)

Module revolve_feature.

Definition MAX_APPLY_MS : Z := 1500.
Definition MAX_FACE_DELTA : Z := 400.
Definition MAX_EDGE_DELTA : Z := 800.
Definition MAX_BODY_DELTA : Z := 5.

Definition limits : GuardrailThresholds :=
  {| max_apply_ms := MAX_APPLY_MS;
     max_face_delta := MAX_FACE_DELTA;
     max_edge_delta := MAX_EDGE_DELTA;
     max_body_delta := MAX_BODY_DELTA |}.

Definition profile : command_profile :=
  {| thresholds := limits;
     failure_prefix := "Revolve failed: ";
     guard_rereads_clock := false |}.

(** [axis_line_mm] as received: absent or falsy; not a dictionary; a
    dictionary whose [p1] or [p2] is not a dictionary; points with a
    coordinate [float] rejects; two points. *)
Inductive axis_line_field : Type :=
| AxisLineAbsent
| AxisLineNotDict
| AxisLineNoPoints
| AxisLineNotNumeric
| AxisLine (p1 p2 : float * float * float).

Record request : Type := {
  profile_sketch_id : option string;
  profile_curve_ids : option (list string);
  axis_selector : option string;
  axis_line_mm : axis_line_field;
  edge_id : option string;
  body_name : option string;
  angle_deg : option float;
  operation : string;
  preview : bool
}.

Definition operations : list string := ["new_body"; "join"; "cut"; "intersect"].

Definition str_in (s : string) (l : list string) : bool :=
  existsb (String.eqb s) l.

Definition _find_sketch (d : Component) (sketch_id : string) : option Sketch :=
  find (fun s => id_is (sketch_ids s) sketch_id) (sketches d).

(** The identities found on the curves of a profile. *)
Definition profile_curve_found (p : Profile) : list string :=
  flat_map
    (fun loop =>
       flat_map
         (fun curve =>
            match selection_helpers._entity_id (curve_sketchEntity curve) with
            | Some v => if String.eqb v "" then [] else [v]
            | None => []
            end)
         loop)
    (profileLoops p).

Definition _find_profile (sketch : Sketch) (curve_ids : list string) : option Profile :=
  match curve_ids with
  | [] => hd_error (sketch_profiles sketch)
  | _ =>
      find (fun p => forallb (fun c => str_in c (profile_curve_found p)) curve_ids)
           (sketch_profiles sketch)
  end.

Definition _find_edge_by_id (d : Component) (wanted : string) : option BRepEdge :=
  find (fun e => id_is (edge_ids e) wanted) (all_edges d).

(** [units_mgr.convert(v, "mm", units_mgr.internalUnits)], unguarded. *)
Definition convert_or_raise (um : option UnitsManager) (v : float) : string + float :=
  match um with
  | None => inl "'NoneType' object has no attribute 'convert'"
  | Some u =>
      match convert_mm_to_internal u v with
      | Some r => inr r
      | None => inl (convert_exc u)
      end
  end.

Definition convert_point (um : option UnitsManager) (p : float * float * float)
  : string + float * float * float :=
  let '(a, b, c) := p in
  match convert_or_raise um a with
  | inl e => inl e
  | inr a' =>
      match convert_or_raise um b with
      | inl e => inl e
      | inr b' =>
          match convert_or_raise um c with
          | inl e => inl e
          | inr c' => inr (a', b', c')
          end
      end
  end.

Definition py_tuple_point (p : float * float * float) : pyval :=
  let '(a, b, c) := p in selection_helpers.py_point a b c.

(** The axis of revolution and its entry in the plan.  The [axis_line_mm]
    branch creates a construction axis in the document. *)
Definition resolve_axis (H : host) (rq : request) (ctx : context) (w : world)
  : step (revolve_axis * pyval) * world :=
  if str_truthy (edge_id rq) then
    let wanted := match edge_id rq with Some s => s | None => "" end in
    match _find_edge_by_id (root_comp w) wanted with
    | None => (Respond (response_error ("edge_id not found: " ++ wanted)), w)
    | Some edge => (Go (AxisEdge edge, PyDict [("edge_id", PyStr wanted)]), w)
    end
  else if str_truthy (axis_selector rq) then
    let text := match axis_selector rq with Some s => s | None => "" end in
    match selection_helpers._parse_edge_selector text with
    | None => (Respond (response_error ("Unsupported axis_selector: " ++ text)), w)
    | Some selector =>
        match selection_helpers._resolve_body (root_comp w) (body_name rq) with
        | (None, bodies) =>
            (Respond (body_not_resolved (root_comp w) (body_name rq) bodies), w)
        | (Some body, _) =>
            match selection_helpers._select_edge (body_at (root_comp w) body) selector
                    (units_mgr ctx) (convert_mm ctx) None with
            | (None, _) =>
                (Respond (response_error "No edges matched axis_selector."), w)
            | (Some selected, _) =>
                (Go (AxisEdge (selection_helpers.ec_edge selected),
                     PyDict [("axis_selector", PyStr text)]), w)
            end
        end
    end
  else
    match axis_line_mm rq with
    | AxisLineAbsent =>
        (Respond (response_error "axis_selector, edge_id, or axis_line_mm is required"), w)
    | AxisLineNotDict =>
        (Respond (response_error "axis_line_mm must be an object with p1 and p2"), w)
    | AxisLineNoPoints =>
        (Respond (response_error "axis_line_mm must include p1 and p2 points"), w)
    | AxisLineNotNumeric =>
        (Respond (response_error "axis_line_mm points must be numeric"), w)
    | AxisLine p1 p2 =>
        let axis_plan :=
          PyDict [("axis_line_mm",
                   PyDict [("p1", py_tuple_point p1); ("p2", py_tuple_point p2)])] in
        let failed exc :=
          Respond (response_error ("Failed to create axis from axis_line_mm: " ++ exc)) in
        match convert_point (units_mgr ctx) p1 with
        | inl exc => (failed exc, w)
        | inr p1i =>
            match convert_point (units_mgr ctx) p2 with
            | inl exc => (failed exc, w)
            | inr p2i =>
                let '(outcome, w') := do_axis_add H p1i p2i w in
                match outcome with
                | AxisRaises exc => (failed exc, w')
                | AxisReturns axis => (Go (AxisConstruction axis, axis_plan), w')
                end
            end
        end
    end.

Definition handle (H : host) (rq : request) (ctx : context) (w : world)
  : pyval * world :=
  if negb (design ctx) || negb (has_root_comp ctx) then
    (response_error "No active design.", w)
  else if negb (str_truthy (profile_sketch_id rq)) then
    (response_error "profile_sketch_id is required", w)
  else
    let sketch_id := match profile_sketch_id rq with Some s => s | None => "" end in
    match angle_deg rq with
    | None => (response_error "angle_deg must be numeric", w)
    | Some angle =>
        if negb (str_in (operation rq) operations) then
          (response_error ("Unsupported operation: " ++ operation rq), w)
        else
          match _find_sketch (root_comp w) sketch_id with
          | None =>
              (response_error ("profile_sketch_id not found: " ++ sketch_id), w)
          | Some sketch =>
              match _find_profile sketch
                      (match profile_curve_ids rq with Some l => l | None => [] end) with
              | None =>
                  (response_error "Failed to resolve profile from profile_curve_ids", w)
              | Some prof =>
                  let '(resolved, w) := resolve_axis H rq ctx w in
                  match resolved with
                  | Respond response => (response, w)
                  | Go (axis, axis_plan) =>
                      let plan :=
                        PyDict
                          [("profile_sketch_id", PyStr sketch_id);
                           ("profile_curve_ids",
                            opt_py (fun l => PyList (map PyStr l)) (profile_curve_ids rq));
                           ("axis", axis_plan);
                           ("angle_deg", PyFloat angle);
                           ("operation", PyStr (operation rq))] in
                      if preview rq then
                        (response_ok (PyDict [("preview", preview_block true plan)]), w)
                      else
                        guarded_apply profile H
                          (RevolveProfile prof axis (operation rq) angle)
                          plan true true w
                  end
              end
          end
    end.

End revolve_feature.

(** ** Guardrail tables and apply phases of the other feature commands

    extrude_profile, shell_feature, mirror_feature and pattern_feature run
    the same code after their preview return; the plan is an argument, and
    their plan derivation is embedded further down ([extrude_profile_command],
    [shell_command], [mirror_command], [pattern_command]). *)

Module extrude_profile.

Definition MAX_DISTANCE_MM : Z := 100.

Definition MAX_APPLY_MS : Z := 5000.
Definition MAX_FACE_DELTA : Z := 300.
Definition MAX_EDGE_DELTA : Z := 600.
Definition MAX_BODY_DELTA : Z := 1.

Definition limits : GuardrailThresholds :=
  {| max_apply_ms := MAX_APPLY_MS;
     max_face_delta := MAX_FACE_DELTA;
     max_edge_delta := MAX_EDGE_DELTA;
     max_body_delta := MAX_BODY_DELTA |}.

Definition profile : command_profile :=
  {| thresholds := limits;
     failure_prefix := "Extrude profile failed: ";
     guard_rereads_clock := false |}.

Definition apply_phase (H : host) (plan : pyval) (compute : bool) (w : world)
  : pyval * world :=
  guarded_apply profile H (OtherFeature "extrude_profile" plan) plan compute compute w.

End extrude_profile.

Module shell_feature.

Definition MAX_DISTANCE_MM : Z := 50.

Definition MAX_APPLY_MS : Z := 5000.
Definition MAX_FACE_DELTA : Z := 500.
Definition MAX_EDGE_DELTA : Z := 1000.
Definition MAX_BODY_DELTA : Z := 1.

Definition limits : GuardrailThresholds :=
  {| max_apply_ms := MAX_APPLY_MS;
     max_face_delta := MAX_FACE_DELTA;
     max_edge_delta := MAX_EDGE_DELTA;
     max_body_delta := MAX_BODY_DELTA |}.

Definition profile : command_profile :=
  {| thresholds := limits;
     failure_prefix := "Shell failed: ";
     guard_rereads_clock := false |}.

Definition apply_phase (H : host) (plan : pyval) (w : world) : pyval * world :=
  guarded_apply profile H (OtherFeature "shell_feature" plan) plan true true w.

End shell_feature.

Module mirror_feature.

Definition MAX_APPLY_MS : Z := 1500.
Definition MAX_FACE_DELTA : Z := 400.
Definition MAX_EDGE_DELTA : Z := 800.
Definition MAX_BODY_DELTA : Z := 10.

Definition limits : GuardrailThresholds :=
  {| max_apply_ms := MAX_APPLY_MS;
     max_face_delta := MAX_FACE_DELTA;
     max_edge_delta := MAX_EDGE_DELTA;
     max_body_delta := MAX_BODY_DELTA |}.

Definition profile : command_profile :=
  {| thresholds := limits;
     failure_prefix := "Mirror failed: ";
     guard_rereads_clock := false |}.

Definition apply_phase (H : host) (plan : pyval) (w : world) : pyval * world :=
  guarded_apply profile H (OtherFeature "mirror_feature" plan) plan true true w.

End mirror_feature.

Module pattern_feature.

Definition MAX_DISTANCE_MM : Z := 50.

Definition MAX_APPLY_MS : Z := 5000.
Definition MAX_FACE_DELTA : Z := 500.
Definition MAX_EDGE_DELTA : Z := 1000.
Definition MAX_BODY_DELTA : Z := 20.

Definition limits : GuardrailThresholds :=
  {| max_apply_ms := MAX_APPLY_MS;
     max_face_delta := MAX_FACE_DELTA;
     max_edge_delta := MAX_EDGE_DELTA;
     max_body_delta := MAX_BODY_DELTA |}.

Definition profile (pattern_type : string) : command_profile :=
  {| thresholds := limits;
     failure_prefix :=
       if String.eqb pattern_type "rectangular" then "Rectangular pattern failed: "
       else "Circular pattern failed: ";
     guard_rereads_clock := false |}.

Definition apply_phase (H : host) (pattern_type : string) (plan : pyval) (w : world)
  : pyval * world :=
  guarded_apply (profile pattern_type) H (OtherFeature "pattern_feature" plan)
    plan true true w.

End pattern_feature.

(** ** commands/extrude_feature.py *)

Module extrude_feature.

Definition MAX_EXTRUDE_MM : Z := 50.

Definition MAX_APPLY_MS : Z := 1500.
Definition MAX_FACE_DELTA : Z := 150.
Definition MAX_EDGE_DELTA : Z := 300.
Definition MAX_BODY_DELTA : Z := 1.

Definition limits : GuardrailThresholds :=
  {| max_apply_ms := MAX_APPLY_MS;
     max_face_delta := MAX_FACE_DELTA;
     max_edge_delta := MAX_EDGE_DELTA;
     max_body_delta := MAX_BODY_DELTA |}.

(** [distance_mm] is the result of [float(distance_mm)], [None] when it
    raises; the other fields carry the defaults [request.get] supplies. *)
Record request : Type := {
  body_name : option string;
  face_selector : string;
  operation : string;
  distance_mm : option float;
  direction : string;
  preview : bool;
  compute : bool;
  units : string;
  verification_tolerance_mm : pyval;
  verification_tolerance_pct : pyval
}.

Definition operations : list string := ["new_body"; "join"; "cut"; "intersect"].

Definition str_in (s : string) (l : list string) : bool :=
  existsb (String.eqb s) l.

Definition _body_counts (body : BRepBody) : pyval :=
  PyDict [("faces", PyInt (selection_helpers._collection_count (b_faces body)));
          ("edges", PyInt (selection_helpers._collection_count (b_edges body)));
          ("vertices", PyInt (selection_helpers._collection_count (b_vertices body)))].

Definition _volume_mm3 (body : BRepBody) (um : option UnitsManager)
  (conv : option UnitsManager -> float -> float) : option float :=
  match physical_volume body with
  | None => None
  | Some volume =>
      let length_factor := selection_helpers._length_factor_mm um conv in
      Some (volume * (length_factor * length_factor * length_factor))%Qc
  end.

(** [_body_measurement(body, ...)], reading the body as the document has
    it now. *)
Definition _body_measurement (d : Component) (r : body_ref)
  (um : option UnitsManager) (conv : option UnitsManager -> float -> float) : pyval :=
  let body := body_at d r in
  PyDict [("body_name", PyStr (b_name body));
          ("bbox_mm",
           opt_py selection_helpers.py_bbox
             (selection_helpers._bbox_mm (body_worldBoundingBox body)
                (body_boundingBox body) um conv));
          ("volume_mm3", opt_py PyFloat (_volume_mm3 body um conv));
          ("counts", _body_counts body)].

Inductive body_key : Type :=
| KeyId (entity : string)
| KeyName (name : string).

Definition _body_key (d : Component) (r : body_ref) : body_key :=
  let body := body_at d r in
  match selection_helpers._entity_id (body_ids body) with
  | Some entity => if String.eqb entity "" then KeyName (b_name body) else KeyId entity
  | None => KeyName (b_name body)
  end.

Definition body_key_eqb (a b : body_key) : bool :=
  match a, b with
  | KeyId x, KeyId y => String.eqb x y
  | KeyName x, KeyName y => String.eqb x y
  | _, _ => false
  end.

(** [[b for b in after_visible if _body_key(b) not in before_keys]]: the
    keys of the bodies listed before the apply are read after it. *)
Definition new_candidates (d : Component) (before_visible after_visible : list body_ref)
  : list body_ref :=
  let before_keys := map (_body_key d) before_visible in
  filter (fun r => negb (existsb (body_key_eqb (_body_key d r)) before_keys))
         after_visible.

Definition _has_bbox (measure : pyval) : bool :=
  truthy measure
  && match dict_get "bbox_mm" measure with
     | Some v => truthy v
     | None => false
     end.

Definition _has_volume (measure : pyval) : bool :=
  match dict_get "volume_mm3" measure with
  | Some PyNone => false
  | Some _ => true
  | None => false
  end.

Definition py_unit_vector (o : option selection_helpers.unit_vector) : pyval :=
  match o with
  | Some (selection_helpers.Normalized v) => PyUnitVector (pt_x v) (pt_y v) (pt_z v)
  | None => PyNone
  end.

(** The verification block of the commit. *)
Definition verify_block (rq : request) (new_body : option body_ref)
  (measure_before measure_after : pyval) : pyval :=
  let bbox_missing := negb (_has_bbox measure_before) || negb (_has_bbox measure_after) in
  let volume_missing :=
    negb (_has_volume measure_before) || negb (_has_volume measure_after) in
  let require_volume := str_in (operation rq) ["join"; "cut"; "intersect"] in
  let source_missing :=
    match new_body with
    | Some _ =>
        negb match dict_get "source_body" measure_after with
             | Some v => truthy v
             | None => false
             end
    | None => false
    end in
  let new_bbox_missing :=
    match new_body with
    | Some _ => negb (_has_bbox measure_after)
    | None => false
    end in
  let new_volume_missing :=
    match new_body with
    | Some _ => require_volume && negb (_has_volume measure_after)
    | None => false
    end in
  let required_pass :=
    negb (bbox_missing || (require_volume && volume_missing) || source_missing
          || new_bbox_missing || new_volume_missing) in
  let warnings :=
    ((if bbox_missing then ["bbox measurement missing"] else [])
     ++ (if require_volume && volume_missing then ["volume measurement missing"]
         else if volume_missing then ["volume measurement missing (advisory)"]
         else [])
     ++ (if source_missing
         then ["source_body measurement missing for new_body operation"] else [])
     ++ (if new_bbox_missing then ["new_body bbox missing"] else [])
     ++ (if new_volume_missing then ["new_body volume missing"] else [])
     ++ ["face_span not computed (no selector provided)"])%list in
  PyDict [("tolerances", PyDict [("mm", verification_tolerance_mm rq);
                                 ("pct", verification_tolerance_pct rq)]);
          ("required_pass", PyBool required_pass);
          ("warnings", PyList (map PyStr warnings));
          ("metrics_attempted", PyList [PyStr "bbox"; PyStr "volume"])].

(** What plan derivation hands to the rest of [handle]. *)
Record planned : Type := {
  p_body : body_ref;
  p_face : BRepFace;
  p_distance_mm : float;
  p_candidate_count : nat;
  p_plan : pyval
}.

(** Validation and selection, up to the [plan] dictionary. *)
Definition derive_plan (rq : request) (ctx : context) (d : Component) : step planned :=
  if negb (String.eqb (units rq) "mm") then
    Respond (response_error ("Unsupported units: " ++ units rq
                             ++ ". Only 'mm' is supported."))
  else
    match selection_helpers._parse_face_selector (face_selector rq) with
    | None => Respond (response_error ("Unsupported face_selector: " ++ face_selector rq))
    | Some selector =>
        if negb (str_in (operation rq) operations) then
          Respond (response_error ("Unsupported operation: " ++ operation rq))
        else if negb (str_in (direction rq) ["normal"; "opposite"]) then
          Respond (response_error ("Unsupported direction: " ++ direction rq))
        else
          match distance_mm rq with
          | None => Respond (response_error "distance_mm must be a number")
          | Some distance =>
              if float_leb distance zero then
                Respond (response_error "distance_mm must be > 0")
              else if float_ltb (Z2float MAX_EXTRUDE_MM) distance then
                Respond (response_error ("distance_mm exceeds MAX_EXTRUDE_MM ("
                                         ++ py_str_float_int MAX_EXTRUDE_MM ++ ")"))
              else
                match selection_helpers._resolve_body d (body_name rq) with
                | (None, bodies) => Respond (body_not_resolved d (body_name rq) bodies)
                | (Some body, _) =>
                    match selection_helpers._select_face (body_at d body) selector
                            (units_mgr ctx) (convert_mm ctx) with
                    | (None, _) =>
                        Respond (response_error "No planar faces matched selector.")
                    | (Some selected, candidate_count) =>
                        let face := selection_helpers.fc_face selected in
                        let centroid_mm :=
                          selection_helpers._point_mm (convert_mm ctx) (units_mgr ctx)
                            (selection_helpers.fc_centroid selected) in
                        let normal_out :=
                          match selection_helpers.fc_normal selected with
                          | Some n => Some n
                          | None =>
                              match face_geometry face with
                              | Some geom =>
                                  match normal geom with
                                  | Some v => selection_helpers._normalize_vector v
                                  | None => None
                                  end
                              | None => None
                              end
                          end in
                        Go {| p_body := body;
                              p_face := face;
                              p_distance_mm := distance;
                              p_candidate_count := candidate_count;
                              p_plan :=
                                PyDict
                                  [("body_name", PyStr (b_name (body_at d body)));
                                   ("face",
                                    PyDict
                                      [("id", PyStr (selection_helpers.fc_face_id selected));
                                       ("selector", PyStr (face_selector rq));
                                       ("centroid_mm", centroid_mm);
                                       ("normal", py_unit_vector normal_out);
                                       ("area_mm2",
                                        opt_py PyFloat
                                          (selection_helpers.fc_area_mm2 selected))]);
                                   ("operation", PyStr (operation rq));
                                   ("distance_mm", PyFloat distance);
                                   ("direction", PyStr (direction rq))] |}
                    end
                end
          end
    end.

Definition trace_block (candidate_count : nat) : pyval :=
  PyDict [("candidates_considered",
           PyDict [("faces", PyInt (Z.of_nat candidate_count))])].

(** The rest of [handle] once the guardrails have passed. *)
Definition commit (H : host) (rq : request) (ctx : context) (p : planned)
  (m : measured) (measure_before : pyval) (w : world) : pyval * world :=
  let um := units_mgr ctx in
  let conv := convert_mm ctx in
  let finish (new_body : option body_ref) :=
    let d := root_comp w in
    let measure_after :=
      match new_body with
      | Some nb =>
          dict_set "source_body" (_body_measurement d (p_body p) um conv)
            (_body_measurement d nb um conv)
      | None => _body_measurement d (p_body p) um conv
      end in
    (response_ok
       (PyDict [("preview", preview_block false (p_plan p));
                ("apply",
                 apply_block (m_feature m) (m_compute_ran m) (m_timing_ms m));
                ("measure_before", measure_before);
                ("measure_after", measure_after);
                ("verify", verify_block rq new_body measure_before measure_after);
                ("trace", trace_block (p_candidate_count p))]),
     w) in
  if String.eqb (operation rq) "new_body" then
    match new_candidates (root_comp w) (m_before_visible m) (m_after_visible m) with
    | [nb] => finish (Some nb)
    | _ :: _ :: _ =>
        (response_error_plan "Multiple bodies created; guardrail failure." (p_plan p),
         rollback H (m_feature m) (compute rq) w)
    | [] =>
        (response_error_plan "No new body created." (p_plan p),
         rollback H (m_feature m) (compute rq) w)
    end
  else finish None.

Definition _apply_extrude (H : host) (face : BRepFace) (operation_name : string)
  (distance : float) (direction_name : string) (um : option UnitsManager)
  (w : world) : apply_outcome * world :=
  do_apply H (ExtrudeFace face operation_name (_mm_to_internal um distance)
                direction_name) w.

(** From the "before" snapshot to the "after" snapshot.  Here a failed
    recompute raises [RuntimeError("Design compute failed")] inside the
    [try]; the [except] clause deletes the feature and [handle] fails. *)
Definition apply_and_measure (H : host) (rq : request) (ctx : context) (p : planned)
  (w : world) : attempt * world :=
  let before_visible := selection_helpers._list_visible_bodies (root_comp w) in
  let before_counts := _total_counts (root_comp w) before_visible in
  let before_body_count := Z.of_nat (length before_visible) in
  let '(start_time, w) := time_time H w in
  let '(outcome, w) :=
    _apply_extrude H (p_face p) (operation rq) (p_distance_mm p) (direction rq)
      (units_mgr ctx) w in
  match outcome with
  | Raises exc => (Failed exc, w)
  | Returns feature =>
      let '(computed, w) :=
        if compute rq then do_computeAll H w else (true, w) in
      if negb computed then
        (Failed "Design compute failed",
         match feature with
         | Some f => snd (do_deleteMe H f w)
         | None => w
         end)
      else
        let '(now, w) := time_time H w in
        let timing_ms := elapsed_ms start_time now in
        let after_visible := selection_helpers._list_visible_bodies (root_comp w) in
        let after_counts := _total_counts (root_comp w) after_visible in
        let after_body_count := Z.of_nat (length after_visible) in
        (Applied {| m_feature := feature;
                    m_compute_ran := compute rq;
                    m_timing_ms := timing_ms;
                    m_guard_ms := timing_ms;
                    m_face_delta := n_faces after_counts - n_faces before_counts;
                    m_edge_delta := n_edges after_counts - n_edges before_counts;
                    m_body_delta := after_body_count - before_body_count;
                    m_before_visible := before_visible;
                    m_after_visible := after_visible |},
         w)
  end.

(** The part of [handle] after the preview return. *)
Definition apply_phase (H : host) (rq : request) (ctx : context) (p : planned)
  (w : world) : pyval * world :=
  let measure_before :=
    _body_measurement (root_comp w) (p_body p) (units_mgr ctx) (convert_mm ctx) in
  let '(result, w) := apply_and_measure H rq ctx p w in
  match result with
  | Failed exc => (response_error_plan ("Extrude failed: " ++ exc) (p_plan p), w)
  | Applied m =>
      match guardrail_error limits m with
      | Some message =>
          (response_error_plan message (p_plan p),
           rollback H (m_feature m) (compute rq) w)
      | None => commit H rq ctx p m measure_before w
      end
  end.

Definition handle (H : host) (rq : request) (ctx : context) (w : world)
  : pyval * world :=
  if negb (design ctx) || negb (has_root_comp ctx) then
    (response_error "No active design.", w)
  else
    match derive_plan rq ctx (root_comp w) with
    | Respond response => (response, w)
    | Go p =>
        if preview rq then
          (response_ok
             (PyDict [("preview", preview_block true (p_plan p));
                      ("apply", PyNone);
                      ("measure_before",
                       _body_measurement (root_comp w) (p_body p)
                         (units_mgr ctx) (convert_mm ctx));
                      ("measure_after", PyNone);
                      ("verify", PyNone);
                      ("trace", trace_block (p_candidate_count p))]),
           w)
        else apply_phase H rq ctx p w
    end.

End extrude_feature.

(** ** commands/_selection_helpers.py: vertices *)

Record BRepVertex : Type := {
  vertex_ids : entity_ids;
  vertex_geometry : option Point3D
}.

Module vertex_selection.

Inductive vertex_selector : Type := vertex_closest_to_point.

Definition _parse_vertex_selector (selector : string) : option vertex_selector :=
  if String.eqb selector "closest_to_point" then Some vertex_closest_to_point
  else None.

Definition _vertex_point (vertex : BRepVertex) : option Point3D :=
  vertex_geometry vertex.

Record vertex_candidate : Type := {
  vc_vertex : BRepVertex;
  vc_score : float;
  vc_point : Point3D;
  vc_point_tuple : float * float * float;
  vc_vertex_id : string
}.

(** The squared distance in the score of [closest_to_point]. *)
Definition squared_distance (t q : float * float * float) : float :=
  let '(tx, ty, tz) := t in
  let '(qx, qy, qz) := q in
  let dx := (tx - qx)%Qc in
  let dy := (ty - qy)%Qc in
  let dz := (tz - qz)%Qc in
  (dx * dx + dy * dy + dz * dz)%Qc.

Definition vertex_candidate_of (selector : vertex_selector)
  (units_mgr : option UnitsManager)
  (convert_mm : option UnitsManager -> float -> float)
  (point_mm : option (float * float * float))
  (vertex : BRepVertex) : option vertex_candidate :=
  let vertex_id :=
    selection_helpers.or_empty (selection_helpers._entity_id (vertex_ids vertex)) in
  match _vertex_point vertex with
  | None => None
  | Some point =>
      let point_tuple := selection_helpers._point_tuple_mm convert_mm units_mgr point in
      match selector with
      | vertex_closest_to_point =>
          match point_mm with
          | None => None
          | Some q =>
              Some {| vc_vertex := vertex;
                      vc_score := (- squared_distance point_tuple q)%Qc;
                      vc_point := point;
                      vc_point_tuple := point_tuple;
                      vc_vertex_id := vertex_id |}
          end
      end
  end.

Definition vertex_key : Type := float * (float * float * float) * string.

Definition _tie_key (item : vertex_candidate) : vertex_key :=
  ((- vc_score item)%Qc, vc_point_tuple item, vc_vertex_id item).

Definition cmp_vertex_key (k1 k2 : vertex_key) : comparison :=
  let '(s1, p1, i1) := k1 in
  let '(s2, p2, i2) := k2 in
  lex (cmp_float s1 s2) (lex (cmp_float3 p1 p2) (cmp_str i1 i2)).

Definition vertex_candidates (vertices : list BRepVertex) (selector : vertex_selector)
  (units_mgr : option UnitsManager)
  (convert_mm : option UnitsManager -> float -> float)
  (point_mm : option (float * float * float)) : list vertex_candidate :=
  selection_helpers.collect
    (vertex_candidate_of selector units_mgr convert_mm point_mm) vertices.

(** [_select_vertex(entity, ...)], on the list [entity.vertices]. *)
Definition _select_vertex (vertices : list BRepVertex) (selector : vertex_selector)
  (units_mgr : option UnitsManager)
  (convert_mm : option UnitsManager -> float -> float)
  (point_mm : option (float * float * float))
  : option vertex_candidate * nat :=
  let candidates := vertex_candidates vertices selector units_mgr convert_mm point_mm in
  match sort_by_key _tie_key cmp_vertex_key candidates with
  | [] => (None, 0%nat)
  | first :: _ => (Some first, length candidates)
  end.

End vertex_selection.

(** ** commands/extrude_feature.py: the module's own selector functions

    [extrude_feature.py] keeps its own [_parse_face_selector] and
    [_select_face]; its [handle] calls those of [_selection_helpers]. *)

Module extrude_feature_local.

Definition _parse_face_selector (selector : string)
  : option selection_helpers.face_selector :=
  if String.eqb selector "largest_planar" then Some selection_helpers.largest_planar
  else if String.prefix "normal_closest:" selector then
    option_map selection_helpers.normal_closest
      (selection_helpers.parse_axis6
         (selection_helpers.strip
            (selection_helpers.after_first selection_helpers.colon selector)))
  else None.

(** One iteration of the loop of the local [_select_face]: every face has
    to be planar, and only the two selectors above give a score. *)
Definition face_candidate_of (selector : selection_helpers.face_selector)
  (units_mgr : option UnitsManager)
  (convert_mm : option UnitsManager -> float -> float)
  (face : BRepFace) : option selection_helpers.face_candidate :=
  if negb (selection_helpers._is_planar face) then None
  else
    match face_centroid face with
    | None => None
    | Some centroid =>
        let area_mm2 := selection_helpers._face_area_mm2 face units_mgr convert_mm in
        let face_id := selection_helpers._entity_id (face_ids face) in
        let centroid_tuple :=
          (convert_mm units_mgr (pt_x centroid),
           convert_mm units_mgr (pt_y centroid),
           convert_mm units_mgr (pt_z centroid)) in
        let mk (score : float) (normal_out : option selection_helpers.unit_vector) :=
          Some {| selection_helpers.fc_face := face;
                  selection_helpers.fc_score := score;
                  selection_helpers.fc_area_mm2 := area_mm2;
                  selection_helpers.fc_centroid := centroid;
                  selection_helpers.fc_centroid_tuple := centroid_tuple;
                  selection_helpers.fc_face_id := selection_helpers.or_empty face_id;
                  selection_helpers.fc_normal := normal_out |} in
        match selector with
        | selection_helpers.largest_planar =>
            match area_mm2 with
            | None => None
            | Some a => mk a None
            end
        | selection_helpers.normal_closest axis =>
            match match face_geometry face with
                  | Some geom => normal geom
                  | None => None
                  end with
            | None => None
            | Some nrm =>
                let '(a0, a1, a2) := selection_helpers._axis_vector axis in
                mk (pt_x nrm * a0 + pt_y nrm * a1 + pt_z nrm * a2)%Qc
                   (selection_helpers._normalize_vector nrm)
            end
        | _ => None
        end
    end.

Definition _select_face (body : BRepBody) (selector : selection_helpers.face_selector)
  (units_mgr : option UnitsManager)
  (convert_mm : option UnitsManager -> float -> float)
  : option selection_helpers.face_candidate * nat :=
  let candidates :=
    selection_helpers.collect (face_candidate_of selector units_mgr convert_mm)
      (b_faces body) in
  match sort_by_key selection_helpers._tie_key selection_helpers.cmp_face_key
          candidates with
  | [] => (None, 0%nat)
  | first :: _ => (Some first, length candidates)
  end.

End extrude_feature_local.

(** ** commands/_feature_helpers.py

    The feature collections of the root component, as
    [_feature_collections] lists them: the type name and the items
    ([None] where [item(idx)] raises or returns nothing).  They are an
    argument of the handlers that read them. *)

Definition FeatureCollections : Type := list (string * list (option Feature)).

Module feature_helpers.

Definition _iter_features (features : FeatureCollections) : list (Feature * string) :=
  flat_map
    (fun entry =>
       selection_helpers.collect
         (fun item => option_map (fun f => (f, fst entry)) item) (snd entry))
    features.

Definition _find_feature_by_id (features : FeatureCollections)
  (feature_id : option string) : option (Feature * string) :=
  if str_truthy feature_id then
    let wanted := match feature_id with Some s => s | None => "" end in
    find (fun ft => id_is (feature_ids (fst ft)) wanted) (_iter_features features)
  else None.

End feature_helpers.

Definition upper_ascii (c : ascii) : ascii :=
  let n := nat_of_ascii c in
  if ((97 <=? n) && (n <=? 122))%nat then ascii_of_nat (n - 32) else c.

(** [str.upper], on ASCII. *)
Fixpoint upper (s : string) : string :=
  match s with
  | EmptyString => EmptyString
  | String c rest => String (upper_ascii c) (upper rest)
  end.

Definition preview_reply (plan : pyval) : pyval :=
  response_ok (PyDict [("preview", preview_block true plan)]).

(** ** commands/shell_feature.py: [handle] *)

Module shell_command.

(** [remove_faces] as received: absent or falsy; truthy but not a list; a
    list of identities. *)
Inductive remove_field : Type :=
| RemoveAbsent
| RemoveNotList
| RemoveIds (ids : list string).

Record request : Type := {
  body_name : option string;
  thickness_mm : option float;
  remove_faces : remove_field;
  preview : bool;
  inside : bool
}.

(** The loop of [_find_faces_by_ids]: [wanted] is the set of identities
    still looked for. *)
Fixpoint scan_faces (faces : list BRepFace) (wanted : list string) : list BRepFace :=
  match faces with
  | [] => []
  | face :: rest =>
      match wanted with
      | [] => []
      | _ =>
          match selection_helpers._entity_id (face_ids face) with
          | Some face_id =>
              if existsb (String.eqb face_id) wanted then
                face :: scan_faces rest (remove string_dec face_id wanted)
              else scan_faces rest wanted
          | None => scan_faces rest wanted
          end
      end
  end.

Definition _find_faces_by_ids (d : Component) (ids : list string) : list BRepFace :=
  scan_faces (map fst (all_faces d)) (nodup string_dec ids).

Definition make_plan (rq : request) (d : Component) (body : body_ref)
  (thickness : float) (auto_selected : list string) : pyval :=
  PyDict [("body_name", PyStr (b_name (body_at d body)));
          ("thickness_mm", PyFloat thickness);
          ("remove_faces",
           match remove_faces rq with
           | RemoveIds (id :: ids) => PyList (map PyStr (id :: ids))
           | _ => PyList (map PyStr auto_selected)
           end);
          ("inside", PyBool (inside rq))].

(** The faces to remove, and the identities chosen when the request names
    none. *)
Definition resolve_faces (rq : request) (ctx : context) (d : Component)
  (body : body_ref) : step (list BRepFace * list string) :=
  match remove_faces rq with
  | RemoveNotList => Respond (response_error "remove_faces must be a list of face ids")
  | RemoveIds (id :: ids) =>
      let found := _find_faces_by_ids d (id :: ids) in
      if negb (Nat.eqb (length found) (length (id :: ids))) then
        Respond (response_error "One or more remove_faces ids not found")
      else Go (found, [])
  | _ =>
      match selection_helpers._select_face (body_at d body)
              selection_helpers.largest_planar (units_mgr ctx) (convert_mm ctx) with
      | (Some selected, _) =>
          let face := selection_helpers.fc_face selected in
          (Go ([face],
               match selection_helpers._entity_id (face_ids face) with
               | Some face_id => if String.eqb face_id "" then [] else [face_id]
               | None => []
               end))
      | (None, _) => Go ([], [])
      end
  end.

Definition handle (H : host) (rq : request) (ctx : context) (w : world)
  : pyval * world :=
  if negb (design ctx) || negb (has_root_comp ctx) then
    (response_error "No active design.", w)
  else
    match thickness_mm rq with
    | None => (response_error "thickness_mm must be numeric", w)
    | Some thickness =>
        if float_leb thickness zero then
          (response_error "thickness_mm must be > 0", w)
        else if float_ltb (Z2float shell_feature.MAX_DISTANCE_MM) thickness then
          (response_error ("thickness_mm exceeds MAX_DISTANCE_MM ("
                           ++ py_str_float_int shell_feature.MAX_DISTANCE_MM ++ ")"), w)
        else
          match selection_helpers._resolve_body (root_comp w) (body_name rq) with
          | (None, bodies) =>
              (body_not_resolved (root_comp w) (body_name rq) bodies, w)
          | (Some body, _) =>
              match resolve_faces rq ctx (root_comp w) body with
              | Respond response => (response, w)
              | Go (faces_to_remove, auto_selected) =>
                  let plan := make_plan rq (root_comp w) body thickness auto_selected in
                  if preview rq then (preview_reply plan, w)
                  else shell_feature.apply_phase H plan w
              end
          end
    end.

End shell_command.

(** ** commands/mirror_feature.py: [handle] *)

Module mirror_command.

Record request : Type := {
  feature_id : option string;
  body_name : option string;
  mirror_plane : option string;
  face_id : option string;
  preview : bool
}.

Definition _find_face_by_id (d : Component) (wanted : string) : option BRepFace :=
  option_map fst (find (fun fb => id_is (face_ids (fst fb)) wanted) (all_faces d)).

(** The three construction planes of the root component, which the host
    always provides. *)
Inductive construction_plane : Type := PlaneXY | PlaneYZ | PlaneXZ.

Definition _plane_from_name (plane_name : option string) : option construction_plane :=
  let name := upper (match plane_name with Some s => s | None => "" end) in
  if String.eqb name "XY" then Some PlaneXY
  else if String.eqb name "YZ" then Some PlaneYZ
  else if String.eqb name "XZ" then Some PlaneXZ
  else None.

(** The entity to mirror: its entry [base] in the plan. *)
Definition resolve_base (rq : request) (features : FeatureCollections) (d : Component)
  : step pyval :=
  if str_truthy (feature_id rq) then
    let wanted := match feature_id rq with Some s => s | None => "" end in
    match feature_helpers._find_feature_by_id features (feature_id rq) with
    | None => Respond (response_error ("feature_id not found: " ++ wanted))
    | Some (_, type_name) =>
        Go (PyDict [("feature_id", PyStr wanted); ("feature_type", PyStr type_name)])
    end
  else
    match selection_helpers._resolve_body d (body_name rq) with
    | (None, bodies) => Respond (body_not_resolved d (body_name rq) bodies)
    | (Some body, _) => Go (PyDict [("body_name", PyStr (b_name (body_at d body)))])
    end.

Definition resolve_plane (rq : request) (d : Component) : step unit :=
  if str_truthy (face_id rq) then
    let wanted := match face_id rq with Some s => s | None => "" end in
    match _find_face_by_id d wanted with
    | None => Respond (response_error ("face_id not found: " ++ wanted))
    | Some _ => Go tt
    end
  else
    match _plane_from_name (mirror_plane rq) with
    | None =>
        Respond (response_error
                   "mirror_plane must be XY, YZ, XZ, or face_id must be provided")
    | Some _ => Go tt
    end.

Definition handle (H : host) (rq : request) (ctx : context)
  (features : FeatureCollections) (w : world) : pyval * world :=
  if negb (design ctx) || negb (has_root_comp ctx) then
    (response_error "No active design.", w)
  else if negb (str_truthy (feature_id rq)) && negb (str_truthy (body_name rq)) then
    (response_error "feature_id or body_name is required", w)
  else
    match resolve_base rq features (root_comp w) with
    | Respond response => (response, w)
    | Go base_label =>
        match resolve_plane rq (root_comp w) with
        | Respond response => (response, w)
        | Go _ =>
            let plan :=
              PyDict [("base", base_label);
                      ("mirror_plane", py_opt_str (mirror_plane rq));
                      ("face_id", py_opt_str (face_id rq))] in
            if preview rq then (preview_reply plan, w)
            else mirror_feature.apply_phase H plan w
        end
    end.

End mirror_command.

(** ** commands/pattern_feature.py: [handle] *)

Module pattern_command.

(** [count1], [count2], [count] are the results of [int(...)], the
    spacings and the angle those of [float(...)]; [None] when the
    conversion raises.  [angle_deg] defaults to 360. *)
Record request : Type := {
  pattern_type : option string;
  feature_id : option string;
  body_name : option string;
  preview : bool;
  axis1 : option string;
  axis2 : option string;
  count1 : option Z;
  count2 : option Z;
  spacing1_mm : option float;
  spacing2_mm : option float;
  axis : option string;
  count : option Z;
  angle_deg : option float
}.

(** The three construction axes of the root component, which the host
    always provides. *)
Inductive construction_axis : Type := AxisObjX | AxisObjY | AxisObjZ.

Definition _axis_from_name (axis_name : option string) : option construction_axis :=
  let name := upper (match axis_name with Some s => s | None => "" end) in
  if String.eqb name "X" then Some AxisObjX
  else if String.eqb name "Y" then Some AxisObjY
  else if String.eqb name "Z" then Some AxisObjZ
  else None.

Definition resolve_base (rq : request) (features : FeatureCollections) (d : Component)
  : step pyval :=
  if str_truthy (feature_id rq) then
    let wanted := match feature_id rq with Some s => s | None => "" end in
    match feature_helpers._find_feature_by_id features (feature_id rq) with
    | None => Respond (response_error ("feature_id not found: " ++ wanted))
    | Some (_, type_name) =>
        Go (PyDict [("feature_id", PyStr wanted); ("feature_type", PyStr type_name)])
    end
  else
    match selection_helpers._resolve_body d (body_name rq) with
    | (None, bodies) => Respond (body_not_resolved d (body_name rq) bodies)
    | (Some body, _) => Go (PyDict [("body_name", PyStr (b_name (body_at d body)))])
    end.

(** The checks of the rectangular branch, up to [plan.update]. *)
Definition rectangular_plan (rq : request) (base_label : pyval) : step pyval :=
  match count1 rq, count2 rq, spacing1_mm rq, spacing2_mm rq with
  | Some c1, Some c2, Some s1, Some s2 =>
      if (c1 <=? 0)%Z || (c2 <=? 0)%Z then
        Respond (response_error "count1 and count2 must be > 0")
      else if float_leb s1 zero || float_leb s2 zero then
        Respond (response_error "spacing1_mm and spacing2_mm must be > 0")
      else if float_ltb (Z2float pattern_feature.MAX_DISTANCE_MM) s1
              || float_ltb (Z2float pattern_feature.MAX_DISTANCE_MM) s2 then
        Respond (response_error ("spacing exceeds MAX_DISTANCE_MM ("
                                 ++ py_str_float_int pattern_feature.MAX_DISTANCE_MM
                                 ++ ")"))
      else
        match _axis_from_name (axis1 rq), _axis_from_name (axis2 rq) with
        | Some _, Some _ =>
            Go (PyDict [("pattern_type", PyStr "rectangular");
                        ("base", base_label);
                        ("axis1", py_opt_str (axis1 rq));
                        ("axis2", py_opt_str (axis2 rq));
                        ("count1", PyInt c1);
                        ("count2", PyInt c2);
                        ("spacing1_mm", PyFloat s1);
                        ("spacing2_mm", PyFloat s2)])
        | _, _ => Respond (response_error "axis1 and axis2 must be X, Y, or Z")
        end
  | _, _, _, _ =>
      Respond (response_error
                 "count1/count2 must be ints and spacing1/spacing2 must be numbers")
  end.

(** The checks of the circular branch. *)
Definition circular_plan (rq : request) (base_label : pyval) : step pyval :=
  match count rq, angle_deg rq with
  | Some c, Some angle =>
      if (c <=? 0)%Z then Respond (response_error "count must be > 0")
      else
        match _axis_from_name (axis rq) with
        | None => Respond (response_error "axis must be X, Y, or Z")
        | Some _ =>
            Go (PyDict [("pattern_type", PyStr "circular");
                        ("base", base_label);
                        ("axis", py_opt_str (axis rq));
                        ("count", PyInt c);
                        ("angle_deg", PyFloat angle)])
        end
  | _, _ => Respond (response_error "count must be int and angle_deg must be numeric")
  end.

Definition handle (H : host) (rq : request) (ctx : context)
  (features : FeatureCollections) (w : world) : pyval * world :=
  if negb (design ctx) || negb (has_root_comp ctx) then
    (response_error "No active design.", w)
  else
    let kind := match pattern_type rq with Some s => s | None => "" end in
    if negb (String.eqb kind "rectangular" || String.eqb kind "circular") then
      (response_error "pattern_type must be rectangular or circular", w)
    else
      match resolve_base rq features (root_comp w) with
      | Respond response => (response, w)
      | Go base_label =>
          match (if String.eqb kind "rectangular" then rectangular_plan rq base_label
                 else circular_plan rq base_label) with
          | Respond response => (response, w)
          | Go plan =>
              if preview rq then (preview_reply plan, w)
              else pattern_feature.apply_phase H kind plan w
          end
      end.

End pattern_command.

(** ** commands/extrude_profile.py: [handle] *)

Module extrude_profile_command.

(** [profile_index] is the result of [int(profile_index)] (default 0),
    [distance_mm] that of [float(distance_mm)]. *)
Record request : Type := {
  sketch_id : option string;
  profile_index : option Z;
  operation : string;
  distance_mm : option float;
  direction : string;
  body_name : option string;
  through_all : bool;
  preview : bool;
  compute : bool
}.

Definition operations : list string := ["new_body"; "join"; "cut"; "intersect"].

Definition str_in (s : string) (l : list string) : bool :=
  existsb (String.eqb s) l.

Definition _find_sketch (d : Component) (wanted : string) : option Sketch :=
  find (fun s => id_is (sketch_ids s) wanted) (sketches d).

(** [sketch.profiles.item(index)], [None] when it raises. *)
Definition profile_item (sketch : Sketch) (index : Z) : option Profile :=
  if (index <? 0)%Z then None
  else nth_error (sketch_profiles sketch) (Z.to_nat index).

(** The checks on [distance_mm], made only when [through_all] is false. *)
Definition check_distance (rq : request) : step (option float) :=
  if through_all rq then Go None
  else
    match distance_mm rq with
    | None => Respond (response_error "distance_mm must be a number")
    | Some distance =>
        if float_leb distance zero then
          Respond (response_error "distance_mm must be > 0")
        else if float_ltb (Z2float extrude_profile.MAX_DISTANCE_MM) distance then
          Respond (response_error
                     ("distance_mm exceeds MAX_DISTANCE_MM ("
                      ++ py_str_float_int extrude_profile.MAX_DISTANCE_MM ++ ")"))
        else Go (Some distance)
    end.

(** The body named by the request, looked for only when a name is given. *)
Definition resolve_named_body (rq : request) (d : Component) : step (option body_ref) :=
  if str_truthy (body_name rq) then
    match selection_helpers._resolve_body d (body_name rq) with
    | (None, bodies) => Respond (body_not_resolved d (body_name rq) bodies)
    | (Some body, _) => Go (Some body)
    end
  else Go None.

Definition handle (H : host) (rq : request) (ctx : context) (w : world)
  : pyval * world :=
  if negb (design ctx) || negb (has_root_comp ctx) then
    (response_error "No active design.", w)
  else if negb (str_truthy (sketch_id rq)) then
    (response_error "sketch_id is required", w)
  else
    let wanted := match sketch_id rq with Some s => s | None => "" end in
    match profile_index rq with
    | None => (response_error "profile_index must be an integer", w)
    | Some index =>
        match check_distance rq with
        | Respond response => (response, w)
        | Go distance =>
            if negb (str_in (direction rq) ["normal"; "opposite"]) then
              (response_error ("Unsupported direction: " ++ direction rq), w)
            else if negb (str_in (operation rq) operations) then
              (response_error ("Unsupported operation: " ++ operation rq), w)
            else
              match _find_sketch (root_comp w) wanted with
              | None => (response_error ("sketch_id not found: " ++ wanted), w)
              | Some sketch =>
                  match profile_item sketch index with
                  | None =>
                      (response_error ("Profile not found at index "
                                       ++ py_str_int index), w)
                  | Some _ =>
                      match resolve_named_body rq (root_comp w) with
                      | Respond response => (response, w)
                      | Go _ =>
                          let plan :=
                            PyDict [("sketch_id", PyStr wanted);
                                    ("profile_index", PyInt index);
                                    ("operation", PyStr (operation rq));
                                    ("distance_mm", opt_py PyFloat distance);
                                    ("direction", PyStr (direction rq));
                                    ("body_name", py_opt_str (body_name rq));
                                    ("through_all", PyBool (through_all rq))] in
                          if preview rq then (preview_reply plan, w)
                          else extrude_profile.apply_phase H plan (compute rq) w
                      end
                  end
              end
        end
    end.

End extrude_profile_command.

(** ** Example host data *)

Module Examples.
Import selection_helpers.

Definition no_ids : entity_ids :=
  {| entityToken := None; tempId := None; entityId := None |}.

Definition token (s : string) : entity_ids :=
  {| entityToken := Some s; tempId := None; entityId := None |}.

Definition pt (a b c : Z) : Point3D :=
  {| pt_x := Z2float a; pt_y := Z2float b; pt_z := Z2float c |}.

Definition plane_z : Surface :=
  {| surfaceType := Some PlaneSurfaceType; isPlane := Some true;
     normal := Some (pt 0 0 1) |}.

Definition cylinder : Surface :=
  {| surfaceType := Some CylinderSurfaceType; isPlane := Some false;
     normal := None |}.

Definition mk_face (ids : entity_ids) (geom : Surface) (centroid : Point3D)
  (area : Z) : BRepFace :=
  {| face_ids := ids;
     face_geometry := Some geom;
     face_centroid := Some centroid;
     face_area := Some (Z2float area);
     face_worldBoundingBox := None;
     face_boundingBox := None |}.

(** A units manager of a document whose internal unit is the millimetre. *)
Definition mm_units : UnitsManager :=
  {| convert_internal_to_mm := fun v => Some v;
     convert_mm_to_internal := fun v => Some v;
     convert_exc := "" |}.

Definition mk_body (name : string) (ids : entity_ids) (faces : list BRepFace) : BRepBody :=
  {| body_ids := ids;
     b_name := name;
     isSolid := Some true;
     isVisible := Some true;
     b_faces := faces;
     b_edges := [];
     b_vertices := [];
     body_worldBoundingBox := None;
     body_boundingBox :=
       Some {| minPoint := pt 0 0 0; maxPoint := pt 10 10 10 |};
     physical_volume := Some (Z2float 1000) |}.

(** Two faces without identity attributes, same area, same centroid. *)
Definition anon_plane : BRepFace := mk_face no_ids plane_z (pt 0 0 0) 4.
Definition anon_cylinder : BRepFace := mk_face no_ids cylinder (pt 0 0 0) 4.

Definition body_plane_first : BRepBody :=
  mk_body "Body1" (token "b1") [anon_plane; anon_cylinder].
Definition body_cylinder_first : BRepBody :=
  mk_body "Body1" (token "b1") [anon_cylinder; anon_plane].

(** Two faces of equal area at (0,0,0) and (1,0,0). *)
Definition face_origin : BRepFace := mk_face (token "f2") plane_z (pt 0 0 0) 4.
Definition face_x1 : BRepFace := mk_face (token "f1") plane_z (pt 1 0 0) 4.

Definition body_two_faces : BRepBody :=
  mk_body "Body1" (token "b1") [face_x1; face_origin].
Definition body_two_faces_rev : BRepBody :=
  mk_body "Body1" (token "b1") [face_origin; face_x1].

(** *** A document with one visible body and one sketch *)

Definition feature1 : Feature :=
  {| feature_ids := token "feat1"; feature_name := Some "Extrude1" |}.

Definition body1 : BRepBody := body_two_faces_rev.
Definition body2 : BRepBody := mk_body "Body2" (token "b2") [face_origin].
Definition body3 : BRepBody := mk_body "Body3" (token "b3") [face_origin].

(** [body1] after an operation that left it with 200 faces. *)
Definition body1_bloated : BRepBody :=
  mk_body "Body1" (token "b1") (repeat face_origin 200).

Definition sketch1 : Sketch :=
  {| sketch_ids := token "sk1";
     sketch_profiles := [{| profileLoops := [] |}] |}.

Definition bodies1 (r : body_ref) : BRepBody :=
  match r with
  | 0%nat => body1
  | 1%nat => body2
  | _ => body3
  end.

Definition doc1 : Component :=
  {| bRepBodies := [0%nat];
     body_at := bodies1;
     sketches := [sketch1];
     constructionAxes := [] |}.

Definition with_bodies (d : Component) (refs : list body_ref) : Component :=
  {| bRepBodies := refs;
     body_at := body_at d;
     sketches := sketches d;
     constructionAxes := constructionAxes d |}.

Definition world1 : world := {| root_comp := doc1; clock_reads := 0; calls := [] |}.

Definition ctx1 : context :=
  {| design := true;
     has_root_comp := true;
     units_mgr := Some mm_units;
     convert_mm := _convert_mm |}.

(** The clock advances by one millisecond between readings. *)
Definition clock_ms (n : nat) : float := Q2Qc (Z.of_nat n # 1000).

Definition add_axis (p1 p2 : float * float * float) (d : Component)
  : axis_outcome * Component :=
  let point t := let '(a, b, c) := t in {| pt_x := a; pt_y := b; pt_z := c |} in
  let axis := {| axis_p1 := point p1; axis_p2 := point p2 |} in
  (AxisReturns axis,
   {| bRepBodies := bRepBodies d;
      body_at := body_at d;
      sketches := sketches d;
      constructionAxes := (constructionAxes d ++ [axis])%list |}).

(** A host on which the operation adds one body ([Body2]). *)
Definition host_one_new_body : host :=
  {| host_apply := fun _ d => (Returns (Some feature1), with_bodies d [0; 1]%nat);
     host_computeAll := fun d => (true, d);
     host_deleteMe := fun _ d => (true, with_bodies d [0%nat]);
     host_constructionAxes_add := add_axis;
     host_time := clock_ms |}.

(** The same host with a recompute that raises. *)
Definition host_compute_fails : host :=
  {| host_apply := fun _ d => (Returns (Some feature1), with_bodies d [0; 1]%nat);
     host_computeAll := fun d => (false, d);
     host_deleteMe := fun _ d => (true, with_bodies d [0%nat]);
     host_constructionAxes_add := add_axis;
     host_time := clock_ms |}.


(** A host on which the operation leaves the body with 200 faces, and on
    which deleting the feature raises. *)
Definition host_bloat : host :=
  {| host_apply :=
       fun _ d =>
         (Returns (Some feature1),
          {| bRepBodies := bRepBodies d;
             body_at := fun _ => body1_bloated;
             sketches := sketches d;
             constructionAxes := constructionAxes d |});
     host_computeAll := fun d => (true, d);
     host_deleteMe := fun _ d => (false, d);
     host_constructionAxes_add := add_axis;
     host_time := clock_ms |}.

Definition extrude_request (distance : float) (is_preview : bool)
  : extrude_feature.request :=
  {| extrude_feature.body_name := None;
     extrude_feature.face_selector := "largest_planar";
     extrude_feature.operation := "new_body";
     extrude_feature.distance_mm := Some distance;
     extrude_feature.direction := "normal";
     extrude_feature.preview := is_preview;
     extrude_feature.compute := true;
     extrude_feature.units := "mm";
     extrude_feature.verification_tolerance_mm := PyFloat (Q2Qc (1 # 10));
     extrude_feature.verification_tolerance_pct := PyFloat (Q2Qc 1) |}.

Definition revolve_preview_request : revolve_feature.request :=
  {| revolve_feature.profile_sketch_id := Some "sk1";
     revolve_feature.profile_curve_ids := None;
     revolve_feature.axis_selector := None;
     revolve_feature.axis_line_mm :=
       revolve_feature.AxisLine (Z2float 0, Z2float 0, Z2float 0)
                                (Z2float 0, Z2float 0, Z2float 10);
     revolve_feature.edge_id := None;
     revolve_feature.body_name := None;
     revolve_feature.angle_deg := Some (Z2float 360);
     revolve_feature.operation := "new_body";
     revolve_feature.preview := true |}.

(** [doc1] with a second visible body, listed first. *)
Definition doc2 : Component := with_bodies doc1 [1; 0]%nat.

(** The plan extrude_feature derives for [rq] on [doc1], and what it
    measures on a host. *)
Definition no_plan : extrude_feature.planned :=
  {| extrude_feature.p_body := 0%nat;
     extrude_feature.p_face := face_origin;
     extrude_feature.p_distance_mm := zero;
     extrude_feature.p_candidate_count := 0%nat;
     extrude_feature.p_plan := PyNone |}.

Definition planned_for (rq : extrude_feature.request) : extrude_feature.planned :=
  match extrude_feature.derive_plan rq ctx1 doc1 with
  | Go p => p
  | Respond _ => no_plan
  end.

Definition no_candidate : selection_helpers.face_candidate :=
  {| selection_helpers.fc_face := face_origin;
     selection_helpers.fc_score := zero;
     selection_helpers.fc_area_mm2 := None;
     selection_helpers.fc_centroid := pt 0 0 0;
     selection_helpers.fc_centroid_tuple := (zero, zero, zero);
     selection_helpers.fc_face_id := "";
     selection_helpers.fc_normal := None |}.

(** The largest planar face of [body1]. *)
Definition selected1 : selection_helpers.face_candidate :=
  match fst (selection_helpers._select_face body1 selection_helpers.largest_planar
               (Some mm_units) _convert_mm) with
  | Some c => c
  | None => no_candidate
  end.

Definition nothing_measured : measured :=
  {| m_feature := None;
     m_compute_ran := false;
     m_timing_ms := zero;
     m_guard_ms := zero;
     m_face_delta := 0;
     m_edge_delta := 0;
     m_body_delta := 0;
     m_before_visible := [];
     m_after_visible := [] |}.

Definition measured_of (result : attempt * world) : measured :=
  match fst result with
  | Applied m => m
  | Failed _ => nothing_measured
  end.

Definition extrude_measured (H : host) (rq : extrude_feature.request) : measured :=
  measured_of (extrude_feature.apply_and_measure H rq ctx1 (planned_for rq) world1).

Definition extrude_world (H : host) (rq : extrude_feature.request) : world :=
  snd (extrude_feature.apply_and_measure H rq ctx1 (planned_for rq) world1).

End Examples.

(** ** Vocabulary of the properties *)

Definition time_breached (t : GuardrailThresholds) (timing_ms : float) : bool :=
  float_ltb (Z2float (max_apply_ms t)) timing_ms.

Definition face_breached (t : GuardrailThresholds) (face_delta : Z) : bool :=
  (max_face_delta t <? face_delta)%Z.

Definition edge_breached (t : GuardrailThresholds) (edge_delta : Z) : bool :=
  (max_edge_delta t <? edge_delta)%Z.

Definition body_breached (t : GuardrailThresholds) (body_delta : Z) : bool :=
  (max_body_delta t <? body_delta)%Z.

Definition time_message (t : GuardrailThresholds) : string :=
  "Apply exceeded MAX_APPLY_MS (" ++ py_str_float_int (max_apply_ms t) ++ " ms)".

Definition face_message (t : GuardrailThresholds) : string :=
  "face_count_delta exceeded MAX_FACE_DELTA (" ++ py_str_int (max_face_delta t) ++ ")".

Definition edge_message (t : GuardrailThresholds) : string :=
  "edge_count_delta exceeded MAX_EDGE_DELTA (" ++ py_str_int (max_edge_delta t) ++ ")".

Definition body_message (t : GuardrailThresholds) : string :=
  "body_count_delta exceeded MAX_BODY_DELTA (" ++ py_str_int (max_body_delta t) ++ ")".

(** The four bounds in the order of the specification: elapsed apply time,
    face-count delta, edge-count delta, body-count delta; each with the
    error it stands for. *)
Definition bounds_in_order (t : GuardrailThresholds) (timing_ms : float)
  (face_delta edge_delta body_delta : Z) : list (bool * string) :=
  [(time_breached t timing_ms, time_message t);
   (face_breached t face_delta, face_message t);
   (edge_breached t edge_delta, edge_message t);
   (body_breached t body_delta, body_message t)].

Definition first_breached (bounds : list (bool * string)) : option string :=
  option_map snd (find fst bounds).

Definition limits_of (apply_ms face edge body : Z) : GuardrailThresholds :=
  {| max_apply_ms := apply_ms;
     max_face_delta := face;
     max_edge_delta := edge;
     max_body_delta := body |}.

(** The table as the specification prints it. *)
Definition specification_table : Prop :=
  extrude_feature.limits = limits_of 1500 150 300 1
  /\ extrude_profile.limits = limits_of 5000 300 600 1
  /\ hole_feature.limits = limits_of 5000 300 600 1
  /\ fillet_feature.limits = limits_of 5000 300 600 1
  /\ shell_feature.limits = limits_of 5000 500 1000 1
  /\ pattern_feature.limits = limits_of 5000 500 1000 20
  /\ mirror_feature.limits = limits_of 1500 400 800 10.

(** The reply of a failed command that carries the plan and nothing else. *)
Definition plan_only_failure (message : string) (plan : pyval) : pyval :=
  PyDict [("ok", PyBool false);
          ("error", PyStr message);
          ("data", PyDict [("preview", PyDict [("plan", plan)])])].

(** The reply of a committed command of the seven that share
    [guarded_apply]. *)
Definition applied_reply (plan : pyval) (feature : option Feature)
  (compute_ran : bool) (timing_ms : float) : pyval :=
  PyDict
    [("ok", PyBool true);
     ("error", PyNone);
     ("data",
      PyDict
        [("preview", PyDict [("is_preview", PyBool false); ("plan", plan)]);
         ("apply",
          PyDict
            [("feature",
              PyDict [("id", py_opt_str (feature_id feature));
                      ("name", py_opt_str (feature_name_of feature))]);
             ("compute", PyDict [("ran", PyBool compute_ran)]);
             ("timing_ms", PyFloat timing_ms)])])].



(** The first element of the sorted pool and the size of the pool: the
    value every [_select_*] function returns. *)
Definition winner_of {A K : Type} (key : A -> K) (cmp : K -> K -> comparison)
  (pool : list A) : option A * nat :=
  match sort_by_key key cmp pool with
  | [] => (None, 0%nat)
  | first :: _ => (Some first, length pool)
  end.

(** The identity token an edge or a vertex contributes to its key. *)
Definition edge_token (e : BRepEdge) : string :=
  selection_helpers.or_empty (selection_helpers._entity_id (edge_ids e)).

Definition vertex_token (v : BRepVertex) : string :=
  selection_helpers.or_empty (selection_helpers._entity_id (vertex_ids v)).

(** A string made of white space only. *)
Definition all_space (s : string) : Prop :=
  forall c, In c (list_ascii_of_string s) -> selection_helpers.is_space c = true.

(** The spelling of a bounding-box axis in a selector. *)
Definition axis3_str (a : selection_helpers.axis3) : string :=
  match a with
  | selection_helpers.AxisX => "x"
  | selection_helpers.AxisY => "y"
  | selection_helpers.AxisZ => "z"
  end.

(** A hole request with another [depth_mm], an extrude_profile request
    with another [distance_mm]. *)
Definition hole_with_depth (rq : hole_feature.request) (depth : option float)
  : hole_feature.request :=
  {| hole_feature.body_name := hole_feature.body_name rq;
     hole_feature.face_selector := hole_feature.face_selector rq;
     hole_feature.face_id := hole_feature.face_id rq;
     hole_feature.center_mm := hole_feature.center_mm rq;
     hole_feature.diameter_mm := hole_feature.diameter_mm rq;
     hole_feature.depth_mm := depth;
     hole_feature.through_all := hole_feature.through_all rq;
     hole_feature.preview := hole_feature.preview rq |}.

Definition profile_with_distance (rq : extrude_profile_command.request)
  (distance : option float) : extrude_profile_command.request :=
  {| extrude_profile_command.sketch_id := extrude_profile_command.sketch_id rq;
     extrude_profile_command.profile_index := extrude_profile_command.profile_index rq;
     extrude_profile_command.operation := extrude_profile_command.operation rq;
     extrude_profile_command.distance_mm := distance;
     extrude_profile_command.direction := extrude_profile_command.direction rq;
     extrude_profile_command.body_name := extrude_profile_command.body_name rq;
     extrude_profile_command.through_all := extrude_profile_command.through_all rq;
     extrude_profile_command.preview := extrude_profile_command.preview rq;
     extrude_profile_command.compute := extrude_profile_command.compute rq |}.

(** The reply is a failure. *)
Definition refused (reply : pyval) : Prop :=
  dict_get "ok" reply = Some (PyBool false).

(** The plan a reply carries under [data.preview.plan]. *)
Definition reply_plan (reply : pyval) : option pyval :=
  match dict_get "data" reply with
  | Some data =>
      match dict_get "preview" data with
      | Some block => dict_get "plan" block
      | None => None
      end
  | None => None
  end.

(** The identity the plan of extrude_feature reports for its face. *)
Definition plan_face_id (plan : pyval) : option pyval :=
  match dict_get "face" plan with
  | Some face => dict_get "id" face
  | None => None
  end.

Definition extrude_with_preview (rq : extrude_feature.request) (is_preview : bool)
  : extrude_feature.request :=
  {| extrude_feature.body_name := extrude_feature.body_name rq;
     extrude_feature.face_selector := extrude_feature.face_selector rq;
     extrude_feature.operation := extrude_feature.operation rq;
     extrude_feature.distance_mm := extrude_feature.distance_mm rq;
     extrude_feature.direction := extrude_feature.direction rq;
     extrude_feature.preview := is_preview;
     extrude_feature.compute := extrude_feature.compute rq;
     extrude_feature.units := extrude_feature.units rq;
     extrude_feature.verification_tolerance_mm :=
       extrude_feature.verification_tolerance_mm rq;
     extrude_feature.verification_tolerance_pct :=
       extrude_feature.verification_tolerance_pct rq |}.

(** The request extrude_feature hands to the host for a derived plan. *)
Definition extrude_host_request (rq : extrude_feature.request) (ctx : context)
  (p : extrude_feature.planned) : apply_request :=
  ExtrudeFace (extrude_feature.p_face p) (extrude_feature.operation rq)
    (_mm_to_internal (units_mgr ctx) (extrude_feature.p_distance_mm p))
    (extrude_feature.direction rq).




(** ** Tactics for the handlers *)

(** One step through the early returns of a handler. *)
Ltac handler_step :=
  match goal with
  | |- (_, ?w) = (_, _) -> _ =>
      let E := fresh "E" in intros E; inversion E; subst; intros; reflexivity
  | |- (match ?x with _ => _ end) = _ -> _ => destruct x eqn:?
  end.

(** At the apply phase a reply carries [data] and the request is no
    preview. *)
Ltac applying has_data :=
  let E := fresh "E" in
  let Hor := fresh "Hor" in
  intros E Hor; exfalso; destruct Hor as [Hor | Hor];
  [congruence
  | match type of E with
    | ?call = _ =>
        let Hd := fresh "Hd" in
        pose proof has_data as Hd; rewrite E in Hd; exact (Hd Hor)
    end].

(** ** Example edges and vertices *)

Module MoreExamples.
Import Examples.

Definition mk_edge (ids : entity_ids) (len : Z) (start_pt end_pt : Point3D)
  (direction : Point3D) : BRepEdge :=
  {| edge_ids := ids;
     edge_length := Some (Z2float len);
     edge_eval_midpoint := None;
     edge_startVertex := Some start_pt;
     edge_endVertex := Some end_pt;
     edge_unit_direction := Some direction |}.

(** An edge of length 4 along x and one of length 10 along z. *)
Definition edge_x : BRepEdge := mk_edge (token "e1") 4 (pt 0 0 0) (pt 4 0 0) (pt 1 0 0).
Definition edge_z : BRepEdge := mk_edge (token "e2") 10 (pt 0 0 0) (pt 0 0 10) (pt 0 0 1).

Definition with_edges (b : BRepBody) (edges : list BRepEdge) : BRepBody :=
  {| body_ids := body_ids b;
     b_name := b_name b;
     isSolid := isSolid b;
     isVisible := isVisible b;
     b_faces := b_faces b;
     b_edges := edges;
     b_vertices := b_vertices b;
     body_worldBoundingBox := body_worldBoundingBox b;
     body_boundingBox := body_boundingBox b;
     physical_volume := physical_volume b |}.

Definition body_two_edges : BRepBody := with_edges body1 [edge_x; edge_z].
Definition body_two_edges_rev : BRepBody := with_edges body1 [edge_z; edge_x].

Definition vertex_at (id : string) (p : Point3D) : BRepVertex :=
  {| vertex_ids := token id; vertex_geometry := Some p |}.

Definition two_vertices : list BRepVertex :=
  [vertex_at "v1" (pt 5 0 0); vertex_at "v2" (pt 1 0 0)].

Definition origin_mm : float * float * float := (zero, zero, zero).

(** A host whose operation raises and leaves the document alone. *)
Definition host_refuses : host :=
  {| host_apply := fun _ d => (Raises "edge cannot be filleted", d);
     host_computeAll := fun d => (true, d);
     host_deleteMe := fun _ d => (true, d);
     host_constructionAxes_add := add_axis;
     host_time := clock_ms |}.

Definition shell_request (thickness : Z) (is_preview : bool) : shell_command.request :=
  {| shell_command.body_name := None;
     shell_command.thickness_mm := Some (Z2float thickness);
     shell_command.remove_faces := shell_command.RemoveAbsent;
     shell_command.preview := is_preview;
     shell_command.inside := true |}.



Definition fillet_request (radius : Z) : fillet_feature.request :=
  {| fillet_feature.edge_id := None;
     fillet_feature.edge_selector := Some "longest_edge";
     fillet_feature.body_name := None;
     fillet_feature.point_mm := None;
     fillet_feature.radius_mm := Some (Z2float radius);
     fillet_feature.preview := false;
     fillet_feature.compute := true |}.


Definition hole_request (depth : option float) : hole_feature.request :=
  {| hole_feature.body_name := None;
     hole_feature.face_selector := Some "largest_planar";
     hole_feature.face_id := None;
     hole_feature.center_mm := hole_feature.Center origin_mm;
     hole_feature.diameter_mm := Some (Z2float 3);
     hole_feature.depth_mm := depth;
     hole_feature.through_all := true;
     hole_feature.preview := true |}.

Definition revolve_request : revolve_feature.request :=
  {| revolve_feature.profile_sketch_id := Some "sk1";
     revolve_feature.profile_curve_ids := None;
     revolve_feature.axis_selector := Some "closest_to_point";
     revolve_feature.axis_line_mm := revolve_feature.AxisLineAbsent;
     revolve_feature.edge_id := None;
     revolve_feature.body_name := None;
     revolve_feature.angle_deg := Some (Z2float 360);
     revolve_feature.operation := "new_body";
     revolve_feature.preview := false |}.

(** [doc1] with the two edges on its body. *)
Definition doc_edges : Component :=
  {| bRepBodies := [0%nat];
     body_at := fun _ => body_two_edges;
     sketches := [sketch1];
     constructionAxes := [] |}.

Definition world_edges : world :=
  {| root_comp := doc_edges; clock_reads := 0; calls := [] |}.

End MoreExamples.

(** * Properties *)

(** ** The definitions on small inputs *)

Example parse_face_selector_examples :
  selection_helpers._parse_face_selector "largest_planar"
  = Some selection_helpers.largest_planar
  /\ selection_helpers._parse_face_selector "normal_closest: +Z "
     = Some (selection_helpers.normal_closest selection_helpers.PlusZ)
  /\ selection_helpers._parse_face_selector "max_bbox_Z"
     = Some (selection_helpers.max_bbox selection_helpers.AxisZ)
  /\ selection_helpers._parse_face_selector "min_bbox_x"
     = Some (selection_helpers.min_bbox selection_helpers.AxisX)
  /\ selection_helpers._parse_face_selector "normal_closest:up" = None
  /\ selection_helpers._parse_face_selector "longest_edge" = None.
Proof. repeat split; reflexivity. Qed.

Example parse_edge_selector_examples :
  selection_helpers._parse_edge_selector "longest_edge"
  = Some selection_helpers.longest_edge
  /\ selection_helpers._parse_edge_selector "normal_closest:-X"
     = Some (selection_helpers.edge_normal_closest selection_helpers.MinusX)
  /\ selection_helpers._parse_edge_selector "closest_to_point"
     = Some selection_helpers.closest_to_point
  /\ selection_helpers._parse_edge_selector "largest_area" = None.
Proof. repeat split; reflexivity. Qed.

Example sorted_strs_example :
  sorted_strs ["Body2"; "Body10"; "Body1"; "Arm"] = ["Arm"; "Body1"; "Body10"; "Body2"].
Proof. reflexivity. Qed.

Example py_repr_example :
  py_repr_str_list ["Body1"; "Body2"] = "['Body1', 'Body2']"
  /\ py_repr_str_list [] = "[]"
  /\ py_str_float_int 1500 = "1500.0"
  /\ py_str_int 150 = "150".
Proof. repeat split; reflexivity. Qed.

Example guardrail_check_examples :
  guardrail_check fillet_feature.limits (Z2float 5000) 300 600 1 = None
  /\ guardrail_check fillet_feature.limits (Z2float 5000) 300 601 2
     = Some "edge_count_delta exceeded MAX_EDGE_DELTA (600)"
  /\ guardrail_check hole_feature.limits (Z2float 10) 201 0 0
     = Some "face_count_delta exceeded MAX_FACE_DELTA (200)"
  /\ guardrail_check mirror_feature.limits (Q2Qc (15001 # 10)) 0 0 0
     = Some "Apply exceeded MAX_APPLY_MS (1500.0 ms)".
Proof. repeat split; reflexivity. Qed.

Example resolve_body_examples :
  selection_helpers._resolve_body Examples.doc1 None = (Some 0%nat, [0%nat])
  /\ selection_helpers._resolve_body Examples.doc2 None = (None, [1%nat; 0%nat])
  /\ selection_helpers._resolve_body Examples.doc2 (Some "Body1")
     = (Some 0%nat, [1%nat; 0%nat])
  /\ selection_helpers._resolve_body Examples.doc2 (Some "body1")
     = (None, [1%nat; 0%nat]).
Proof. repeat split; reflexivity. Qed.

Example extrude_preview_example :
  let result :=
    extrude_feature.handle Examples.host_one_new_body
      (Examples.extrude_request (Z2float 50) true) Examples.ctx1 Examples.world1 in
  dict_get "ok" (fst result) = Some (PyBool true)
  /\ snd result = Examples.world1.
Proof. split; reflexivity. Qed.

Example extrude_apply_example :
  let result :=
    extrude_feature.handle Examples.host_one_new_body
      (Examples.extrude_request (Z2float 50) false) Examples.ctx1 Examples.world1 in
  dict_get "ok" (fst result) = Some (PyBool true)
  /\ length (calls (snd result)) = 2%nat
  /\ bRepBodies (root_comp (snd result)) = [0%nat; 1%nat].
Proof. repeat split; vm_compute; reflexivity. Qed.

(** ** The order on sort keys *)

Lemma lex_eq_iff (c1 c2 : comparison) :
  lex c1 c2 = Eq <-> c1 = Eq /\ c2 = Eq.
Proof. destruct c1, c2; simpl; intuition congruence. Qed.

Lemma lex_lt_iff (c1 c2 : comparison) :
  lex c1 c2 = Lt <-> c1 = Lt \/ (c1 = Eq /\ c2 = Lt).
Proof. destruct c1, c2; simpl; intuition congruence. Qed.

Lemma lex_opp (c1 c2 : comparison) :
  CompOpp (lex c1 c2) = lex (CompOpp c1) (CompOpp c2).
Proof. destruct c1, c2; reflexivity. Qed.

Lemma lex_assoc (c1 c2 c3 : comparison) :
  lex (lex c1 c2) c3 = lex c1 (lex c2 c3).
Proof. destruct c1; reflexivity. Qed.

Lemma PyOrd_ext {K : Type} (c1 c2 : K -> K -> comparison) :
  (forall a b, c1 a b = c2 a b) -> PyOrd c1 -> PyOrd c2.
Proof.
  intros E [e a t]; split; intros.
  - rewrite <- E; apply e.
  - rewrite <- !E; apply a.
  - rewrite <- E in *; eauto.
Qed.

Lemma cmp_refl {K : Type} (c : K -> K -> comparison) `{!PyOrd c} (a : K) :
  c a a = Eq.
Proof. apply cmp_eq; reflexivity. Qed.

#[export] Instance PyOrd_float : PyOrd cmp_float.
Proof.
  split; unfold cmp_float.
  - intros a b; symmetry; apply Qceq_alt.
  - intros a b; unfold Qccompare; symmetry; apply Qcompare_antisym.
  - intros a b c Hab Hbc.
    apply Qclt_alt. apply Qclt_trans with b; apply Qclt_alt; assumption.
Qed.

Lemma ascii_compare_lt_trans (a b c : ascii) :
  Ascii.compare a b = Lt -> Ascii.compare b c = Lt -> Ascii.compare a c = Lt.
Proof.
  unfold Ascii.compare; rewrite !N.compare_lt_iff; intros; lia.
Qed.

Lemma string_compare_refl (s : string) : String.compare s s = Eq.
Proof.
  induction s as [|c s IH]; simpl; [reflexivity|].
  unfold Ascii.compare; rewrite N.compare_refl; exact IH.
Qed.

Lemma string_compare_lt_trans (a b c : string) :
  String.compare a b = Lt -> String.compare b c = Lt -> String.compare a c = Lt.
Proof.
  revert b c; induction a as [|x a IH]; intros [|y b] [|z c]; simpl;
    try congruence.
  destruct (Ascii.compare x y) eqn:Exy; try discriminate;
    destruct (Ascii.compare y z) eqn:Eyz; try discriminate; intros Hab Hbc.
  - apply Ascii.compare_eq_iff in Exy, Eyz; subst.
    unfold Ascii.compare; rewrite N.compare_refl; eauto.
  - apply Ascii.compare_eq_iff in Exy; subst; rewrite Eyz; reflexivity.
  - apply Ascii.compare_eq_iff in Eyz; subst; rewrite Exy; reflexivity.
  - rewrite (ascii_compare_lt_trans _ _ _ Exy Eyz); reflexivity.
Qed.

#[export] Instance PyOrd_str : PyOrd cmp_str.
Proof.
  split; unfold cmp_str.
  - intros a b; split.
    + apply String.compare_eq_iff.
    + intros ->; apply string_compare_refl.
  - intros a b; apply String.compare_antisym.
  - apply string_compare_lt_trans.
Qed.

Section LexPair.
Context {A B : Type} (cA : A -> A -> comparison) (cB : B -> B -> comparison).
Context `{!PyOrd cA} `{!PyOrd cB}.

#[export] Instance PyOrd_pair : PyOrd (cmp_pair cA cB).
Proof.
  split; unfold cmp_pair.
  - intros [a1 b1] [a2 b2]; simpl.
    rewrite lex_eq_iff, !cmp_eq. split; [intros [-> ->]; reflexivity|].
    intros E; inversion E; auto.
  - intros p q. rewrite lex_opp, <- !cmp_antisym. reflexivity.
  - intros [a1 b1] [a2 b2] [a3 b3]; simpl. rewrite !lex_lt_iff.
    intros [H1 | [H1 H1']] [H2 | [H2 H2']].
    + left; eapply cmp_lt_trans; eauto.
    + apply cmp_eq in H2; subst; auto.
    + apply cmp_eq in H1; subst; auto.
    + apply cmp_eq in H1, H2; subst. right; split.
      * apply cmp_refl; assumption.
      * eapply cmp_lt_trans; eauto.
Qed.
End LexPair.

#[export] Instance PyOrd_float3 : PyOrd cmp_float3.
Proof.
  apply (PyOrd_ext (cmp_pair (cmp_pair cmp_float cmp_float) cmp_float)).
  - intros [[a1 a2] a3] [[b1 b2] b3]; unfold cmp_pair, cmp_float3; simpl.
    apply lex_assoc.
  - typeclasses eauto.
Qed.

#[export] Instance PyOrd_face_key : PyOrd selection_helpers.cmp_face_key.
Proof.
  apply (PyOrd_ext
           (cmp_pair (cmp_pair (cmp_pair cmp_float cmp_float) cmp_float3) cmp_str)).
  - intros [[[s1 a1] c1] i1] [[[s2 a2] c2] i2];
      unfold cmp_pair, selection_helpers.cmp_face_key; simpl.
    rewrite !lex_assoc; reflexivity.
  - typeclasses eauto.
Qed.

(** ** The stable sort *)

Section SortFacts.
Context {A K : Type} (key : A -> K) (cmp : K -> K -> comparison).
Context `{!PyOrd cmp}.

Lemma key_le_refl (a : A) : (key_le key cmp) a a.
Proof. unfold key_le; rewrite (cmp_refl cmp); discriminate. Qed.

Lemma key_le_trans (a b c : A) : (key_le key cmp) a b -> (key_le key cmp) b c -> (key_le key cmp) a c.
Proof.
  unfold key_le; intros Hab Hbc.
  destruct (cmp (key a) (key b)) eqn:Eab; try congruence.
  - apply cmp_eq in Eab; rewrite Eab; assumption.
  - destruct (cmp (key b) (key c)) eqn:Ebc; try congruence.
    + apply cmp_eq in Ebc; rewrite <- Ebc, Eab; discriminate.
    + rewrite (cmp_lt_trans _ _ _ Eab Ebc); discriminate.
Qed.

Lemma key_le_antisym (a b : A) : (key_le key cmp) a b -> (key_le key cmp) b a -> key a = key b.
Proof.
  unfold key_le; intros Hab Hba. rewrite (cmp_antisym (key a)) in Hba.
  destruct (cmp (key a) (key b)) eqn:E; simpl in *; try congruence.
  apply cmp_eq; assumption.
Qed.

Lemma insert_by_key_perm (a : A) (l : list A) :
  Permutation (insert_by_key key cmp a l) (a :: l).
Proof.
  induction l as [|b l IH]; simpl; [reflexivity|].
  destruct (is_lt (cmp (key b) (key a))); [|reflexivity].
  rewrite IH; apply perm_swap.
Qed.

Lemma sort_by_key_perm (l : list A) : Permutation (sort_by_key key cmp l) l.
Proof.
  induction l as [|a l IH]; simpl; [reflexivity|].
  rewrite insert_by_key_perm; constructor; exact IH.
Qed.

Lemma sort_by_key_nil (l : list A) : sort_by_key key cmp l = [] -> l = [].
Proof.
  intros E. apply Permutation_nil. rewrite <- E. apply sort_by_key_perm.
Qed.

Lemma not_lt_key_le (a b : A) : is_lt (cmp (key b) (key a)) = false -> (key_le key cmp) a b.
Proof.
  unfold key_le. rewrite (cmp_antisym (key b) (key a)).
  destruct (cmp (key b) (key a)); simpl; congruence.
Qed.

Lemma lt_key_le (a b : A) : is_lt (cmp (key b) (key a)) = true -> (key_le key cmp) b a.
Proof. unfold key_le. destruct (cmp (key b) (key a)); simpl; congruence. Qed.

(** The first element of an insertion is a least element. *)
Lemma insert_by_key_head (a first : A) (l rest : list A) :
  (forall b r, l = b :: r -> Forall ((key_le key cmp) b) r) ->
  insert_by_key key cmp a l = first :: rest ->
  Forall ((key_le key cmp) first) rest.
Proof.
  destruct l as [|b r]; simpl; intros Hmin E.
  - inversion E; constructor.
  - specialize (Hmin b r eq_refl).
    destruct (is_lt (cmp (key b) (key a))) eqn:Eba; inversion E; subst.
    + apply Forall_forall; intros c Hc.
      apply (Permutation_in _ (insert_by_key_perm a r)) in Hc.
      destruct Hc as [<- | Hc].
      * apply lt_key_le; exact Eba.
      * rewrite Forall_forall in Hmin; auto.
    + apply not_lt_key_le in Eba. constructor; [exact Eba|].
      eapply Forall_impl; [|exact Hmin]. intros c Hc.
      eapply key_le_trans; eassumption.
Qed.

Lemma sort_by_key_head (l : list A) (first : A) (rest : list A) :
  sort_by_key key cmp l = first :: rest -> Forall ((key_le key cmp) first) rest.
Proof.
  revert first rest; induction l as [|a l IH]; simpl; intros first rest E.
  - discriminate.
  - eapply insert_by_key_head; [|exact E]. intros b r Hl; apply IH; exact Hl.
Qed.

(** The winner [candidates[0]] is in the pool and least for the key. *)
Lemma sort_by_key_first_least (l : list A) (first : A) (rest : list A) :
  sort_by_key key cmp l = first :: rest ->
  In first l /\ forall b, In b l -> (key_le key cmp) first b.
Proof.
  intros E. pose proof (sort_by_key_perm l) as P. rewrite E in P. split.
  - apply (Permutation_in _ P); left; reflexivity.
  - intros b Hb. apply (Permutation_in _ (Permutation_sym P)) in Hb.
    destruct Hb as [<- | Hb]; [apply key_le_refl|].
    pose proof (sort_by_key_head _ _ _ E) as F.
    rewrite Forall_forall in F; auto.
Qed.

(** Two enumerations of one pool have first elements with the same key. *)
Lemma sort_by_key_first_key (l l' : list A) (a a' : A) (r r' : list A) :
  Permutation l l' ->
  sort_by_key key cmp l = a :: r ->
  sort_by_key key cmp l' = a' :: r' ->
  key a' = key a.
Proof.
  intros P E E'.
  destruct (sort_by_key_first_least _ _ _ E) as [Hin Hmin].
  destruct (sort_by_key_first_least _ _ _ E') as [Hin' Hmin'].
  apply key_le_antisym.
  - apply Hmin'. apply (Permutation_in _ P); exact Hin.
  - apply Hmin. apply (Permutation_in _ (Permutation_sym P)); exact Hin'.
Qed.



End SortFacts.

Lemma collect_cons {A B : Type} (f : A -> option B) (a : A) (l : list A) :
  selection_helpers.collect f (a :: l)
  = match f a with
    | Some b => b :: selection_helpers.collect f l
    | None => selection_helpers.collect f l
    end.
Proof. reflexivity. Qed.

Lemma sort_by_key_two {A K : Type} (key : A -> K) (cmp : K -> K -> comparison)
  (a b : A) :
  sort_by_key key cmp [a; b]
  = if is_lt (cmp (key b) (key a)) then [b; a] else [a; b].
Proof. reflexivity. Qed.

Lemma collect_perm {A B : Type} (f : A -> option B) (l l' : list A) :
  Permutation l l' ->
  Permutation (selection_helpers.collect f l) (selection_helpers.collect f l').
Proof.
  induction 1 as [| a l l' P IH | a b l | l l' l'' P1 IH1 P2 IH2]; simpl.
  - reflexivity.
  - destruct (f a); [constructor|]; exact IH.
  - destruct (f a), (f b); try reflexivity. apply perm_swap.
  - etransitivity; eassumption.
Qed.

(** ** Selector resolution *)

Section SelectFace.
Import selection_helpers.

Variable selector : face_selector.
Variable units_mgr : option UnitsManager.
Variable convert_mm : option UnitsManager -> float -> float.

Lemma select_face_first (body : BRepBody) (c : face_candidate) (n : nat) :
  _select_face body selector units_mgr convert_mm = (Some c, n) ->
  exists rest,
    sort_by_key _tie_key cmp_face_key
      (face_candidates body selector units_mgr convert_mm) = c :: rest
    /\ n = length (face_candidates body selector units_mgr convert_mm).
Proof.
  unfold _select_face.
  destruct (sort_by_key _ _ _) as [|first rest]; intros E; inversion E; subst.
  exists rest; split; reflexivity.
Qed.

Lemma select_face_none (body : BRepBody) (n : nat) :
  _select_face body selector units_mgr convert_mm = (None, n) ->
  face_candidates body selector units_mgr convert_mm = [] /\ n = 0%nat.
Proof.
  unfold _select_face.
  destruct (sort_by_key _ _ _) as [|first rest] eqn:E; intros R; inversion R.
  split; [|reflexivity]. eapply sort_by_key_nil; exact E.
Qed.

Lemma face_candidates_perm (body body' : BRepBody) :
  Permutation (b_faces body) (b_faces body') ->
  Permutation (face_candidates body selector units_mgr convert_mm)
              (face_candidates body' selector units_mgr convert_mm).
Proof. intros P; unfold face_candidates; apply collect_perm; exact P. Qed.

End SelectFace.

(** Under [largest_planar] and [largest_area] the score is the area. *)
Lemma largest_area_score (um : option UnitsManager)
  (conv : option UnitsManager -> float -> float) (f : BRepFace)
  (c : selection_helpers.face_candidate) :
  selection_helpers.face_candidate_of selection_helpers.largest_area um conv f = Some c ->
  selection_helpers.fc_area_mm2 c = Some (selection_helpers.fc_score c).
Proof.
  unfold selection_helpers.face_candidate_of; simpl.
  destruct (face_centroid f); [|discriminate].
  destruct (selection_helpers._face_area_mm2 f um conv) eqn:Ea; [|discriminate].
  intros E; inversion E; subst; simpl. reflexivity.
Qed.

Lemma collect_in {A B : Type} (f : A -> option B) (l : list A) (b : B) :
  In b (selection_helpers.collect f l) -> exists a, In a l /\ f a = Some b.
Proof.
  induction l as [|a l IH]; simpl; [contradiction|].
  destruct (f a) as [b'|] eqn:E.
  - intros [<- | Hin].
    + exists a; auto.
    + destruct (IH Hin) as (a' & Ha & Hf). exists a'; auto.
  - intros Hin. destruct (IH Hin) as (a' & Ha & Hf). exists a'; auto.
Qed.

Lemma NoDup_map_injective {A B : Type} (g : A -> B) (l : list A) (a b : A) :
  NoDup (map g l) -> In a l -> In b l -> g a = g b -> a = b.
Proof.
  induction l as [|x l IH]; simpl; [contradiction|].
  intros N Ha Hb E. inversion N as [|? ? Hnot N']; subst.
  destruct Ha as [-> | Ha], Hb as [-> | Hb]; auto.
  - exfalso; apply Hnot. rewrite E. apply in_map; exact Hb.
  - exfalso; apply Hnot. rewrite <- E. apply in_map; exact Ha.
Qed.

(** The identity token a face contributes to its tie-break key. *)
Definition face_token (f : BRepFace) : string :=
  selection_helpers.or_empty (selection_helpers._entity_id (face_ids f)).

Lemma face_candidate_of_face (sel : selection_helpers.face_selector)
  (um : option UnitsManager) (conv : option UnitsManager -> float -> float)
  (f : BRepFace) (c : selection_helpers.face_candidate) :
  selection_helpers.face_candidate_of sel um conv f = Some c ->
  selection_helpers.fc_face c = f /\ selection_helpers.fc_face_id c = face_token f.
Proof.
  unfold selection_helpers.face_candidate_of, face_token.
  destruct (_ && _); [discriminate|].
  destruct (face_centroid f); [|discriminate].
  destruct sel;
    repeat match goal with
           | |- context [match ?x with _ => _ end] =>
               destruct x; try discriminate
           end;
    intros E; inversion E; subst; simpl; auto.
Qed.

(** Faces with pairwise distinct identity tokens give candidates with
    pairwise distinct tie-break keys. *)
Lemma distinct_tokens_distinct_keys (body : BRepBody)
  (sel : selection_helpers.face_selector) (um : option UnitsManager)
  (conv : option UnitsManager -> float -> float) :
  NoDup (map face_token (b_faces body)) ->
  forall c1 c2,
    In c1 (selection_helpers.face_candidates body sel um conv) ->
    In c2 (selection_helpers.face_candidates body sel um conv) ->
    selection_helpers._tie_key c1 = selection_helpers._tie_key c2 ->
    c1 = c2.
Proof.
  intros N c1 c2 H1 H2 Hk.
  apply collect_in in H1, H2.
  destruct H1 as (f1 & Hf1 & E1), H2 as (f2 & Hf2 & E2).
  destruct (face_candidate_of_face _ _ _ _ _ E1) as [_ I1].
  destruct (face_candidate_of_face _ _ _ _ _ E2) as [_ I2].
  assert (Hid : selection_helpers.fc_face_id c1 = selection_helpers.fc_face_id c2).
  { unfold selection_helpers._tie_key in Hk. inversion Hk; reflexivity. }
  assert (f1 = f2).
  { apply (NoDup_map_injective face_token (b_faces body)); auto. congruence. }
  subst f2. congruence.
Qed.

(** C1 as stated fails: two faces that carry no identity attribute and
    agree on area and centroid have the same tie-break key, the stable sort
    keeps their enumeration order, and the winner follows that order. *)
Lemma select_face_enumeration_order_matters :
  ~ (forall (body body' : BRepBody) (sel : selection_helpers.face_selector)
            (um : option UnitsManager)
            (conv : option UnitsManager -> float -> float),
        Permutation (b_faces body) (b_faces body') ->
        fst (selection_helpers._select_face body' sel um conv)
        = fst (selection_helpers._select_face body sel um conv)).
Proof.
  intros H.
  specialize (H Examples.body_plane_first Examples.body_cylinder_first
                selection_helpers.largest_area None _convert_mm
                (perm_swap _ _ _)).
  apply (f_equal (option_map (fun c =>
           option_map surfaceType (face_geometry (selection_helpers.fc_face c))))) in H.
  vm_compute in H. discriminate H.
Qed.

(** C1 (amended): for every selector and every permutation of the face
    list, [_select_face] reports the same pool size and a winner with the
    same tie-break key [(-score, -area, centroid tuple, face id)] (the
    area counting as -1.0 when absent);
    when no two candidates of the pool share a tie-break key the winning
    candidate itself is the same, and so it is when the faces carry pairwise
    distinct identity tokens. *)
Theorem select_face_permutation_invariant
  (body body' : BRepBody) (sel : selection_helpers.face_selector)
  (um : option UnitsManager) (conv : option UnitsManager -> float -> float)
  (P : Permutation (b_faces body) (b_faces body')) :
  let r := selection_helpers._select_face body sel um conv in
  let r' := selection_helpers._select_face body' sel um conv in
  snd r' = snd r
  /\ option_map selection_helpers._tie_key (fst r')
     = option_map selection_helpers._tie_key (fst r)
  /\ ((forall c1 c2,
          In c1 (selection_helpers.face_candidates body sel um conv) ->
          In c2 (selection_helpers.face_candidates body sel um conv) ->
          selection_helpers._tie_key c1 = selection_helpers._tie_key c2 ->
          c1 = c2) ->
      r' = r)
  /\ (NoDup (map face_token (b_faces body)) -> r' = r).
Proof.
  intros r r'.
  cut (snd r' = snd r
       /\ option_map selection_helpers._tie_key (fst r')
          = option_map selection_helpers._tie_key (fst r)
       /\ ((forall c1 c2,
               In c1 (selection_helpers.face_candidates body sel um conv) ->
               In c2 (selection_helpers.face_candidates body sel um conv) ->
               selection_helpers._tie_key c1 = selection_helpers._tie_key c2 ->
               c1 = c2) ->
           r' = r)).
  { intros (Hn & Hk & Hinj). repeat split; auto.
    intros N. apply Hinj. apply distinct_tokens_distinct_keys; exact N. }
  pose proof (face_candidates_perm sel um conv body body' P) as PC.
  assert (Hlen : length (selection_helpers.face_candidates body' sel um conv)
                 = length (selection_helpers.face_candidates body sel um conv))
    by (symmetry; apply Permutation_length; exact PC).
  destruct r as [w n] eqn:Er, r' as [w' n'] eqn:Er'; subst r r';
    cbn [fst snd option_map].
  destruct w as [c|], w' as [c'|].
  - apply select_face_first in Er, Er'.
    destruct Er as (rest & Es & ->), Er' as (rest' & Es' & ->).
    pose proof (sort_by_key_first_key _ _ _ _ _ _ _ _ PC Es Es') as Hk.
    split; [exact Hlen|]. split; [unfold option_map; rewrite Hk; reflexivity|].
    intros Hinj. rewrite Hlen. f_equal. f_equal.
    apply Hinj; [| |exact Hk].
    + apply (Permutation_in _ (Permutation_sym PC)).
      apply (sort_by_key_first_least _ _ _ _ _ Es').
    + apply (sort_by_key_first_least _ _ _ _ _ Es).
  - apply select_face_first in Er. apply select_face_none in Er'.
    destruct Er as (rest & Es & ->), Er' as (En & ->).
    rewrite En in PC. apply Permutation_sym, Permutation_nil in PC.
    rewrite PC in Es; discriminate Es.
  - apply select_face_none in Er. apply select_face_first in Er'.
    destruct Er as (En & ->), Er' as (rest & Es & ->).
    rewrite En in PC. apply Permutation_nil in PC.
    rewrite PC in Es; discriminate Es.
  - apply select_face_none in Er, Er'.
    destruct Er as (_ & ->), Er' as (_ & ->). auto.
Qed.

Lemma select_face_permutation_invariant_witness :
  Permutation (b_faces Examples.body_two_faces) (b_faces Examples.body_two_faces_rev)
  /\ selection_helpers._select_face Examples.body_two_faces_rev
       selection_helpers.largest_area (Some Examples.mm_units) _convert_mm
     = selection_helpers._select_face Examples.body_two_faces
       selection_helpers.largest_area (Some Examples.mm_units) _convert_mm.
Proof.
  split; [apply perm_swap|].
  apply (proj1 (proj2 (proj2 (select_face_permutation_invariant
           Examples.body_two_faces Examples.body_two_faces_rev
           selection_helpers.largest_area (Some Examples.mm_units) _convert_mm
           (perm_swap _ _ _))))).
  intros c1 c2 H1 H2 Hk.
  vm_compute in H1, H2.
  destruct H1 as [<- | [<- | []]], H2 as [<- | [<- | []]];
    try reflexivity; vm_compute in Hk; discriminate Hk.
Defined.

(** C8: under [largest_area], a body with exactly two candidate faces of
    equal area whose centroid tuples are (0,0,0) and (1,0,0) resolves to
    the face at (0,0,0), in either enumeration order and whatever the
    identity tokens are. *)
Theorem largest_area_equal_area_picks_origin
  (body : BRepBody) (um : option UnitsManager)
  (conv : option UnitsManager -> float -> float)
  (f0 f1 : BRepFace) (c0 c1 : selection_helpers.face_candidate)
  (Hfaces : b_faces body = [f0; f1] \/ b_faces body = [f1; f0])
  (H0 : selection_helpers.face_candidate_of selection_helpers.largest_area um conv f0
        = Some c0)
  (H1 : selection_helpers.face_candidate_of selection_helpers.largest_area um conv f1
        = Some c1)
  (Harea : selection_helpers.fc_area_mm2 c0 = selection_helpers.fc_area_mm2 c1)
  (Hc0 : selection_helpers.fc_centroid_tuple c0 = (Z2float 0, Z2float 0, Z2float 0))
  (Hc1 : selection_helpers.fc_centroid_tuple c1 = (Z2float 1, Z2float 0, Z2float 0)) :
  selection_helpers._select_face body selection_helpers.largest_area um conv
  = (Some c0, 2%nat)
  /\ selection_helpers.fc_face c0 = f0.
Proof.
  pose proof (largest_area_score _ _ _ _ H0) as S0.
  pose proof (largest_area_score _ _ _ _ H1) as S1.
  assert (Hs : selection_helpers.fc_score c0 = selection_helpers.fc_score c1)
    by congruence.
  assert (Hlt : selection_helpers.cmp_face_key (selection_helpers._tie_key c0)
                  (selection_helpers._tie_key c1) = Lt).
  { unfold selection_helpers._tie_key, selection_helpers.cmp_face_key.
    rewrite S0, S1, Hs, Hc0, Hc1.
    rewrite (cmp_refl cmp_float). reflexivity. }
  assert (Hgt : selection_helpers.cmp_face_key (selection_helpers._tie_key c1)
                  (selection_helpers._tie_key c0) = Gt).
  { rewrite (cmp_antisym (selection_helpers._tie_key c0)), Hlt; reflexivity. }
  split.
  - unfold selection_helpers._select_face, selection_helpers.face_candidates.
    destruct Hfaces as [-> | ->];
      rewrite !collect_cons, H0, H1; cbn [selection_helpers.collect];
      rewrite sort_by_key_two.
    + rewrite Hgt; reflexivity.
    + rewrite Hlt; reflexivity.
  - revert H0. unfold selection_helpers.face_candidate_of; simpl.
    destruct (face_centroid f0); [|discriminate].
    destruct (selection_helpers._face_area_mm2 f0 um conv); [|discriminate].
    intros E; inversion E; reflexivity.
Qed.

Lemma largest_area_equal_area_picks_origin_witness :
  exists c0,
    selection_helpers._select_face Examples.body_two_faces
      selection_helpers.largest_area (Some Examples.mm_units) _convert_mm
    = (Some c0, 2%nat)
    /\ selection_helpers.fc_face c0 = Examples.face_origin.
Proof.
  eexists.
  eapply (largest_area_equal_area_picks_origin
            Examples.body_two_faces (Some Examples.mm_units) _convert_mm
            Examples.face_origin Examples.face_x1).
  - right; reflexivity.
  - reflexivity.
  - reflexivity.
  - reflexivity.
  - reflexivity.
  - reflexivity.
Defined.

(** ** Guardrails *)

Lemma guardrail_messages_distinct (t : GuardrailThresholds) :
  NoDup [time_message t; face_message t; edge_message t; body_message t].
Proof.
  unfold time_message, face_message, edge_message, body_message.
  repeat constructor; simpl; intuition discriminate.
Qed.

(** C2: the error reported by the guardrail check of a feature command,
    whatever its thresholds, is that of the first breached bound in the
    order time, faces, edges, bodies; once a bound is breached the values
    of the later ones play no part; the four errors are distinct. *)
Theorem guardrail_first_breach_reported
  (t : GuardrailThresholds) (timing_ms : float) (face_delta edge_delta body_delta : Z) :
  guardrail_check t timing_ms face_delta edge_delta body_delta
  = first_breached (bounds_in_order t timing_ms face_delta edge_delta body_delta)
  /\ (time_breached t timing_ms = true ->
      forall fd ed bd, guardrail_check t timing_ms fd ed bd = Some (time_message t))
  /\ (time_breached t timing_ms = false -> face_breached t face_delta = true ->
      forall ed bd, guardrail_check t timing_ms face_delta ed bd = Some (face_message t))
  /\ (time_breached t timing_ms = false -> face_breached t face_delta = false ->
      edge_breached t edge_delta = true ->
      forall bd, guardrail_check t timing_ms face_delta edge_delta bd
                 = Some (edge_message t))
  /\ (time_breached t timing_ms = false -> face_breached t face_delta = false ->
      edge_breached t edge_delta = false ->
      guardrail_check t timing_ms face_delta edge_delta body_delta
      = if body_breached t body_delta then Some (body_message t) else None)
  /\ NoDup [time_message t; face_message t; edge_message t; body_message t].
Proof.
  unfold guardrail_check, first_breached, bounds_in_order, time_breached,
    face_breached, edge_breached, body_breached.
  repeat split.
  - simpl.
    destruct (float_ltb _ _); [reflexivity|].
    destruct (_ <? face_delta)%Z; [reflexivity|].
    destruct (_ <? edge_delta)%Z; [reflexivity|].
    destruct (_ <? body_delta)%Z; reflexivity.
  - intros -> fd ed bd; reflexivity.
  - intros -> -> ed bd; reflexivity.
  - intros -> -> -> bd; reflexivity.
  - intros -> -> ->; reflexivity.
  - apply guardrail_messages_distinct.
Qed.

(** A slow apply that also breaches every count bound of extrude_feature
    reports the time bound alone. *)
Lemma guardrail_first_breach_reported_witness :
  guardrail_check extrude_feature.limits (Z2float 2000) 151 301 2
  = Some "Apply exceeded MAX_APPLY_MS (1500.0 ms)"
  /\ guardrail_check extrude_feature.limits (Z2float 1500) 151 301 2
     = Some "face_count_delta exceeded MAX_FACE_DELTA (150)".
Proof.
  split.
  - apply (proj1 (proj2 (guardrail_first_breach_reported
                           extrude_feature.limits (Z2float 2000) 151 301 2))).
    reflexivity.
  - apply (proj1 (proj2 (proj2 (guardrail_first_breach_reported
                                  extrude_feature.limits (Z2float 1500) 151 301 2))));
      reflexivity.
Defined.

(** C4 as stated fails: hole_feature allows +200 faces and +400 edges. *)
Lemma hole_limits_not_in_specification_table : ~ specification_table.
Proof.
  unfold specification_table. intros (_ & _ & Hhole & _).
  discriminate Hhole.
Qed.

(** C4 (amended): the tables of the code; hole_feature has
    5000 ms / +200 faces / +400 edges / +1 body, the other rows are those of
    the specification. *)
Theorem guardrail_threshold_table :
  extrude_feature.limits = limits_of 1500 150 300 1
  /\ extrude_profile.limits = limits_of 5000 300 600 1
  /\ hole_feature.limits = limits_of 5000 200 400 1
  /\ fillet_feature.limits = limits_of 5000 300 600 1
  /\ shell_feature.limits = limits_of 5000 500 1000 1
  /\ pattern_feature.limits = limits_of 5000 500 1000 20
  /\ mirror_feature.limits = limits_of 1500 400 800 10.
Proof. repeat split; reflexivity. Qed.

(** ** The guarded mutation protocol *)

Lemma calls_logged (w : world) (d : Component) (c : host_call) :
  calls (logged w d c) = (calls w ++ [c])%list.
Proof. reflexivity. Qed.

(** A rollback on a created feature issues the delete, whatever the host
    answers, and issues nothing but the delete and a recompute. *)
Lemma rollback_calls (H : host) (f : Feature) (recompute : bool) (w : world) :
  calls (rollback H (Some f) recompute w) = (calls w ++ [Call_deleteMe f])%list
  \/ calls (rollback H (Some f) recompute w)
     = (calls w ++ [Call_deleteMe f; Call_computeAll])%list.
Proof.
  unfold rollback, do_deleteMe.
  destruct (host_deleteMe H f (root_comp w)) as [deleted d].
  destruct deleted; [destruct recompute|]; try (left; reflexivity).
  unfold do_computeAll; simpl.
  destruct (host_computeAll H d) as [ran d']; simpl.
  right. rewrite <- app_assoc. reflexivity.
Qed.

Lemma rollback_issues_delete (H : host) (f : Feature) (recompute : bool) (w : world) :
  In (Call_deleteMe f) (calls (rollback H (Some f) recompute w)).
Proof.
  destruct (rollback_calls H f recompute w) as [-> | ->];
    apply in_or_app; right; simpl; auto.
Qed.

(** Past their preview return, fillet_feature and hole_feature run the
    shared code with their own table. *)
Lemma fillet_handle_apply (H : host) (rq : fillet_feature.request) (ctx : context)
  (w : world) (edge : BRepEdge) (radius : float) :
  design ctx = true -> has_root_comp ctx = true ->
  (str_truthy (fillet_feature.edge_id rq)
   || str_truthy (fillet_feature.edge_selector rq)) = true ->
  fillet_feature.radius_mm rq = Some radius ->
  float_leb radius zero = false ->
  float_ltb (Z2float fillet_feature.MAX_RADIUS_MM) radius = false ->
  fillet_feature.resolve_edge rq ctx (root_comp w) = Go edge ->
  fillet_feature.preview rq = false ->
  fillet_feature.handle H rq ctx w
  = guarded_apply fillet_feature.profile H
      (FilletEdge edge (_mm_to_internal (units_mgr ctx) radius))
      (fillet_feature.make_plan rq edge radius) (fillet_feature.compute rq) true w.
Proof.
  intros Hd Hr Hsel Hrad Hpos Hmax Hedge Hprev. unfold fillet_feature.handle.
  rewrite Hd, Hr, Hrad, Hpos, Hmax, Hedge, Hprev. cbn [negb orb].
  destruct (str_truthy (fillet_feature.edge_id rq)),
    (str_truthy (fillet_feature.edge_selector rq)); try discriminate Hsel;
    reflexivity.
Qed.

Lemma hole_handle_apply (H : host) (rq : hole_feature.request) (ctx : context)
  (w : world) (face : BRepFace) (body : body_ref)
  (center : float * float * float) (diameter : float) (depth : option float) :
  design ctx = true -> has_root_comp ctx = true ->
  (str_truthy (hole_feature.face_id rq) || str_truthy (hole_feature.face_selector rq))
  = true ->
  hole_feature.center_mm rq = hole_feature.Center center ->
  hole_feature.diameter_mm rq = Some diameter ->
  float_leb diameter zero = false ->
  hole_feature.check_depth rq = Go depth ->
  hole_feature.resolve_face rq ctx (root_comp w) = Go (face, body) ->
  hole_feature.preview rq = false ->
  hole_feature.handle H rq ctx w
  = guarded_apply hole_feature.profile H
      (HoleOnFace face (Some body) center diameter depth)
      (hole_feature.make_plan rq (root_comp w) face body center diameter depth)
      true true w.
Proof.
  intros Hd Hr Hsel Hc Hdia Hpos Hdepth Hface Hprev. unfold hole_feature.handle.
  rewrite Hd, Hr, Hc, Hdia, Hpos, Hdepth, Hface, Hprev. cbn [negb orb].
  destruct (str_truthy (hole_feature.face_id rq)),
    (str_truthy (hole_feature.face_selector rq)); try discriminate Hsel;
    destruct center as [[cx cy] cz]; reflexivity.
Qed.

(** C3: when the operation has been applied and created the feature [f]
    and a guardrail is breached, the command answers [ok = false] with the
    guardrail error and a [data] that holds the plan alone, and a delete of
    [f] has been issued; the answer is the same whether the delete and the
    recompute of the rollback return or raise.  First part: the seven
    commands sharing [guarded_apply]; second part: extrude_feature. *)
Theorem guardrail_breach_rolls_back :
  (forall (prof : command_profile) (H : host) (request : apply_request)
          (plan : pyval) (compute rollback_compute : bool) (w w1 : world)
          (m : measured) (f : Feature) (message : string),
      apply_and_measure prof H request compute w = (Applied m, w1) ->
      m_feature m = Some f ->
      guardrail_error (thresholds prof) m = Some message ->
      exists w2,
        guarded_apply prof H request plan compute rollback_compute w
        = (plan_only_failure message plan, w2)
        /\ In (Call_deleteMe f) (calls w2)
        /\ (calls w2 = (calls w1 ++ [Call_deleteMe f])%list
            \/ calls w2 = (calls w1 ++ [Call_deleteMe f; Call_computeAll])%list))
  /\ (forall (H : host) (rq : extrude_feature.request) (ctx : context)
             (p : extrude_feature.planned) (w w1 : world)
             (m : measured) (f : Feature) (message : string),
         design ctx = true -> has_root_comp ctx = true ->
         extrude_feature.derive_plan rq ctx (root_comp w) = Go p ->
         extrude_feature.preview rq = false ->
         extrude_feature.apply_and_measure H rq ctx p w = (Applied m, w1) ->
         m_feature m = Some f ->
         guardrail_error extrude_feature.limits m = Some message ->
         exists w2,
           extrude_feature.handle H rq ctx w
           = (plan_only_failure message (extrude_feature.p_plan p), w2)
           /\ In (Call_deleteMe f) (calls w2)
           /\ (calls w2 = (calls w1 ++ [Call_deleteMe f])%list
               \/ calls w2 = (calls w1 ++ [Call_deleteMe f; Call_computeAll])%list)).
Proof.
  split.
  - intros prof H request plan compute rc w w1 m f message Happ Hf Hg.
    unfold guarded_apply. rewrite Happ, Hg, Hf.
    eexists; split; [reflexivity|]. split.
    + apply rollback_issues_delete.
    + apply rollback_calls.
  - intros H rq ctx p w w1 m f message Hd Hr Hplan Hprev Happ Hf Hg.
    unfold extrude_feature.handle. rewrite Hd, Hr, Hplan, Hprev. simpl.
    unfold extrude_feature.apply_phase. rewrite Happ, Hg, Hf.
    eexists; split; [reflexivity|]. split.
    + apply rollback_issues_delete.
    + apply rollback_calls.
Qed.

(** On a host whose delete raises, a face-count breach of extrude_feature
    still answers with the guardrail error and the plan. *)
Lemma guardrail_breach_rolls_back_witness :
  exists w2,
    extrude_feature.handle Examples.host_bloat
      (Examples.extrude_request (Z2float 10) false) Examples.ctx1 Examples.world1
    = (plan_only_failure "face_count_delta exceeded MAX_FACE_DELTA (150)"
         (extrude_feature.p_plan
            (Examples.planned_for (Examples.extrude_request (Z2float 10) false))),
       w2)
    /\ In (Call_deleteMe Examples.feature1) (calls w2).
Proof.
  destruct (proj2 guardrail_breach_rolls_back
              Examples.host_bloat (Examples.extrude_request (Z2float 10) false)
              Examples.ctx1
              (Examples.planned_for (Examples.extrude_request (Z2float 10) false))
              Examples.world1
              (Examples.extrude_world Examples.host_bloat
                 (Examples.extrude_request (Z2float 10) false))
              (Examples.extrude_measured Examples.host_bloat
                 (Examples.extrude_request (Z2float 10) false))
              Examples.feature1
              "face_count_delta exceeded MAX_FACE_DELTA (150)"
              eq_refl eq_refl eq_refl eq_refl eq_refl eq_refl eq_refl)
    as (w2 & Hresp & Hin & _).
  exists w2; split; [exact Hresp | exact Hin].
Defined.

(** C5 as stated fails for extrude_feature: on a host whose operation
    succeeds and whose recompute raises, the command answers [ok = false]
    with an error and deletes the feature, while on the same host with a
    recompute that returns it answers [ok = true]. *)
Lemma extrude_recompute_failure_is_fatal :
  let rq := Examples.extrude_request (Z2float 10) false in
  let failed :=
    extrude_feature.handle Examples.host_compute_fails rq Examples.ctx1 Examples.world1 in
  let passed :=
    extrude_feature.handle Examples.host_one_new_body rq Examples.ctx1 Examples.world1 in
  dict_get "ok" (fst passed) = Some (PyBool true)
  /\ dict_get "ok" (fst failed) = Some (PyBool false)
  /\ dict_get "error" (fst failed) = Some (PyStr "Extrude failed: Design compute failed")
  /\ In (Call_deleteMe Examples.feature1) (calls (snd failed)).
Proof.
  repeat split; try (vm_compute; reflexivity).
  vm_compute. right; right; left; reflexivity.
Qed.

(** C5 (amended): in extrude_profile, fillet_feature, hole_feature,
    shell_feature, mirror_feature, pattern_feature and revolve_feature a
    recompute that raises after the operation returned is recorded as
    [compute.ran = false] and changes nothing else: no call is issued
    beyond the operation and the recompute, and unless a guardrail is
    breached the command commits with [ok = true] and no error.  In
    extrude_feature a requested recompute that raises is fatal: the
    feature is deleted and the answer is [ok = false] with
    "Extrude failed: Design compute failed". *)
Theorem recompute_failure_recorded :
  (forall (prof : command_profile) (H : host) (request : apply_request)
          (plan : pyval) (rollback_compute : bool) (w : world)
          (feature : option Feature) (d1 d2 : Component),
      host_apply H request (root_comp w) = (Returns feature, d1) ->
      host_computeAll H d1 = (false, d2) ->
      exists m w1,
        apply_and_measure prof H request true w = (Applied m, w1)
        /\ m_feature m = feature
        /\ m_compute_ran m = false
        /\ root_comp w1 = d2
        /\ calls w1 = (calls w ++ [Call_apply request; Call_computeAll])%list
        /\ (guardrail_error (thresholds prof) m = None ->
            guarded_apply prof H request plan true rollback_compute w
            = (applied_reply plan feature false (m_timing_ms m), w1)))
  /\ (forall (H : host) (rq : extrude_feature.request) (ctx : context)
             (p : extrude_feature.planned) (w : world) (f : Feature)
             (d1 d2 : Component),
         design ctx = true -> has_root_comp ctx = true ->
         extrude_feature.derive_plan rq ctx (root_comp w) = Go p ->
         extrude_feature.preview rq = false ->
         extrude_feature.compute rq = true ->
         host_apply H
           (ExtrudeFace (extrude_feature.p_face p) (extrude_feature.operation rq)
              (_mm_to_internal (units_mgr ctx) (extrude_feature.p_distance_mm p))
              (extrude_feature.direction rq))
           (root_comp w) = (Returns (Some f), d1) ->
         host_computeAll H d1 = (false, d2) ->
         exists w2,
           extrude_feature.handle H rq ctx w
           = (plan_only_failure "Extrude failed: Design compute failed"
                (extrude_feature.p_plan p), w2)
           /\ In (Call_deleteMe f) (calls w2)).
Proof.
  split.
  - intros prof H request plan rc w feature d1 d2 Happ Hcomp.
    unfold guarded_apply, apply_and_measure, do_apply, time_time; simpl.
    rewrite Happ; simpl. unfold do_computeAll; simpl. rewrite Hcomp; simpl.
    destruct (guard_rereads_clock prof); simpl.
    + eexists; eexists. split; [reflexivity|]. simpl.
      repeat split; try reflexivity.
      * rewrite <- app_assoc; reflexivity.
      * intros Hg. unfold guardrail_error in *; simpl in *. rewrite Hg. reflexivity.
    + eexists; eexists. split; [reflexivity|]. simpl.
      repeat split; try reflexivity.
      * rewrite <- app_assoc; reflexivity.
      * intros Hg. unfold guardrail_error in *; simpl in *. rewrite Hg. reflexivity.
  - intros H rq ctx p w f d1 d2 Hd Hr Hplan Hprev Hc Happ Hcomp.
    unfold extrude_feature.handle. rewrite Hd, Hr, Hplan, Hprev; simpl.
    unfold extrude_feature.apply_phase, extrude_feature.apply_and_measure,
      extrude_feature._apply_extrude, do_apply, time_time; simpl.
    rewrite Happ, Hc; simpl. unfold do_computeAll; simpl. rewrite Hcomp; simpl.
    unfold do_deleteMe; simpl.
    destruct (host_deleteMe H f d2) as [deleted d3]; simpl.
    eexists; split; [reflexivity|].
    simpl. apply in_or_app; right; simpl; auto.
Qed.

Lemma recompute_failure_recorded_witness :
  exists m w1,
    apply_and_measure fillet_feature.profile Examples.host_compute_fails
      (OtherFeature "fillet_feature" PyNone) true Examples.world1 = (Applied m, w1)
    /\ m_compute_ran m = false
    /\ guarded_apply fillet_feature.profile Examples.host_compute_fails
         (OtherFeature "fillet_feature" PyNone) PyNone true true Examples.world1
       = (applied_reply PyNone (Some Examples.feature1) false (m_timing_ms m), w1).
Proof.
  destruct (proj1 recompute_failure_recorded fillet_feature.profile
              Examples.host_compute_fails (OtherFeature "fillet_feature" PyNone)
              PyNone true Examples.world1 (Some Examples.feature1)
              (Examples.with_bodies Examples.doc1 [0; 1]%nat)
              (Examples.with_bodies Examples.doc1 [0; 1]%nat)
              eq_refl eq_refl)
    as (m & w1 & Happ & Hf & Hran & _ & _ & Hok).
  exists m, w1. split; [exact Happ|]. split; [exact Hran|].
  apply Hok.
  pose proof Happ as Hm. vm_compute in Hm.
  inversion Hm; subst m. vm_compute. reflexivity.
Defined.

(** ** New-body disambiguation *)




(** ** Validation of the extrude distance *)

Lemma float_ltb_lt (a b : float) : float_ltb a b = true <-> (a < b)%Qc.
Proof.
  unfold float_ltb. rewrite Qclt_alt.
  destruct (a ?= b)%Qc; split; congruence.
Qed.

Lemma float_leb_gt (a b : float) : float_leb a b = false <-> (b < a)%Qc.
Proof.
  unfold float_leb. rewrite Qclt_alt.
  pose proof (@cmp_antisym _ cmp_float _ b a) as Hopp. unfold cmp_float in Hopp.
  rewrite Hopp. destruct (b ?= a)%Qc; simpl; split; congruence.
Qed.

(** A distance above the bound never gets past plan derivation. *)
Lemma derive_plan_rejects_long_distance
  (rq : extrude_feature.request) (ctx : context) (d : Component) (distance : float) :
  extrude_feature.distance_mm rq = Some distance ->
  (Z2float extrude_feature.MAX_EXTRUDE_MM < distance)%Qc ->
  exists message,
    extrude_feature.derive_plan rq ctx d = Respond (response_error message)
    /\ (extrude_feature.units rq = "mm" ->
        selection_helpers._parse_face_selector (extrude_feature.face_selector rq) <> None ->
        extrude_feature.str_in (extrude_feature.operation rq) extrude_feature.operations
        = true ->
        extrude_feature.str_in (extrude_feature.direction rq) ["normal"; "opposite"]
        = true ->
        message = "distance_mm exceeds MAX_EXTRUDE_MM (50.0)").
Proof.
  intros Hdist Hlong. unfold extrude_feature.derive_plan. rewrite Hdist.
  assert (Hpos : float_leb distance zero = false).
  { apply float_leb_gt. apply Qclt_trans with (Z2float extrude_feature.MAX_EXTRUDE_MM);
      [reflexivity | exact Hlong]. }
  apply float_ltb_lt in Hlong. rewrite Hpos, Hlong.
  destruct (String.eqb (extrude_feature.units rq) "mm") eqn:Eu; cbn [negb].
  2:{ eexists; split; [reflexivity|]. intros U. rewrite U in Eu. discriminate Eu. }
  destruct (selection_helpers._parse_face_selector _) as [sel|].
  2:{ eexists; split; [reflexivity|]. intros _ N. exfalso; apply N; reflexivity. }
  destruct (extrude_feature.str_in (extrude_feature.operation rq)
              extrude_feature.operations); cbn [negb].
  2:{ eexists; split; [reflexivity|]. intros _ _ O. discriminate O. }
  destruct (extrude_feature.str_in (extrude_feature.direction rq)
              ["normal"; "opposite"]); cbn [negb].
  2:{ eexists; split; [reflexivity|]. intros _ _ _ D. discriminate D. }
  eexists; split; [reflexivity|]. intros _ _ _ _. reflexivity.
Qed.

(** C7: a [distance_mm] above [MAX_EXTRUDE_MM] (50.0) is rejected: the
    answer is [ok = false] with an input error, the one naming
    [MAX_EXTRUDE_MM] when the checks made before it pass, and the world is
    left as it was (no host call, no clock reading).  A [distance_mm] equal
    to 50.0 passes the distance checks: with the other inputs valid, the
    plan is derived with that distance. *)
Theorem extrude_distance_bound :
  (forall (H : host) (rq : extrude_feature.request) (ctx : context) (w : world)
          (distance : float),
      extrude_feature.distance_mm rq = Some distance ->
      (Z2float 50 < distance)%Qc ->
      exists message,
        extrude_feature.handle H rq ctx w = (response_error message, w)
        /\ dict_get "ok" (response_error message) = Some (PyBool false)
        /\ (design ctx = true -> has_root_comp ctx = true ->
            extrude_feature.units rq = "mm" ->
            selection_helpers._parse_face_selector (extrude_feature.face_selector rq)
            <> None ->
            extrude_feature.str_in (extrude_feature.operation rq)
              extrude_feature.operations = true ->
            extrude_feature.str_in (extrude_feature.direction rq)
              ["normal"; "opposite"] = true ->
            message = "distance_mm exceeds MAX_EXTRUDE_MM (50.0)"))
  /\ (forall (rq : extrude_feature.request) (ctx : context) (d : Component)
             (selector : selection_helpers.face_selector)
             (body : body_ref) (bodies : list body_ref)
             (selected : selection_helpers.face_candidate) (n : nat),
         extrude_feature.distance_mm rq = Some (Z2float 50) ->
         extrude_feature.units rq = "mm" ->
         selection_helpers._parse_face_selector (extrude_feature.face_selector rq)
         = Some selector ->
         extrude_feature.str_in (extrude_feature.operation rq)
           extrude_feature.operations = true ->
         extrude_feature.str_in (extrude_feature.direction rq)
           ["normal"; "opposite"] = true ->
         selection_helpers._resolve_body d (extrude_feature.body_name rq)
         = (Some body, bodies) ->
         selection_helpers._select_face (body_at d body) selector
           (units_mgr ctx) (convert_mm ctx) = (Some selected, n) ->
         exists p,
           extrude_feature.derive_plan rq ctx d = Go p
           /\ extrude_feature.p_distance_mm p = Z2float 50
           /\ dict_get "distance_mm" (extrude_feature.p_plan p)
              = Some (PyFloat (Z2float 50))).
Proof.
  split.
  - intros H rq ctx w distance Hdist Hlong.
    destruct (derive_plan_rejects_long_distance rq ctx (root_comp w) distance
                Hdist Hlong) as (message & Hplan & Hmsg).
    unfold extrude_feature.handle. rewrite Hplan.
    destruct (design ctx) eqn:Ed, (has_root_comp ctx) eqn:Er; simpl.
    + exists message. split; [reflexivity|]. split; [reflexivity|]. auto.
    + eexists. split; [reflexivity|]. split; [reflexivity|]. discriminate.
    + eexists. split; [reflexivity|]. split; [reflexivity|]. discriminate.
    + eexists. split; [reflexivity|]. split; [reflexivity|]. discriminate.
  - intros rq ctx d selector body bodies selected n Hdist Hu Hsel Hop Hdir Hbody Hface.
    unfold extrude_feature.derive_plan.
    rewrite Hdist, Hu, Hsel, Hop, Hdir, Hbody, Hface. simpl.
    eexists. split; [reflexivity|]. split; reflexivity.
Qed.

Lemma extrude_distance_bound_witness :
  (exists message,
      extrude_feature.handle Examples.host_one_new_body
        (Examples.extrude_request (Z2float 50 + Q2Qc (1 # 1000000))%Qc false)
        Examples.ctx1 Examples.world1
      = (response_error message, Examples.world1)
      /\ message = "distance_mm exceeds MAX_EXTRUDE_MM (50.0)")
  /\ (exists p,
         extrude_feature.derive_plan (Examples.extrude_request (Z2float 50) false)
           Examples.ctx1 Examples.doc1 = Go p
         /\ extrude_feature.p_distance_mm p = Z2float 50).
Proof.
  split.
  - destruct (proj1 extrude_distance_bound Examples.host_one_new_body
                (Examples.extrude_request (Z2float 50 + Q2Qc (1 # 1000000))%Qc false)
                Examples.ctx1 Examples.world1
                (Z2float 50 + Q2Qc (1 # 1000000))%Qc eq_refl eq_refl)
      as (message & Hh & _ & Hmsg).
    exists message. split; [exact Hh|].
    apply Hmsg; try reflexivity. discriminate.
  - destruct (proj2 extrude_distance_bound
                (Examples.extrude_request (Z2float 50) false)
                Examples.ctx1 Examples.doc1 selection_helpers.largest_planar
                0%nat [0%nat]
                Examples.selected1
                2%nat eq_refl eq_refl eq_refl eq_refl eq_refl eq_refl eq_refl)
      as (p & Hp & Hd & _).
    exists p. split; [exact Hp | exact Hd].
Defined.

(** ** Preview *)

(** A preview of extrude_feature, fillet_feature or hole_feature leaves the
    world as it was: no host call, the document untouched. *)
Lemma extrude_preview_pure (H : host) (rq : extrude_feature.request)
  (ctx : context) (w : world) :
  extrude_feature.preview rq = true ->
  snd (extrude_feature.handle H rq ctx w) = w.
Proof.
  intros Hp. unfold extrude_feature.handle. rewrite Hp.
  destruct (negb (design ctx) || negb (has_root_comp ctx)); [reflexivity|].
  destruct (extrude_feature.derive_plan rq ctx (root_comp w)); reflexivity.
Qed.

Lemma fillet_preview_pure (H : host) (rq : fillet_feature.request)
  (ctx : context) (w : world) :
  fillet_feature.preview rq = true ->
  snd (fillet_feature.handle H rq ctx w) = w.
Proof.
  intros Hp. unfold fillet_feature.handle. rewrite Hp.
  destruct (negb (design ctx) || negb (has_root_comp ctx)); [reflexivity|].
  destruct (negb (str_truthy (fillet_feature.edge_id rq)) && _); [reflexivity|].
  destruct (fillet_feature.radius_mm rq) as [radius|]; [|reflexivity].
  destruct (float_leb radius zero); [reflexivity|].
  destruct (float_ltb _ radius); [reflexivity|].
  destruct (fillet_feature.resolve_edge rq ctx (root_comp w)); reflexivity.
Qed.

Lemma hole_preview_pure (H : host) (rq : hole_feature.request)
  (ctx : context) (w : world) :
  hole_feature.preview rq = true ->
  snd (hole_feature.handle H rq ctx w) = w.
Proof.
  intros Hp. unfold hole_feature.handle. rewrite Hp.
  destruct (negb (design ctx) || negb (has_root_comp ctx)); [reflexivity|].
  destruct (negb (str_truthy (hole_feature.face_id rq)) && _); [reflexivity|].
  destruct (hole_feature.center_mm rq) as [| |[[cx cy] cz]]; try reflexivity.
  destruct (hole_feature.diameter_mm rq) as [diameter|]; [|reflexivity].
  destruct (float_leb diameter zero); [reflexivity|].
  destruct (hole_feature.check_depth rq); [reflexivity|].
  destruct (hole_feature.resolve_face rq ctx (root_comp w)) as [|[face body]];
    reflexivity.
Qed.

(** A handler is a function of the request, the context and the world: a
    second identical preview finds the world of the first and gives the
    same answer. *)
Lemma extrude_preview_repeatable (H : host) (rq : extrude_feature.request)
  (ctx : context) (w : world) :
  extrude_feature.preview rq = true ->
  extrude_feature.handle H rq ctx (snd (extrude_feature.handle H rq ctx w))
  = extrude_feature.handle H rq ctx w.
Proof. intros Hp. rewrite extrude_preview_pure by exact Hp. reflexivity. Qed.

(** In revolve_feature the axis given by [axis_line_mm] is created before
    the preview test: whenever that branch is reached and the host creates
    the axis, a preview has called [constructionAxes.add]. *)
Lemma revolve_preview_axis_line_calls_host
  (H : host) (rq : revolve_feature.request) (ctx : context) (w : world)
  (sketch : Sketch) (prof : Profile) (angle : float)
  (p1 p2 p1i p2i : float * float * float) :
  design ctx = true -> has_root_comp ctx = true ->
  revolve_feature.preview rq = true ->
  str_truthy (revolve_feature.profile_sketch_id rq) = true ->
  revolve_feature.angle_deg rq = Some angle ->
  revolve_feature.str_in (revolve_feature.operation rq) revolve_feature.operations
  = true ->
  revolve_feature._find_sketch (root_comp w)
    match revolve_feature.profile_sketch_id rq with Some s => s | None => "" end
  = Some sketch ->
  revolve_feature._find_profile sketch
    match revolve_feature.profile_curve_ids rq with Some l => l | None => [] end
  = Some prof ->
  str_truthy (revolve_feature.edge_id rq) = false ->
  str_truthy (revolve_feature.axis_selector rq) = false ->
  revolve_feature.axis_line_mm rq = revolve_feature.AxisLine p1 p2 ->
  revolve_feature.convert_point (units_mgr ctx) p1 = inr p1i ->
  revolve_feature.convert_point (units_mgr ctx) p2 = inr p2i ->
  calls (snd (revolve_feature.handle H rq ctx w))
  = (calls w ++ [Call_constructionAxes_add p1i p2i])%list
  /\ root_comp (snd (revolve_feature.handle H rq ctx w))
     = snd (host_constructionAxes_add H p1i p2i (root_comp w)).
Proof.
  intros Hd Hr Hp Hs Ha Ho Hsk Hpr He Hsel Hline Hc1 Hc2.
  unfold revolve_feature.handle.
  rewrite Hd, Hr, Hs, Ha, Ho, Hsk, Hpr; cbn [negb orb].
  unfold revolve_feature.resolve_axis.
  rewrite He, Hsel, Hline, Hc1, Hc2.
  unfold do_axis_add.
  destruct (host_constructionAxes_add H p1i p2i (root_comp w)) as [[exc | axis] d];
    cbn [snd fst]; [split; reflexivity|].
  rewrite Hp. split; reflexivity.
Qed.

(** C9 at the failing input: a revolve preview whose axis is given by two
    points answers [ok = true] with [is_preview = true], and has added a
    construction axis to the document. *)
Theorem revolve_preview_creates_construction_axis :
  let before := Examples.world1 in
  let result :=
    revolve_feature.handle Examples.host_one_new_body
      Examples.revolve_preview_request Examples.ctx1 before in
  dict_get "ok" (fst result) = Some (PyBool true)
  /\ (exists plan,
         dict_get "data" (fst result)
         = Some (PyDict [("preview", PyDict [("is_preview", PyBool true);
                                             ("plan", plan)])]))
  /\ calls (snd result)
     = [Call_constructionAxes_add (Z2float 0, Z2float 0, Z2float 0)
                                  (Z2float 0, Z2float 0, Z2float 10)]
  /\ constructionAxes (root_comp before) = []
  /\ length (constructionAxes (root_comp (snd result))) = 1%nat
  /\ selection_helpers._list_visible_bodies (root_comp (snd result))
     = selection_helpers._list_visible_bodies (root_comp before).
Proof.
  repeat split; try (vm_compute; reflexivity).
  eexists. vm_compute. reflexivity.
Qed.

(** ** Body resolution *)

Lemma find_first {A : Type} (f : A -> bool) (l : list A) (b : A) :
  find f l = Some b <->
  exists l1 l2, l = (l1 ++ b :: l2)%list /\ f b = true
                /\ forall a, In a l1 -> f a = false.
Proof.
  induction l as [|a l IH]; simpl.
  - split; [discriminate|]. intros (l1 & l2 & E & _).
    destruct l1; discriminate E.
  - destruct (f a) eqn:Efa.
    + split.
      * intros E; inversion E; subst. exists [], l. simpl. intuition.
      * intros (l1 & l2 & E & Hb & Hl1). destruct l1 as [|x l1]; simpl in E.
        -- inversion E; reflexivity.
        -- inversion E; subst. rewrite (Hl1 x) in Efa; [discriminate|left; reflexivity].
    + rewrite IH. split.
      * intros (l1 & l2 & -> & Hb & Hl1). exists (a :: l1), l2. simpl.
        split; [reflexivity|]. split; [exact Hb|].
        intros x [<- | Hx]; auto.
      * intros (l1 & l2 & E & Hb & Hl1). destruct l1 as [|x l1]; simpl in E.
        -- inversion E; subst. rewrite Hb in Efa; discriminate.
        -- inversion E; subst. exists l1, l2. split; [reflexivity|].
           split; [exact Hb|]. intros y Hy; apply Hl1; right; exact Hy.
Qed.

Lemma find_none_iff {A : Type} (f : A -> bool) (l : list A) :
  find f l = None <-> forall a, In a l -> f a = false.
Proof.
  split; [apply find_none|].
  induction l as [|a l IH]; simpl; intros Hall; [reflexivity|].
  rewrite (Hall a) by (left; reflexivity). apply IH.
  intros x Hx; apply Hall; right; exact Hx.
Qed.



Lemma resolve_body_returns_visible (d : Component) (body_name : option string) :
  snd (selection_helpers._resolve_body d body_name)
  = selection_helpers._list_visible_bodies d.
Proof.
  unfold selection_helpers._resolve_body.
  destruct (str_truthy body_name); [reflexivity|].
  destruct (selection_helpers._list_visible_bodies d) as [|a [|a' rest]];
    reflexivity.
Qed.



(** The other embedded handlers surface the same reply. *)
Lemma fillet_body_not_resolved (rq : fillet_feature.request) (ctx : context)
  (d : Component) (selector : selection_helpers.edge_selector) :
  str_truthy (fillet_feature.edge_id rq) = false ->
  selection_helpers._parse_edge_selector
    match fillet_feature.edge_selector rq with Some s => s | None => "" end
  = Some selector ->
  fst (selection_helpers._resolve_body d (fillet_feature.body_name rq)) = None ->
  fillet_feature.resolve_edge rq ctx d
  = Respond (body_not_resolved d (fillet_feature.body_name rq)
               (selection_helpers._list_visible_bodies d)).
Proof.
  intros He Hs Hn. unfold fillet_feature.resolve_edge. rewrite He, Hs.
  pose proof (resolve_body_returns_visible d (fillet_feature.body_name rq)) as Hv.
  destruct (selection_helpers._resolve_body d (fillet_feature.body_name rq))
    as [[b|] bodies]; simpl in *; [discriminate|]. rewrite Hv. reflexivity.
Qed.

Lemma hole_body_not_resolved (rq : hole_feature.request) (ctx : context)
  (d : Component) (selector : selection_helpers.face_selector) :
  str_truthy (hole_feature.face_id rq) = false ->
  selection_helpers._parse_face_selector
    match hole_feature.face_selector rq with Some s => s | None => "" end
  = Some selector ->
  fst (selection_helpers._resolve_body d (hole_feature.body_name rq)) = None ->
  hole_feature.resolve_face rq ctx d
  = Respond (body_not_resolved d (hole_feature.body_name rq)
               (selection_helpers._list_visible_bodies d)).
Proof.
  intros He Hs Hn. unfold hole_feature.resolve_face. rewrite He, Hs.
  pose proof (resolve_body_returns_visible d (hole_feature.body_name rq)) as Hv.
  destruct (selection_helpers._resolve_body d (hole_feature.body_name rq))
    as [[b|] bodies]; simpl in *; [discriminate|]. rewrite Hv. reflexivity.
Qed.

(** * Further properties *)

(** ** The winner of a pool *)

Section WinnerFacts.
Context {A K : Type} (key : A -> K) (cmp : K -> K -> comparison).
Context `{!PyOrd cmp}.

Lemma winner_of_some (pool : list A) (w : A) (n : nat) :
  winner_of key cmp pool = (Some w, n) ->
  n = length pool
  /\ In w pool
  /\ forall c, In c pool -> key_le key cmp w c.
Proof.
  unfold winner_of. destruct (sort_by_key key cmp pool) as [|first rest] eqn:E;
    intros R; inversion R; subst.
  split; [reflexivity|]. apply (sort_by_key_first_least key cmp _ _ _ E).
Qed.


Lemma winner_of_perm (pool pool' : list A) :
  Permutation pool pool' ->
  snd (winner_of key cmp pool') = snd (winner_of key cmp pool)
  /\ option_map key (fst (winner_of key cmp pool'))
     = option_map key (fst (winner_of key cmp pool))
  /\ ((forall a b, In a pool -> In b pool -> key a = key b -> a = b) ->
      winner_of key cmp pool' = winner_of key cmp pool).
Proof.
  intros P. pose proof (Permutation_length P) as L.
  unfold winner_of.
  destruct (sort_by_key key cmp pool) as [|a r] eqn:E,
           (sort_by_key key cmp pool') as [|a' r'] eqn:E'; cbn [fst snd option_map].
  - auto.
  - apply sort_by_key_nil in E. subst pool. apply Permutation_nil in P.
    subst pool'. discriminate E'.
  - apply sort_by_key_nil in E'. subst pool'.
    apply Permutation_sym, Permutation_nil in P. subst pool. discriminate E.
  - pose proof (sort_by_key_first_key key cmp _ _ _ _ _ _ P E E') as Hk.
    split; [symmetry; exact L|]. split; [rewrite Hk; reflexivity|].
    intros Hinj. rewrite <- L. f_equal. f_equal.
    apply Hinj; [| |exact Hk].
    + apply (Permutation_in _ (Permutation_sym P)).
      apply (sort_by_key_first_least key cmp _ _ _ E').
    + apply (sort_by_key_first_least key cmp _ _ _ E).
Qed.

End WinnerFacts.

Lemma collect_in_iff {A B : Type} (f : A -> option B) (l : list A) (b : B) :
  In b (selection_helpers.collect f l) <-> exists a, In a l /\ f a = Some b.
Proof.
  split; [apply collect_in|].
  intros (a & Ha & Hf). induction l as [|x l IH]; simpl in *; [contradiction|].
  destruct Ha as [-> | Ha].
  - rewrite Hf. left; reflexivity.
  - destruct (f x); [right|]; apply IH; exact Ha.
Qed.

Lemma collect_length {A B : Type} (f : A -> option B) (l : list A) :
  (length (selection_helpers.collect f l) <= length l)%nat.
Proof.
  induction l as [|a l IH]; simpl; [lia|]. destruct (f a); simpl; lia.
Qed.

Lemma lex_not_gt (c1 c2 : comparison) : lex c1 c2 <> Gt -> c1 <> Gt.
Proof. destruct c1; simpl; congruence. Qed.

Lemma neg_le_neg (a b : float) : cmp_float (- a)%Qc (- b)%Qc <> Gt -> (b <= a)%Qc.
Proof.
  unfold cmp_float. intros Hc. apply Qcle_alt in Hc.
  apply Qcopp_le_compat in Hc. rewrite !Qcopp_involutive in Hc. exact Hc.
Qed.

(** A candidate that sorts no later has a score at least as high. *)
Lemma face_key_le_score (k1 k2 : selection_helpers.face_key) :
  selection_helpers.cmp_face_key k1 k2 <> Gt ->
  cmp_float (fst (fst (fst k1))) (fst (fst (fst k2))) <> Gt.
Proof.
  destruct k1 as [[[s1 a1] c1] i1], k2 as [[[s2 a2] c2] i2]; simpl.
  apply lex_not_gt.
Qed.

(** ** The selected face *)

(** X1: the face [_select_face] returns is a face of the body, the count
    is the number of candidates (at least one, at most the number of
    faces), and no candidate has a higher score; under [largest_area] no
    face with a centroid has a larger area. *)
Theorem select_face_winner_is_best
  (body : BRepBody) (sel : selection_helpers.face_selector)
  (um : option UnitsManager) (conv : option UnitsManager -> float -> float)
  (w : selection_helpers.face_candidate) (n : nat)
  (Hsel : selection_helpers._select_face body sel um conv = (Some w, n)) :
  In (selection_helpers.fc_face w) (b_faces body)
  /\ n = length (selection_helpers.face_candidates body sel um conv)
  /\ (1 <= n <= length (b_faces body))%nat
  /\ (forall c, In c (selection_helpers.face_candidates body sel um conv) ->
                (selection_helpers.fc_score c <= selection_helpers.fc_score w)%Qc)
  /\ (sel = selection_helpers.largest_area ->
      forall f centroid area,
        In f (b_faces body) -> face_centroid f = Some centroid ->
        selection_helpers._face_area_mm2 f um conv = Some area ->
        (area <= selection_helpers.fc_score w)%Qc).
Proof.
  change (winner_of selection_helpers._tie_key selection_helpers.cmp_face_key
            (selection_helpers.face_candidates body sel um conv) = (Some w, n)) in Hsel.
  destruct (winner_of_some _ _ _ _ _ Hsel) as (Hn & Hin & Hleast).
  assert (Hbest : forall c,
             In c (selection_helpers.face_candidates body sel um conv) ->
             (selection_helpers.fc_score c <= selection_helpers.fc_score w)%Qc).
  { intros c Hc. apply neg_le_neg.
    apply (face_key_le_score (selection_helpers._tie_key w)
             (selection_helpers._tie_key c)).
    apply Hleast; exact Hc. }
  pose proof Hin as Hin'. apply collect_in in Hin'.
  destruct Hin' as (f & Hf & Ef).
  destruct (face_candidate_of_face _ _ _ _ _ Ef) as [Hface _].
  split; [rewrite Hface; exact Hf|]. split; [exact Hn|]. split.
  { split.
    - rewrite Hn. destruct (selection_helpers.face_candidates body sel um conv);
        [contradiction | simpl; lia].
    - rewrite Hn. apply collect_length. }
  split; [exact Hbest|].
  intros -> f' centroid area Hf' Hc Ha.
  assert (Hcand : In {| selection_helpers.fc_face := f';
                        selection_helpers.fc_score := area;
                        selection_helpers.fc_area_mm2 := Some area;
                        selection_helpers.fc_centroid := centroid;
                        selection_helpers.fc_centroid_tuple :=
                          selection_helpers._point_tuple_mm conv um centroid;
                        selection_helpers.fc_face_id := face_token f';
                        selection_helpers.fc_normal := None |}
                   (selection_helpers.face_candidates body
                      selection_helpers.largest_area um conv)).
  { apply collect_in_iff. exists f'. split; [exact Hf'|].
    unfold selection_helpers.face_candidate_of. simpl. rewrite Hc, Ha. reflexivity. }
  apply (Hbest _ Hcand).
Qed.

Lemma select_face_winner_is_best_witness :
  exists w,
    selection_helpers._select_face Examples.body_two_faces
      selection_helpers.largest_area (Some Examples.mm_units) _convert_mm
    = (Some w, 2%nat)
    /\ In (selection_helpers.fc_face w) (b_faces Examples.body_two_faces).
Proof.
  eexists. split; [reflexivity|].
  apply (select_face_winner_is_best Examples.body_two_faces
           selection_helpers.largest_area (Some Examples.mm_units) _convert_mm
           _ 2%nat eq_refl).
Defined.


(** ** Edges and vertices *)

#[export] Instance PyOrd_vertex_key : PyOrd vertex_selection.cmp_vertex_key.
Proof.
  apply (PyOrd_ext (cmp_pair (cmp_pair cmp_float cmp_float3) cmp_str)).
  - intros [[s1 p1] i1] [[s2 p2] i2];
      unfold cmp_pair, vertex_selection.cmp_vertex_key; simpl.
    rewrite !lex_assoc; reflexivity.
  - typeclasses eauto.
Qed.

Lemma edge_candidate_of_edge (sel : selection_helpers.edge_selector)
  (um : option UnitsManager) (conv : option UnitsManager -> float -> float)
  (p : option (float * float * float)) (e : BRepEdge)
  (c : selection_helpers.edge_candidate) :
  selection_helpers.edge_candidate_of sel um conv p e = Some c ->
  selection_helpers.ec_edge c = e
  /\ selection_helpers.ec_edge_id c = edge_token e
  /\ selection_helpers._edge_midpoint e = Some (selection_helpers.ec_midpoint c)
  /\ selection_helpers.ec_midpoint_tuple c
     = selection_helpers._point_tuple_mm conv um (selection_helpers.ec_midpoint c)
  /\ selection_helpers.ec_length_mm c = selection_helpers._edge_length_mm e um conv.
Proof.
  unfold selection_helpers.edge_candidate_of, edge_token.
  destruct (selection_helpers._edge_midpoint e) as [mid|]; [|discriminate].
  destruct sel.
  - destruct (selection_helpers._edge_length_mm e um conv); [|discriminate].
    intros E; inversion E; subst; simpl; auto.
  - destruct (selection_helpers._edge_direction e); [|discriminate].
    intros E; inversion E; subst; simpl; auto.
  - destruct p as [[[qx qy] qz]|]; [|discriminate].
    destruct (selection_helpers._point_tuple_mm conv um mid) as [[mx my] mz] eqn:Et.
    intros E; inversion E; subst; simpl; auto.
Qed.


(** X3: [_select_edge] on a permutation of the edge list reports the same
    pool size and a winner with the same key [(-score, -length, midpoint
    tuple, edge id)]; the winner is the same edge candidate when the edges
    carry pairwise distinct identity tokens. *)
Theorem select_edge_permutation_invariant
  (entity entity' : BRepBody) (sel : selection_helpers.edge_selector)
  (um : option UnitsManager) (conv : option UnitsManager -> float -> float)
  (p : option (float * float * float))
  (Hperm : Permutation (b_edges entity) (b_edges entity')) :
  snd (selection_helpers._select_edge entity' sel um conv p)
  = snd (selection_helpers._select_edge entity sel um conv p)
  /\ option_map selection_helpers.edge_tie_key
       (fst (selection_helpers._select_edge entity' sel um conv p))
     = option_map selection_helpers.edge_tie_key
         (fst (selection_helpers._select_edge entity sel um conv p))
  /\ (NoDup (map edge_token (b_edges entity)) ->
      selection_helpers._select_edge entity' sel um conv p
      = selection_helpers._select_edge entity sel um conv p).
Proof.
  change (selection_helpers._select_edge entity' sel um conv p)
    with (winner_of selection_helpers.edge_tie_key selection_helpers.cmp_face_key
            (selection_helpers.collect
               (selection_helpers.edge_candidate_of sel um conv p) (b_edges entity'))).
  change (selection_helpers._select_edge entity sel um conv p)
    with (winner_of selection_helpers.edge_tie_key selection_helpers.cmp_face_key
            (selection_helpers.collect
               (selection_helpers.edge_candidate_of sel um conv p) (b_edges entity))).
  pose proof (collect_perm (selection_helpers.edge_candidate_of sel um conv p)
                _ _ Hperm) as P.
  destruct (winner_of_perm selection_helpers.edge_tie_key
              selection_helpers.cmp_face_key _ _ P) as (Hn & Hk & Hsame).
  split; [exact Hn|]. split; [exact Hk|].
  intros N. apply Hsame. intros c1 c2 H1 H2 Hkey.
  apply collect_in in H1, H2.
  destruct H1 as (e1 & He1 & E1), H2 as (e2 & He2 & E2).
  destruct (edge_candidate_of_edge _ _ _ _ _ _ E1) as (_ & I1 & _).
  destruct (edge_candidate_of_edge _ _ _ _ _ _ E2) as (_ & I2 & _).
  assert (Hid : selection_helpers.ec_edge_id c1 = selection_helpers.ec_edge_id c2).
  { unfold selection_helpers.edge_tie_key in Hkey. inversion Hkey; reflexivity. }
  assert (e1 = e2).
  { apply (NoDup_map_injective edge_token (b_edges entity)); auto. congruence. }
  subst e2. congruence.
Qed.

Lemma select_edge_permutation_invariant_witness :
  selection_helpers._select_edge MoreExamples.body_two_edges_rev
    selection_helpers.longest_edge (Some Examples.mm_units) _convert_mm None
  = selection_helpers._select_edge MoreExamples.body_two_edges
      selection_helpers.longest_edge (Some Examples.mm_units) _convert_mm None.
Proof.
  apply (select_edge_permutation_invariant MoreExamples.body_two_edges
           MoreExamples.body_two_edges_rev selection_helpers.longest_edge
           (Some Examples.mm_units) _convert_mm None (perm_swap _ _ _)).
  repeat constructor; simpl; intuition discriminate.
Defined.



Lemma vertex_candidate_of_vertex (um : option UnitsManager)
  (conv : option UnitsManager -> float -> float)
  (sel : vertex_selection.vertex_selector)
  (p : option (float * float * float)) (v : BRepVertex)
  (c : vertex_selection.vertex_candidate) :
  vertex_selection.vertex_candidate_of sel um conv p v = Some c ->
  vertex_selection.vc_vertex c = v
  /\ vertex_selection.vc_vertex_id c = vertex_token v
  /\ exists q point,
       p = Some q /\ vertex_geometry v = Some point
       /\ vertex_selection.vc_point c = point
       /\ vertex_selection.vc_point_tuple c
          = selection_helpers._point_tuple_mm conv um point
       /\ vertex_selection.vc_score c
          = (- vertex_selection.squared_distance
                 (selection_helpers._point_tuple_mm conv um point) q)%Qc.
Proof.
  unfold vertex_selection.vertex_candidate_of, vertex_selection._vertex_point,
    vertex_token.
  destruct (vertex_geometry v) as [point|]; [|discriminate].
  destruct sel. destruct p as [q|]; [|discriminate].
  intros E; inversion E; subst; simpl.
  split; [reflexivity|]. split; [reflexivity|].
  exists q, point. repeat split; reflexivity.
Qed.




(** X6: [_select_vertex] on a permutation of the vertices reports the same
    pool size and a winner with the same key [(-score, point tuple,
    vertex id)]; the winner is the same candidate when the vertices carry
    pairwise distinct identity tokens. *)
Theorem select_vertex_permutation_invariant
  (vertices vertices' : list BRepVertex) (sel : vertex_selection.vertex_selector)
  (um : option UnitsManager) (conv : option UnitsManager -> float -> float)
  (p : option (float * float * float))
  (Hperm : Permutation vertices vertices') :
  snd (vertex_selection._select_vertex vertices' sel um conv p)
  = snd (vertex_selection._select_vertex vertices sel um conv p)
  /\ option_map vertex_selection._tie_key
       (fst (vertex_selection._select_vertex vertices' sel um conv p))
     = option_map vertex_selection._tie_key
         (fst (vertex_selection._select_vertex vertices sel um conv p))
  /\ (NoDup (map vertex_token vertices) ->
      vertex_selection._select_vertex vertices' sel um conv p
      = vertex_selection._select_vertex vertices sel um conv p).
Proof.
  change (vertex_selection._select_vertex vertices' sel um conv p)
    with (winner_of vertex_selection._tie_key vertex_selection.cmp_vertex_key
            (vertex_selection.vertex_candidates vertices' sel um conv p)).
  change (vertex_selection._select_vertex vertices sel um conv p)
    with (winner_of vertex_selection._tie_key vertex_selection.cmp_vertex_key
            (vertex_selection.vertex_candidates vertices sel um conv p)).
  pose proof (collect_perm (vertex_selection.vertex_candidate_of sel um conv p)
                _ _ Hperm) as P.
  destruct (winner_of_perm vertex_selection._tie_key
              vertex_selection.cmp_vertex_key _ _ P) as (Hn & Hk & Hsame).
  split; [exact Hn|]. split; [exact Hk|].
  intros N. apply Hsame. intros c1 c2 H1 H2 Hkey.
  apply collect_in in H1, H2.
  destruct H1 as (v1 & Hv1 & E1), H2 as (v2 & Hv2 & E2).
  destruct (vertex_candidate_of_vertex _ _ _ _ _ _ E1) as (_ & I1 & _).
  destruct (vertex_candidate_of_vertex _ _ _ _ _ _ E2) as (_ & I2 & _).
  assert (Hid : vertex_selection.vc_vertex_id c1 = vertex_selection.vc_vertex_id c2).
  { unfold vertex_selection._tie_key in Hkey. inversion Hkey; reflexivity. }
  assert (v1 = v2).
  { apply (NoDup_map_injective vertex_token vertices); auto. congruence. }
  subst v2. congruence.
Qed.

Lemma select_vertex_permutation_invariant_witness :
  vertex_selection._select_vertex (rev MoreExamples.two_vertices)
    vertex_selection.vertex_closest_to_point (Some Examples.mm_units) _convert_mm
    (Some MoreExamples.origin_mm)
  = vertex_selection._select_vertex MoreExamples.two_vertices
      vertex_selection.vertex_closest_to_point (Some Examples.mm_units) _convert_mm
      (Some MoreExamples.origin_mm).
Proof.
  apply (select_vertex_permutation_invariant MoreExamples.two_vertices
           (rev MoreExamples.two_vertices) vertex_selection.vertex_closest_to_point
           (Some Examples.mm_units) _convert_mm (Some MoreExamples.origin_mm)
           (perm_swap _ _ _)).
  repeat constructor; simpl; intuition discriminate.
Defined.

(** ** The selector grammar *)

Lemma prefix_app (p s : string) :
  String.prefix p s = true <-> exists rest, s = p ++ rest.
Proof.
  revert s. induction p as [|c p IH]; intros [|d s]; simpl.
  - split; [intros _; exists EmptyString; reflexivity | reflexivity].
  - split; [intros _; exists (String d s); reflexivity | reflexivity].
  - split; [discriminate | intros [r Hr]; discriminate].
  - destruct (Ascii.ascii_dec c d) as [->|Hcd].
    + rewrite IH. split; intros [r Hr]; exists r; congruence.
    + split; [discriminate|]. intros [r Hr]. congruence.
Qed.






Lemma last_piece_from_app (sep : ascii) (a b acc : string) :
  selection_helpers.last_piece_from sep (a ++ String sep b) acc
  = selection_helpers.last_piece_from sep b EmptyString.
Proof.
  revert acc. induction a as [|c a IH]; intros acc; simpl.
  - rewrite Ascii.eqb_refl. reflexivity.
  - destruct (Ascii.eqb c sep); apply IH.
Qed.

Lemma lower_axis3_piece (ax : string) (a : selection_helpers.axis3) :
  selection_helpers.lower ax = axis3_str a ->
  selection_helpers.last_piece_from selection_helpers.underscore ax EmptyString = ax.
Proof.
  destruct ax as [|c [|d rest]]; simpl.
  - destruct a; discriminate.
  - intros H.
    destruct (Ascii.eqb_spec c selection_helpers.underscore) as [->|_];
      [destruct a; discriminate H | reflexivity].
  - destruct a; discriminate.
Qed.

(** X8: the bounding-box selectors read only the piece after the last
    underscore, in either case: any string that starts with [max_bbox_]
    (or [min_bbox_]) and ends with an underscore followed by [x], [y] or
    [z], upper or lower case, is accepted, whatever stands in between. *)
Theorem bbox_selector_lenient
  (pre ax : string) (a : selection_helpers.axis3)
  (Hax : selection_helpers.lower ax = axis3_str a) :
  (String.prefix "max_bbox_" (pre ++ "_" ++ ax) = true ->
   selection_helpers._parse_face_selector (pre ++ "_" ++ ax)
   = Some (selection_helpers.max_bbox a))
  /\ (String.prefix "min_bbox_" (pre ++ "_" ++ ax) = true ->
      selection_helpers._parse_face_selector (pre ++ "_" ++ ax)
      = Some (selection_helpers.min_bbox a)).
Proof.
  assert (Hpiece : selection_helpers.lower
                     (selection_helpers.last_piece selection_helpers.underscore
                        (pre ++ "_" ++ ax)) = axis3_str a).
  { unfold selection_helpers.last_piece.
    change (pre ++ "_" ++ ax) with (pre ++ String selection_helpers.underscore ax).
    rewrite last_piece_from_app, (lower_axis3_piece ax a Hax). exact Hax. }
  assert (Haxis : selection_helpers.parse_axis3 (axis3_str a) = Some a)
    by (destruct a; reflexivity).
  unfold selection_helpers._parse_face_selector, selection_helpers.parse_bbox_selector.
  rewrite Hpiece, Haxis.
  split; intros Hp.
  - destruct (String.eqb_spec (pre ++ "_" ++ ax) "largest_planar") as [E|_];
      [rewrite E in Hp; discriminate Hp|].
    destruct (String.eqb_spec (pre ++ "_" ++ ax) "largest_area") as [E|_];
      [rewrite E in Hp; discriminate Hp|].
    destruct (String.prefix "normal_closest:" (pre ++ "_" ++ ax)) eqn:En.
    { apply prefix_app in En, Hp. destruct En as [r1 E1], Hp as [r2 E2].
      rewrite E1 in E2. discriminate E2. }
    rewrite Hp. reflexivity.
  - destruct (String.eqb_spec (pre ++ "_" ++ ax) "largest_planar") as [E|_];
      [rewrite E in Hp; discriminate Hp|].
    destruct (String.eqb_spec (pre ++ "_" ++ ax) "largest_area") as [E|_];
      [rewrite E in Hp; discriminate Hp|].
    destruct (String.prefix "normal_closest:" (pre ++ "_" ++ ax)) eqn:En.
    { apply prefix_app in En, Hp. destruct En as [r1 E1], Hp as [r2 E2].
      rewrite E1 in E2. discriminate E2. }
    destruct (String.prefix "max_bbox_" (pre ++ "_" ++ ax)) eqn:Em.
    { apply prefix_app in Em, Hp. destruct Em as [r1 E1], Hp as [r2 E2].
      rewrite E1 in E2. discriminate E2. }
    rewrite Hp. reflexivity.
Qed.

Lemma bbox_selector_lenient_witness :
  selection_helpers._parse_face_selector "max_bbox_of_the_top_Z"
  = Some (selection_helpers.max_bbox selection_helpers.AxisZ).
Proof.
  apply (bbox_selector_lenient "max_bbox_of_the_top" "Z" selection_helpers.AxisZ
           eq_refl).
  reflexivity.
Defined.




(** ** The shared apply code *)

Lemma float_ltb_false_le (a b : float) : float_ltb a b = false <-> (b <= a)%Qc.
Proof.
  unfold float_ltb. rewrite Qcle_alt.
  pose proof (@cmp_antisym _ cmp_float _ a b) as Hopp. unfold cmp_float in Hopp.
  rewrite Hopp. destruct (a ?= b)%Qc; simpl; split; congruence.
Qed.

(** X10: the guardrail check passes exactly when the elapsed time and the
    three count deltas are all at most their bounds: a value equal to its
    bound is accepted. *)
Theorem guardrail_passes_iff
  (t : GuardrailThresholds) (timing_ms : float) (face_delta edge_delta body_delta : Z) :
  guardrail_check t timing_ms face_delta edge_delta body_delta = None
  <-> (timing_ms <= Z2float (max_apply_ms t))%Qc
      /\ (face_delta <= max_face_delta t)%Z
      /\ (edge_delta <= max_edge_delta t)%Z
      /\ (body_delta <= max_body_delta t)%Z.
Proof.
  unfold guardrail_check.
  destruct (float_ltb (Z2float (max_apply_ms t)) timing_ms) eqn:Et.
  { split; [discriminate|]. intros [Hle _].
    apply float_ltb_false_le in Hle. congruence. }
  apply float_ltb_false_le in Et.
  destruct (Z.ltb_spec (max_face_delta t) face_delta);
    [split; [discriminate | intros (_ & ? & _); lia]|].
  destruct (Z.ltb_spec (max_edge_delta t) edge_delta);
    [split; [discriminate | intros (_ & _ & ? & _); lia]|].
  destruct (Z.ltb_spec (max_body_delta t) body_delta);
    [split; [discriminate | intros (_ & _ & _ & ?); lia]|].
  split; auto.
Qed.

Lemma rollback_appends (H : host) (feature : option Feature) (recompute : bool)
  (w : world) :
  exists rest, calls (rollback H feature recompute w) = (calls w ++ rest)%list.
Proof.
  destruct feature as [f|].
  - destruct (rollback_calls H f recompute w) as [-> | ->]; eexists; reflexivity.
  - exists []. simpl. rewrite app_nil_r. reflexivity.
Qed.

(** X11: when the host operation raises, the command answers
    [ok = false] with its failure prefix followed by the host's message
    and the plan; the operation is the only call made: nothing is deleted
    and nothing recomputed, and the document is left as the host left it.
    First part: the commands built on [guarded_apply]; second part:
    extrude_feature. *)
Theorem apply_failure_reported :
  (forall (prof : command_profile) (H : host) (request : apply_request)
          (plan : pyval) (compute rollback_compute : bool) (w : world)
          (exc : string) (d1 : Component),
      host_apply H request (root_comp w) = (Raises exc, d1) ->
      let result := guarded_apply prof H request plan compute rollback_compute w in
      fst result = response_error_plan (failure_prefix prof ++ exc) plan
      /\ calls (snd result) = (calls w ++ [Call_apply request])%list
      /\ root_comp (snd result) = d1)
  /\ (forall (H : host) (rq : extrude_feature.request) (ctx : context)
             (p : extrude_feature.planned) (w : world) (exc : string)
             (d1 : Component),
         host_apply H
           (ExtrudeFace (extrude_feature.p_face p) (extrude_feature.operation rq)
              (_mm_to_internal (units_mgr ctx) (extrude_feature.p_distance_mm p))
              (extrude_feature.direction rq))
           (root_comp w) = (Raises exc, d1) ->
         let result := extrude_feature.apply_phase H rq ctx p w in
         fst result
         = response_error_plan ("Extrude failed: " ++ exc) (extrude_feature.p_plan p)
         /\ calls (snd result)
            = (calls w
               ++ [Call_apply
                     (ExtrudeFace (extrude_feature.p_face p)
                        (extrude_feature.operation rq)
                        (_mm_to_internal (units_mgr ctx)
                           (extrude_feature.p_distance_mm p))
                        (extrude_feature.direction rq))])%list
         /\ root_comp (snd result) = d1).
Proof.
  split.
  - intros prof H request plan compute rc w exc d1 Happ.
    unfold guarded_apply, apply_and_measure, do_apply, time_time; simpl.
    rewrite Happ; simpl. repeat split; reflexivity.
  - intros H rq ctx p w exc d1 Happ.
    unfold extrude_feature.apply_phase, extrude_feature.apply_and_measure,
      extrude_feature._apply_extrude, do_apply, time_time; simpl.
    rewrite Happ; simpl. repeat split; reflexivity.
Qed.

Lemma apply_failure_reported_witness :
  fst (guarded_apply fillet_feature.profile MoreExamples.host_refuses
         (OtherFeature "fillet_feature" PyNone) PyNone true true Examples.world1)
  = response_error_plan "Fillet failed: edge cannot be filleted" PyNone.
Proof.
  apply (proj1 apply_failure_reported fillet_feature.profile
           MoreExamples.host_refuses (OtherFeature "fillet_feature" PyNone)
           PyNone true true Examples.world1 "edge cannot be filleted"
           Examples.doc1 eq_refl).
Defined.

(** X12: a command built on [guarded_apply] answers [ok = true] only when
    the host operation returned and no guardrail is breached; the calls it
    made are then the operation and, if requested, one recompute: no
    delete has been issued, and the document is the one the host
    produced. *)
Theorem commit_keeps_feature
  (prof : command_profile) (H : host) (request : apply_request) (plan : pyval)
  (compute rollback_compute : bool) (w : world)
  (Hok : dict_get "ok"
           (fst (guarded_apply prof H request plan compute rollback_compute w))
         = Some (PyBool true)) :
  exists feature d1 m w1,
    host_apply H request (root_comp w) = (Returns feature, d1)
    /\ apply_and_measure prof H request compute w = (Applied m, w1)
    /\ guardrail_error (thresholds prof) m = None
    /\ guarded_apply prof H request plan compute rollback_compute w
       = (applied_reply plan feature (m_compute_ran m) (m_timing_ms m), w1)
    /\ calls w1
       = (calls w ++ Call_apply request
                     :: (if compute then [Call_computeAll] else []))%list
    /\ root_comp w1 = (if compute then snd (host_computeAll H d1) else d1).
Proof.
  revert Hok.
  unfold guarded_apply, apply_and_measure, do_apply, time_time; simpl.
  destruct (host_apply H request (root_comp w)) as [[exc | feature] d1] eqn:Happ;
    simpl; [discriminate|].
  unfold do_computeAll; simpl.
  destruct compute; simpl.
  - destruct (host_computeAll H d1) as [ran d2] eqn:Hc; simpl.
    destruct (guard_rereads_clock prof); simpl;
      (match goal with
       | |- context [guardrail_error ?t ?m] =>
           destruct (guardrail_error t m) eqn:Hg
       end; simpl; [discriminate|]; intros _;
       do 4 eexists; split; [reflexivity|]; split; [reflexivity|];
       split; [exact Hg|]; split; [reflexivity|]; split;
       [simpl; rewrite <- app_assoc; reflexivity | simpl; rewrite Hc; reflexivity]).
  - destruct (guard_rereads_clock prof); simpl;
      (match goal with
       | |- context [guardrail_error ?t ?m] =>
           destruct (guardrail_error t m) eqn:Hg
       end; simpl; [discriminate|]; intros _;
       do 4 eexists; split; [reflexivity|]; split; [reflexivity|];
       split; [exact Hg|]; split; [reflexivity|]; split; reflexivity).
Qed.

Lemma commit_keeps_feature_witness :
  exists feature d1 m w1,
    host_apply Examples.host_one_new_body (OtherFeature "shell_feature" PyNone)
      (root_comp Examples.world1) = (Returns feature, d1)
    /\ apply_and_measure shell_feature.profile Examples.host_one_new_body
         (OtherFeature "shell_feature" PyNone) true Examples.world1 = (Applied m, w1)
    /\ calls w1 = [Call_apply (OtherFeature "shell_feature" PyNone); Call_computeAll].
Proof.
  destruct (commit_keeps_feature shell_feature.profile Examples.host_one_new_body
              (OtherFeature "shell_feature" PyNone) PyNone true true
              Examples.world1 eq_refl)
    as (feature & d1 & m & w1 & Happ & Hm & _ & _ & Hcalls & _).
  exists feature, d1, m, w1. split; [exact Happ|]. split; [exact Hm|]. exact Hcalls.
Defined.

(** ** The handlers and the host *)

Lemma guarded_apply_has_data (prof : command_profile) (H : host)
  (request : apply_request) (plan : pyval) (compute rollback_compute : bool)
  (w : world) :
  dict_get "data" (fst (guarded_apply prof H request plan compute rollback_compute w))
  <> None.
Proof.
  unfold guarded_apply.
  destruct (apply_and_measure prof H request compute w) as [[exc | m] w1];
    [simpl; discriminate|].
  destruct (guardrail_error (thresholds prof) m); simpl; discriminate.
Qed.

Lemma extrude_apply_phase_has_data (H : host) (rq : extrude_feature.request)
  (ctx : context) (p : extrude_feature.planned) (w : world) :
  dict_get "data" (fst (extrude_feature.apply_phase H rq ctx p w)) <> None.
Proof.
  unfold extrude_feature.apply_phase.
  destruct (extrude_feature.apply_and_measure H rq ctx p w) as [[exc | m] w1];
    [simpl; discriminate|].
  destruct (guardrail_error extrude_feature.limits m); [simpl; discriminate|].
  unfold extrude_feature.commit.
  destruct (String.eqb (extrude_feature.operation rq) "new_body");
    [|simpl; discriminate].
  destruct (extrude_feature.new_candidates _ _ _) as [|nb [|nb' rest]];
    simpl; discriminate.
Qed.

Lemma fillet_untouched (H : host) (rq : fillet_feature.request) (ctx : context)
  (w w' : world) (reply : pyval) :
  fillet_feature.handle H rq ctx w = (reply, w') ->
  fillet_feature.preview rq = true \/ dict_get "data" reply = None ->
  w' = w.
Proof.
  unfold fillet_feature.handle. repeat handler_step.
  match goal with
  | |- guarded_apply ?p ?h ?r ?pl ?c ?rc ?w0 = _ -> _ =>
      applying (guarded_apply_has_data p h r pl c rc w0)
  end.
Qed.

Lemma hole_untouched (H : host) (rq : hole_feature.request) (ctx : context)
  (w w' : world) (reply : pyval) :
  hole_feature.handle H rq ctx w = (reply, w') ->
  hole_feature.preview rq = true \/ dict_get "data" reply = None ->
  w' = w.
Proof.
  unfold hole_feature.handle. repeat handler_step.
  match goal with
  | |- guarded_apply ?p ?h ?r ?pl ?c ?rc ?w0 = _ -> _ =>
      applying (guarded_apply_has_data p h r pl c rc w0)
  end.
Qed.

Lemma shell_untouched (H : host) (rq : shell_command.request) (ctx : context)
  (w w' : world) (reply : pyval) :
  shell_command.handle H rq ctx w = (reply, w') ->
  shell_command.preview rq = true \/ dict_get "data" reply = None ->
  w' = w.
Proof.
  unfold shell_command.handle, shell_feature.apply_phase. repeat handler_step.
  match goal with
  | |- guarded_apply ?p ?h ?r ?pl ?c ?rc ?w0 = _ -> _ =>
      applying (guarded_apply_has_data p h r pl c rc w0)
  end.
Qed.

Lemma mirror_untouched (H : host) (rq : mirror_command.request) (ctx : context)
  (features : FeatureCollections) (w w' : world) (reply : pyval) :
  mirror_command.handle H rq ctx features w = (reply, w') ->
  mirror_command.preview rq = true \/ dict_get "data" reply = None ->
  w' = w.
Proof.
  unfold mirror_command.handle, mirror_feature.apply_phase. repeat handler_step.
  match goal with
  | |- guarded_apply ?p ?h ?r ?pl ?c ?rc ?w0 = _ -> _ =>
      applying (guarded_apply_has_data p h r pl c rc w0)
  end.
Qed.

Lemma pattern_untouched (H : host) (rq : pattern_command.request) (ctx : context)
  (features : FeatureCollections) (w w' : world) (reply : pyval) :
  pattern_command.handle H rq ctx features w = (reply, w') ->
  pattern_command.preview rq = true \/ dict_get "data" reply = None ->
  w' = w.
Proof.
  unfold pattern_command.handle, pattern_feature.apply_phase. repeat handler_step.
  match goal with
  | |- guarded_apply ?p ?h ?r ?pl ?c ?rc ?w0 = _ -> _ =>
      applying (guarded_apply_has_data p h r pl c rc w0)
  end.
Qed.

Lemma extrude_profile_untouched (H : host) (rq : extrude_profile_command.request)
  (ctx : context) (w w' : world) (reply : pyval) :
  extrude_profile_command.handle H rq ctx w = (reply, w') ->
  extrude_profile_command.preview rq = true \/ dict_get "data" reply = None ->
  w' = w.
Proof.
  unfold extrude_profile_command.handle, extrude_profile.apply_phase.
  repeat handler_step.
  match goal with
  | |- guarded_apply ?p ?h ?r ?pl ?c ?rc ?w0 = _ -> _ =>
      applying (guarded_apply_has_data p h r pl c rc w0)
  end.
Qed.

Lemma extrude_untouched (H : host) (rq : extrude_feature.request) (ctx : context)
  (w w' : world) (reply : pyval) :
  extrude_feature.handle H rq ctx w = (reply, w') ->
  extrude_feature.preview rq = true \/ dict_get "data" reply = None ->
  w' = w.
Proof.
  unfold extrude_feature.handle. repeat handler_step.
  match goal with
  | |- extrude_feature.apply_phase ?h ?r ?c ?p ?w0 = _ -> _ =>
      applying (extrude_apply_phase_has_data h r c p w0)
  end.
Qed.

(** X13: extrude_feature, extrude_profile, fillet_feature, hole_feature,
    shell_feature, mirror_feature and pattern_feature reach the host only
    in their apply phase: a preview, and every reply that carries no
    [data] entry (the validation and resolution errors), leaves the world
    as it was: no host call, no clock reading, the document untouched. *)
Theorem host_untouched_unless_applying (H : host) (ctx : context) (w : world) :
  (forall rq,
      let result := extrude_feature.handle H rq ctx w in
      extrude_feature.preview rq = true \/ dict_get "data" (fst result) = None ->
      snd result = w)
  /\ (forall rq,
         let result := extrude_profile_command.handle H rq ctx w in
         extrude_profile_command.preview rq = true
         \/ dict_get "data" (fst result) = None ->
         snd result = w)
  /\ (forall rq,
         let result := fillet_feature.handle H rq ctx w in
         fillet_feature.preview rq = true \/ dict_get "data" (fst result) = None ->
         snd result = w)
  /\ (forall rq,
         let result := hole_feature.handle H rq ctx w in
         hole_feature.preview rq = true \/ dict_get "data" (fst result) = None ->
         snd result = w)
  /\ (forall rq,
         let result := shell_command.handle H rq ctx w in
         shell_command.preview rq = true \/ dict_get "data" (fst result) = None ->
         snd result = w)
  /\ (forall rq features,
         let result := mirror_command.handle H rq ctx features w in
         mirror_command.preview rq = true \/ dict_get "data" (fst result) = None ->
         snd result = w)
  /\ (forall rq features,
         let result := pattern_command.handle H rq ctx features w in
         pattern_command.preview rq = true \/ dict_get "data" (fst result) = None ->
         snd result = w).
Proof.
  repeat split; intros; subst result.
  - eapply extrude_untouched; [apply surjective_pairing | assumption].
  - eapply extrude_profile_untouched; [apply surjective_pairing | assumption].
  - eapply fillet_untouched; [apply surjective_pairing | assumption].
  - eapply hole_untouched; [apply surjective_pairing | assumption].
  - eapply shell_untouched; [apply surjective_pairing | assumption].
  - eapply mirror_untouched; [apply surjective_pairing | assumption].
  - eapply pattern_untouched; [apply surjective_pairing | assumption].
Qed.

(** ** Limits on dimensions *)

Lemma over_limit_checks (limit : Z) (value : float) :
  (0 <= limit)%Z -> (Z2float limit < value)%Qc ->
  float_leb value zero = false /\ float_ltb (Z2float limit) value = true.
Proof.
  intros Hl Hv. split.
  - apply float_leb_gt. apply Qcle_lt_trans with (Z2float limit); [|exact Hv].
    unfold zero, Z2float, Qcle. cbn [this Q2Qc]. rewrite !Qred_correct.
    unfold Qle; simpl. lia.
  - apply float_ltb_lt. exact Hv.
Qed.

Lemma body_not_resolved_refused (d : Component) (body_name : option string)
  (bodies : list body_ref) : refused (body_not_resolved d body_name bodies).
Proof.
  unfold refused, body_not_resolved.
  destruct (str_truthy body_name); [reflexivity|].
  destruct (sorted_strs _); reflexivity.
Qed.

Lemma pattern_resolve_base_refused (rq : pattern_command.request)
  (features : FeatureCollections) (d : Component) (response : pyval) :
  pattern_command.resolve_base rq features d = Respond response -> refused response.
Proof.
  unfold pattern_command.resolve_base.
  destruct (str_truthy (pattern_command.feature_id rq)).
  - destruct (feature_helpers._find_feature_by_id _ _) as [[f t]|];
      intros E; inversion E; reflexivity.
  - destruct (selection_helpers._resolve_body d _) as [[body|] bodies];
      intros E; inversion E. apply body_not_resolved_refused.
Qed.

(** X14: a dimension above the command's limit is never applied: a fillet
    radius, a shell thickness, a hole depth or a pattern spacing above
    50 mm, or a profile-extrude distance above 100 mm, gives [ok = false]
    and leaves the world as it was, whatever the rest of the request. *)
Theorem over_limit_never_applied (H : host) (ctx : context) (w : world) :
  (forall rq radius,
      fillet_feature.radius_mm rq = Some radius ->
      (Z2float fillet_feature.MAX_RADIUS_MM < radius)%Qc ->
      refused (fst (fillet_feature.handle H rq ctx w))
      /\ snd (fillet_feature.handle H rq ctx w) = w)
  /\ (forall rq thickness,
         shell_command.thickness_mm rq = Some thickness ->
         (Z2float shell_feature.MAX_DISTANCE_MM < thickness)%Qc ->
         refused (fst (shell_command.handle H rq ctx w))
         /\ snd (shell_command.handle H rq ctx w) = w)
  /\ (forall rq depth,
         hole_feature.through_all rq = false ->
         hole_feature.depth_mm rq = Some depth ->
         (Z2float hole_feature.MAX_DISTANCE_MM < depth)%Qc ->
         refused (fst (hole_feature.handle H rq ctx w))
         /\ snd (hole_feature.handle H rq ctx w) = w)
  /\ (forall rq distance,
         extrude_profile_command.through_all rq = false ->
         extrude_profile_command.distance_mm rq = Some distance ->
         (Z2float extrude_profile.MAX_DISTANCE_MM < distance)%Qc ->
         refused (fst (extrude_profile_command.handle H rq ctx w))
         /\ snd (extrude_profile_command.handle H rq ctx w) = w)
  /\ (forall rq features s1 s2,
         pattern_command.pattern_type rq = Some "rectangular" ->
         pattern_command.spacing1_mm rq = Some s1 ->
         pattern_command.spacing2_mm rq = Some s2 ->
         (Z2float pattern_feature.MAX_DISTANCE_MM < s1)%Qc
         \/ (Z2float pattern_feature.MAX_DISTANCE_MM < s2)%Qc ->
         refused (fst (pattern_command.handle H rq ctx features w))
         /\ snd (pattern_command.handle H rq ctx features w) = w).
Proof.
  split; [|split; [|split; [|split]]].
  - intros rq radius Hr Hv.
    destruct (over_limit_checks fillet_feature.MAX_RADIUS_MM _ ltac:(vm_compute; discriminate) Hv)
      as [Hpos Hlt].
    unfold fillet_feature.handle. rewrite Hr, Hpos, Hlt.
    destruct (negb (design ctx) || negb (has_root_comp ctx)); [split; reflexivity|].
    destruct (negb (str_truthy (fillet_feature.edge_id rq)) && _); split; reflexivity.
  - intros rq thickness Ht Hv.
    destruct (over_limit_checks shell_feature.MAX_DISTANCE_MM _ ltac:(vm_compute; discriminate) Hv)
      as [Hpos Hlt].
    unfold shell_command.handle. rewrite Ht, Hpos, Hlt.
    destruct (negb (design ctx) || negb (has_root_comp ctx)); split; reflexivity.
  - intros rq depth Hthrough Hd Hv.
    destruct (over_limit_checks hole_feature.MAX_DISTANCE_MM _ ltac:(vm_compute; discriminate) Hv)
      as [Hpos Hlt].
    unfold hole_feature.handle, hole_feature.check_depth.
    rewrite Hthrough, Hd, Hpos, Hlt.
    destruct (negb (design ctx) || negb (has_root_comp ctx)); [split; reflexivity|].
    destruct (negb (str_truthy (hole_feature.face_id rq)) && _); [split; reflexivity|].
    destruct (hole_feature.center_mm rq) as [| |[[cx cy] cz]]; try (split; reflexivity).
    destruct (hole_feature.diameter_mm rq) as [diameter|]; [|split; reflexivity].
    destruct (float_leb diameter zero); split; reflexivity.
  - intros rq distance Hthrough Hd Hv.
    destruct (over_limit_checks extrude_profile.MAX_DISTANCE_MM _ ltac:(vm_compute; discriminate) Hv)
      as [Hpos Hlt].
    unfold extrude_profile_command.handle, extrude_profile_command.check_distance.
    rewrite Hthrough, Hd, Hpos, Hlt.
    destruct (negb (design ctx) || negb (has_root_comp ctx)); [split; reflexivity|].
    destruct (negb (str_truthy (extrude_profile_command.sketch_id rq)));
      [split; reflexivity|].
    destruct (extrude_profile_command.profile_index rq); split; reflexivity.
  - intros rq features s1 s2 Hkind Hs1 Hs2 Hv.
    unfold pattern_command.handle. rewrite Hkind. cbn [String.eqb Ascii.eqb Bool.eqb orb negb].
    destruct (negb (design ctx) || negb (has_root_comp ctx)); [split; reflexivity|].
    change (String.eqb "rectangular" "rectangular") with true. cbn [orb negb].
    destruct (pattern_command.resolve_base rq features (root_comp w))
      as [response | base] eqn:Eb.
    { split; [|reflexivity]. apply (pattern_resolve_base_refused _ _ _ _ Eb). }
    assert (Hplan : exists message,
               pattern_command.rectangular_plan rq base
               = Respond (response_error message)).
    { unfold pattern_command.rectangular_plan. rewrite Hs1, Hs2.
      destruct (pattern_command.count1 rq) as [c1|]; [|eexists; reflexivity].
      destruct (pattern_command.count2 rq) as [c2|]; [|eexists; reflexivity].
      destruct ((c1 <=? 0)%Z || (c2 <=? 0)%Z); [eexists; reflexivity|].
      destruct (float_leb s1 zero || float_leb s2 zero); [eexists; reflexivity|].
      assert (Hover : float_ltb (Z2float pattern_feature.MAX_DISTANCE_MM) s1
                      || float_ltb (Z2float pattern_feature.MAX_DISTANCE_MM) s2 = true).
      { apply orb_true_iff. destruct Hv as [Hv | Hv]; [left | right];
          apply float_ltb_lt; exact Hv. }
      rewrite Hover. eexists; reflexivity. }
    destruct Hplan as [message ->]. split; reflexivity.
Qed.

Lemma over_limit_never_applied_witness :
  refused (fst (fillet_feature.handle Examples.host_one_new_body
                  (MoreExamples.fillet_request 51) Examples.ctx1
                  MoreExamples.world_edges))
  /\ snd (fillet_feature.handle Examples.host_one_new_body
            (MoreExamples.fillet_request 51) Examples.ctx1 MoreExamples.world_edges)
     = MoreExamples.world_edges.
Proof.
  apply (proj1 (over_limit_never_applied Examples.host_one_new_body Examples.ctx1
                  MoreExamples.world_edges)
           (MoreExamples.fillet_request 51) (Z2float 51) eq_refl).
  reflexivity.
Defined.

(** X15: with [through_all] set, hole_feature never looks at [depth_mm] and
    extrude_profile never looks at [distance_mm]: the answer and the host
    calls are the same whatever the value, absent, negative or above the
    limit. *)
Theorem through_all_ignores_depth (H : host) (ctx : context) (w : world) :
  (forall rq depth,
      hole_feature.through_all rq = true ->
      hole_feature.handle H (hole_with_depth rq depth) ctx w
      = hole_feature.handle H rq ctx w)
  /\ (forall rq distance,
         extrude_profile_command.through_all rq = true ->
         extrude_profile_command.handle H (profile_with_distance rq distance) ctx w
         = extrude_profile_command.handle H rq ctx w).
Proof.
  split.
  - intros rq depth Ht.
    unfold hole_feature.handle, hole_feature.check_depth, hole_feature.resolve_face,
      hole_feature.make_plan, hole_with_depth; cbn. rewrite Ht. reflexivity.
  - intros rq distance Ht.
    unfold extrude_profile_command.handle, extrude_profile_command.check_distance,
      extrude_profile_command.resolve_named_body, profile_with_distance; cbn.
    rewrite Ht. reflexivity.
Qed.

Lemma through_all_ignores_depth_witness :
  hole_feature.handle Examples.host_one_new_body
    (hole_with_depth (MoreExamples.hole_request None) (Some (Z2float 900)))
    Examples.ctx1 Examples.world1
  = hole_feature.handle Examples.host_one_new_body (MoreExamples.hole_request None)
      Examples.ctx1 Examples.world1.
Proof.
  apply (proj1 (through_all_ignores_depth Examples.host_one_new_body Examples.ctx1
                  Examples.world1)
           (MoreExamples.hole_request None) (Some (Z2float 900)) eq_refl).
Defined.

(** ** Lookups by identity *)

Lemma id_is_iff (ids : entity_ids) (wanted : string) :
  id_is ids wanted = true <-> selection_helpers._entity_id ids = Some wanted.
Proof.
  unfold id_is. destruct (selection_helpers._entity_id ids) as [v|].
  - rewrite String.eqb_eq. split; congruence.
  - split; discriminate.
Qed.

Lemma id_is_false_iff (ids : entity_ids) (wanted : string) :
  id_is ids wanted = false <-> selection_helpers._entity_id ids <> Some wanted.
Proof.
  rewrite <- id_is_iff. destruct (id_is ids wanted); split; congruence.
Qed.

Lemma in_all_edges (d : Component) (e : BRepEdge) :
  In e (all_edges d)
  <-> exists r, In r (selection_helpers._list_visible_bodies d)
                /\ In e (b_edges (body_at d r)).
Proof. unfold all_edges. apply in_flat_map. Qed.

Lemma in_all_faces (d : Component) (f : BRepFace) (r : body_ref) :
  In (f, r) (all_faces d)
  <-> In r (selection_helpers._list_visible_bodies d)
      /\ In f (b_faces (body_at d r)).
Proof.
  unfold all_faces. rewrite in_flat_map. split.
  - intros (r' & Hr & Hin). apply in_map_iff in Hin.
    destruct Hin as (f' & E & Hf). inversion E; subst. auto.
  - intros [Hr Hf]. exists r. split; [exact Hr|].
    apply in_map_iff. exists f; auto.
Qed.

Lemma visible_is_solid (d : Component) (r : body_ref) :
  In r (selection_helpers._list_visible_bodies d) ->
  selection_helpers.body_visible_solid (body_at d r) = true.
Proof.
  unfold selection_helpers._list_visible_bodies. intros Hin.
  apply filter_In in Hin. apply Hin.
Qed.

(** X16: the lookups by identity of fillet_feature, revolve_feature,
    hole_feature and mirror_feature search the visible solid bodies only:
    an edge or face they return carries the requested identity and
    belongs to a visible solid body, and they return nothing exactly when
    no edge or face of a visible solid body carries it. *)
Theorem find_by_id_visible_only (d : Component) (wanted : string) :
  (forall e,
      fillet_feature._find_edge_by_id d wanted = Some e ->
      selection_helpers._entity_id (edge_ids e) = Some wanted
      /\ exists r, In r (bRepBodies d)
                   /\ selection_helpers.body_visible_solid (body_at d r) = true
                   /\ In e (b_edges (body_at d r)))
  /\ (fillet_feature._find_edge_by_id d wanted = None
      <-> forall r e,
            In r (bRepBodies d) ->
            selection_helpers.body_visible_solid (body_at d r) = true ->
            In e (b_edges (body_at d r)) ->
            selection_helpers._entity_id (edge_ids e) <> Some wanted)
  /\ revolve_feature._find_edge_by_id d wanted
     = fillet_feature._find_edge_by_id d wanted
  /\ (forall f r,
         hole_feature._find_face_by_id d wanted = Some (f, r) ->
         selection_helpers._entity_id (face_ids f) = Some wanted
         /\ In r (bRepBodies d)
         /\ selection_helpers.body_visible_solid (body_at d r) = true
         /\ In f (b_faces (body_at d r)))
  /\ (hole_feature._find_face_by_id d wanted = None
      <-> forall r f,
            In r (bRepBodies d) ->
            selection_helpers.body_visible_solid (body_at d r) = true ->
            In f (b_faces (body_at d r)) ->
            selection_helpers._entity_id (face_ids f) <> Some wanted)
  /\ mirror_command._find_face_by_id d wanted
     = option_map fst (hole_feature._find_face_by_id d wanted).
Proof.
  assert (Hvis : forall r, In r (selection_helpers._list_visible_bodies d)
                           <-> In r (bRepBodies d)
                               /\ selection_helpers.body_visible_solid (body_at d r)
                                  = true).
  { intros r. unfold selection_helpers._list_visible_bodies. apply filter_In. }
  split; [|split; [|split; [|split; [|split]]]].
  - intros e Hfind. unfold fillet_feature._find_edge_by_id in Hfind.
    apply find_some in Hfind. destruct Hfind as [Hin Hid].
    split; [apply id_is_iff; exact Hid|].
    apply in_all_edges in Hin. destruct Hin as (r & Hr & He).
    apply Hvis in Hr. exists r. tauto.
  - unfold fillet_feature._find_edge_by_id. rewrite find_none_iff. split.
    + intros Hall r e Hr Hs He. apply id_is_false_iff. apply Hall.
      apply in_all_edges. exists r. split; [apply Hvis; auto | exact He].
    + intros Hall e He. apply in_all_edges in He. destruct He as (r & Hr & He).
      apply Hvis in Hr. apply id_is_false_iff. apply (Hall r e); tauto.
  - reflexivity.
  - intros f r Hfind. unfold hole_feature._find_face_by_id in Hfind.
    apply find_some in Hfind. destruct Hfind as [Hin Hid].
    split; [apply id_is_iff; exact Hid|].
    apply in_all_faces in Hin. destruct Hin as [Hr Hf]. apply Hvis in Hr. tauto.
  - unfold hole_feature._find_face_by_id. rewrite find_none_iff. split.
    + intros Hall r f Hr Hs Hf. apply id_is_false_iff.
      apply (Hall (f, r)). apply in_all_faces. split; [apply Hvis; auto | exact Hf].
    + intros Hall [f r] Hin. apply in_all_faces in Hin. destruct Hin as [Hr Hf].
      apply Hvis in Hr. apply id_is_false_iff. apply (Hall r f); tauto.
  - reflexivity.
Qed.

Lemma in_iter_features (features : FeatureCollections) (f : Feature) (t : string) :
  In (f, t) (feature_helpers._iter_features features)
  <-> exists items, In (t, items) features /\ In (Some f) items.
Proof.
  unfold feature_helpers._iter_features. rewrite in_flat_map. split.
  - intros ([t' items] & Hentry & Hin). apply collect_in in Hin.
    destruct Hin as ([f'|] & Hitem & E); simpl in E; [|discriminate].
    inversion E; subst. exists items. auto.
  - intros (items & Hentry & Hitem). exists (t, items). split; [exact Hentry|].
    apply collect_in_iff. exists (Some f). auto.
Qed.

(** X17: [_find_feature_by_id] returns nothing for an absent or empty
    identity; otherwise a feature it returns carries the requested
    identity and comes with the type name of the collection that lists
    it, and it returns nothing exactly when no listed feature carries the
    identity. *)
Theorem find_feature_by_id_spec (features : FeatureCollections)
  (feature_id : option string) :
  (str_truthy feature_id = false ->
   feature_helpers._find_feature_by_id features feature_id = None)
  /\ (forall f t,
         feature_helpers._find_feature_by_id features feature_id = Some (f, t) ->
         selection_helpers._entity_id (feature_ids f) = feature_id
         /\ feature_id <> Some ""
         /\ exists items, In (t, items) features /\ In (Some f) items)
  /\ (str_truthy feature_id = true ->
      (feature_helpers._find_feature_by_id features feature_id = None
       <-> forall t items f,
             In (t, items) features -> In (Some f) items ->
             selection_helpers._entity_id (feature_ids f) <> feature_id)).
Proof.
  unfold feature_helpers._find_feature_by_id.
  split; [intros ->; reflexivity|]. split.
  - intros f t. destruct feature_id as [id|]; simpl; [|discriminate].
    destruct (String.eqb_spec id "") as [->|Hne]; simpl; [discriminate|].
    intros Hfind. apply find_some in Hfind. destruct Hfind as [Hin Hid].
    split; [apply id_is_iff; exact Hid|]. split; [congruence|].
    apply in_iter_features; exact Hin.
  - intros Ht. rewrite Ht. destruct feature_id as [id|]; [|discriminate Ht].
    rewrite find_none_iff. split.
    + intros Hall t items f Hentry Hitem. apply id_is_false_iff.
      apply (Hall (f, t)). apply in_iter_features. exists items; auto.
    + intros Hall [f t] Hin. apply in_iter_features in Hin.
      destruct Hin as (items & Hentry & Hitem). apply id_is_false_iff.
      apply (Hall t items f); assumption.
Qed.

Lemma find_feature_by_id_spec_witness :
  feature_helpers._find_feature_by_id [("extrude", [Some Examples.feature1])]
    (Some "") = None.
Proof.
  apply (proj1 (find_feature_by_id_spec [("extrude", [Some Examples.feature1])]
                  (Some ""))).
  reflexivity.
Defined.

(** ** Selecting the axis of a revolve *)

Lemma select_edge_without_point (entity : BRepBody)
  (um : option UnitsManager) (conv : option UnitsManager -> float -> float) :
  selection_helpers._select_edge entity selection_helpers.closest_to_point um conv None
  = (None, 0%nat).
Proof.
  unfold selection_helpers._select_edge.
  assert (E : selection_helpers.collect
                (selection_helpers.edge_candidate_of
                   selection_helpers.closest_to_point um conv None)
                (b_edges entity) = []).
  { induction (b_edges entity) as [|e l IH]; simpl; [reflexivity|].
    unfold selection_helpers.edge_candidate_of at 1.
    destruct (selection_helpers._edge_midpoint e); exact IH. }
  rewrite E. reflexivity.
Qed.

(** X18: revolve_feature calls [_select_edge] without a point, so the axis
    selector [closest_to_point], which its parser accepts, never selects
    an edge: with no [edge_id] the command answers [ok = false], with
    "No edges matched axis_selector." once the body is resolved, whatever
    edges the body has, and the world is left as it was. *)
Theorem revolve_closest_to_point_never_matches
  (H : host) (rq : revolve_feature.request) (ctx : context) (w : world)
  (Hedge : str_truthy (revolve_feature.edge_id rq) = false)
  (Hsel : revolve_feature.axis_selector rq = Some "closest_to_point") :
  refused (fst (revolve_feature.handle H rq ctx w))
  /\ snd (revolve_feature.handle H rq ctx w) = w
  /\ exists response,
       revolve_feature.resolve_axis H rq ctx w = (Respond response, w)
       /\ forall body,
            fst (selection_helpers._resolve_body (root_comp w)
                   (revolve_feature.body_name rq)) = Some body ->
            response = response_error "No edges matched axis_selector.".
Proof.
  assert (Haxis : exists response,
             revolve_feature.resolve_axis H rq ctx w = (Respond response, w)
             /\ refused response
             /\ forall body,
                  fst (selection_helpers._resolve_body (root_comp w)
                         (revolve_feature.body_name rq)) = Some body ->
                  response = response_error "No edges matched axis_selector.").
  { unfold revolve_feature.resolve_axis. rewrite Hedge, Hsel.
    cbn [str_truthy String.eqb Ascii.eqb Bool.eqb negb].
    change (selection_helpers._parse_edge_selector "closest_to_point")
      with (Some selection_helpers.closest_to_point).
    cbv iota beta.
    destruct (selection_helpers._resolve_body (root_comp w)
                (revolve_feature.body_name rq)) as [[body|] bodies].
    - rewrite select_edge_without_point. eexists. split; [reflexivity|].
      split; [reflexivity|]. intros; reflexivity.
    - eexists. split; [reflexivity|].
      split; [apply body_not_resolved_refused|]. intros body E; discriminate E. }
  destruct Haxis as (response & Hres & Href & Hmsg).
  split; [|split].
  - unfold revolve_feature.handle. rewrite Hres.
    repeat match goal with
           | |- refused (fst (match ?x with _ => _ end)) => destruct x
           | |- refused (fst (if ?x then _ else _)) => destruct x
           end; try reflexivity; exact Href.
  - unfold revolve_feature.handle. rewrite Hres.
    repeat match goal with
           | |- snd (match ?x with _ => _ end) = _ => destruct x
           | |- snd (if ?x then _ else _) = _ => destruct x
           end; reflexivity.
  - exists response. split; [exact Hres | exact Hmsg].
Qed.

Lemma revolve_closest_to_point_never_matches_witness :
  refused (fst (revolve_feature.handle Examples.host_one_new_body
                  MoreExamples.revolve_request Examples.ctx1
                  MoreExamples.world_edges))
  /\ snd (revolve_feature.handle Examples.host_one_new_body
            MoreExamples.revolve_request Examples.ctx1 MoreExamples.world_edges)
     = MoreExamples.world_edges.
Proof.
  pose proof (revolve_closest_to_point_never_matches Examples.host_one_new_body
                MoreExamples.revolve_request Examples.ctx1 MoreExamples.world_edges
                eq_refl eq_refl) as Hall.
  split; [exact (proj1 Hall) | exact (proj1 (proj2 Hall))].
Defined.

(** ** The faces a shell removes *)







(** ** From the plan to the host *)

Lemma derive_plan_face (rq : extrude_feature.request) (ctx : context)
  (d : Component) (p : extrude_feature.planned) :
  extrude_feature.derive_plan rq ctx d = Go p ->
  plan_face_id (extrude_feature.p_plan p)
  = Some (PyStr (face_token (extrude_feature.p_face p)))
  /\ In (extrude_feature.p_face p) (b_faces (body_at d (extrude_feature.p_body p)))
  /\ In (extrude_feature.p_body p) (selection_helpers._list_visible_bodies d).
Proof.
  unfold extrude_feature.derive_plan.
  destruct (negb (String.eqb (extrude_feature.units rq) "mm")); [discriminate|].
  destruct (selection_helpers._parse_face_selector _) as [selector|]; [|discriminate].
  destruct (negb (extrude_feature.str_in (extrude_feature.operation rq) _));
    [discriminate|].
  destruct (negb (extrude_feature.str_in (extrude_feature.direction rq) _));
    [discriminate|].
  destruct (extrude_feature.distance_mm rq) as [distance|]; [|discriminate].
  destruct (float_leb distance zero); [discriminate|].
  destruct (float_ltb _ distance); [discriminate|].
  pose proof (resolve_body_returns_visible d (extrude_feature.body_name rq)) as Hv.
  destruct (selection_helpers._resolve_body d (extrude_feature.body_name rq))
    as [[body|] bodies] eqn:Eb; [|discriminate].
  destruct (selection_helpers._select_face (body_at d body) selector
              (units_mgr ctx) (convert_mm ctx)) as [[selected|] n] eqn:Es;
    [|discriminate].
  intros E; inversion E; subst p; cbn.
  change (winner_of selection_helpers._tie_key selection_helpers.cmp_face_key
            (selection_helpers.face_candidates (body_at d body) selector
               (units_mgr ctx) (convert_mm ctx)) = (Some selected, n)) in Es.
  destruct (winner_of_some _ _ _ _ _ Es) as (_ & Hin & _).
  apply collect_in in Hin. destruct Hin as (f & Hf & Ef).
  destruct (face_candidate_of_face _ _ _ _ _ Ef) as [Hface Hid].
  split; [rewrite Hid, Hface; reflexivity|]. split; [rewrite Hface; exact Hf|].
  cbn [snd] in Hv. subst bodies.
  unfold selection_helpers._resolve_body in Eb.
  destruct (str_truthy (extrude_feature.body_name rq)).
  - inversion Eb as [Hfind]. apply find_some in Hfind. apply Hfind.
  - destruct (selection_helpers._list_visible_bodies d) as [|a [|a' l]];
      inversion Eb; subst. left; reflexivity.
Qed.

Lemma extrude_apply_phase_plan (H : host) (rq : extrude_feature.request)
  (ctx : context) (p : extrude_feature.planned) (w : world) :
  reply_plan (fst (extrude_feature.apply_phase H rq ctx p w))
  = Some (extrude_feature.p_plan p)
  /\ exists rest,
       calls (snd (extrude_feature.apply_phase H rq ctx p w))
       = (calls w ++ Call_apply (extrude_host_request rq ctx p) :: rest)%list.
Proof.
  unfold extrude_feature.apply_phase, extrude_feature.apply_and_measure,
    extrude_feature._apply_extrude, do_apply, time_time, extrude_host_request.
  cbn [root_comp clock_reads calls].
  destruct (host_apply H _ (root_comp w)) as [[exc | feature] d1]; cbn.
  { split; [reflexivity|]. exists []. reflexivity. }
  set (logged1 := logged _ d1 _).
  assert (Hlog : calls logged1
                 = (calls w ++ [Call_apply
                      (ExtrudeFace (extrude_feature.p_face p)
                         (extrude_feature.operation rq)
                         (_mm_to_internal (units_mgr ctx)
                            (extrude_feature.p_distance_mm p))
                         (extrude_feature.direction rq))])%list) by reflexivity.
  assert (Hext : forall w2 : world,
             (exists rest, calls w2 = (calls logged1 ++ rest)%list) ->
             exists rest,
               calls w2
               = (calls w ++ Call_apply
                    (ExtrudeFace (extrude_feature.p_face p)
                       (extrude_feature.operation rq)
                       (_mm_to_internal (units_mgr ctx)
                          (extrude_feature.p_distance_mm p))
                       (extrude_feature.direction rq)) :: rest)%list).
  { intros w2 [rest Hw2]. exists rest. rewrite Hw2, Hlog, <- app_assoc. reflexivity. }
  assert (Hcomp : exists computed w2,
             (if extrude_feature.compute rq then do_computeAll H logged1
              else (true, logged1)) = (computed, w2)
             /\ exists rest, calls w2 = (calls logged1 ++ rest)%list).
  { destruct (extrude_feature.compute rq).
    - unfold do_computeAll. destruct (host_computeAll H (root_comp logged1)) as [c d2].
      do 2 eexists. split; [reflexivity|]. eexists; reflexivity.
    - do 2 eexists. split; [reflexivity|]. exists []. rewrite app_nil_r. reflexivity. }
  destruct Hcomp as (computed & w2 & -> & rest2 & Hw2).
  destruct computed; cbn [negb].
  2:{ split; [reflexivity|]. apply Hext. destruct feature as [f|]; cbn.
      - unfold do_deleteMe. destruct (host_deleteMe H f (root_comp w2)) as [dl d3].
        cbn. rewrite Hw2, <- app_assoc. eexists; reflexivity.
      - exists rest2. exact Hw2. }
  cbn.
  match goal with
  | |- context [guardrail_error ?t ?m] => destruct (guardrail_error t m)
  end.
  { split; [reflexivity|]. apply Hext. cbn [snd].
    match goal with
    | |- context [rollback ?h ?f ?c ?w0] =>
        destruct (rollback_appends h f c w0) as [rest3 Hr]
    end.
    exists (rest2 ++ rest3)%list. rewrite Hr. cbn [calls]. rewrite Hw2, <- app_assoc.
    reflexivity. }
  unfold extrude_feature.commit. cbn [m_feature m_before_visible m_after_visible].
  destruct (String.eqb (extrude_feature.operation rq) "new_body").
  2:{ split; [reflexivity|]. apply Hext. exists rest2. exact Hw2. }
  match goal with
  | |- context [extrude_feature.new_candidates ?a ?b ?c] =>
      destruct (extrude_feature.new_candidates a b c) as [|nb [|nb' more]]
  end.
  - split; [reflexivity|]. apply Hext. cbn [snd].
    match goal with
    | |- context [rollback ?h ?f ?c ?w0] =>
        destruct (rollback_appends h f c w0) as [rest3 Hr]
    end.
    exists (rest2 ++ rest3)%list. rewrite Hr. cbn [calls]. rewrite Hw2, <- app_assoc.
    reflexivity.
  - split; [reflexivity|]. apply Hext. exists rest2. exact Hw2.
  - split; [reflexivity|]. apply Hext. cbn [snd].
    match goal with
    | |- context [rollback ?h ?f ?c ?w0] =>
        destruct (rollback_appends h f c w0) as [rest3 Hr]
    end.
    exists (rest2 ++ rest3)%list. rewrite Hr. cbn [calls]. rewrite Hw2, <- app_assoc.
    reflexivity.
Qed.

(** X20: extrude_feature applies what it previews.  When the plan of a
    request is derived, the preview reports that plan and touches
    nothing; the same request without [preview] hands to the host, as its
    first call, the face whose identity the plan reports, with the
    planned distance, and whatever happens next its reply carries the same
    plan. *)
Theorem extrude_apply_follows_plan
  (H : host) (rq : extrude_feature.request) (ctx : context) (w : world)
  (p : extrude_feature.planned)
  (Hdesign : design ctx = true) (Hroot : has_root_comp ctx = true)
  (Hplan : extrude_feature.derive_plan rq ctx (root_comp w) = Go p) :
  let previewed := extrude_feature.handle H (extrude_with_preview rq true) ctx w in
  let applied := extrude_feature.handle H (extrude_with_preview rq false) ctx w in
  reply_plan (fst previewed) = Some (extrude_feature.p_plan p)
  /\ snd previewed = w
  /\ reply_plan (fst applied) = Some (extrude_feature.p_plan p)
  /\ (exists rest,
         calls (snd applied)
         = (calls w ++ Call_apply (extrude_host_request rq ctx p) :: rest)%list)
  /\ plan_face_id (extrude_feature.p_plan p)
     = Some (PyStr (face_token (extrude_feature.p_face p)))
  /\ In (extrude_feature.p_face p)
        (b_faces (body_at (root_comp w) (extrude_feature.p_body p))).
Proof.
  intros previewed applied. subst previewed applied.
  assert (Hsame : forall b,
             extrude_feature.derive_plan (extrude_with_preview rq b) ctx (root_comp w)
             = Go p) by (intros b; exact Hplan).
  unfold extrude_feature.handle. rewrite Hdesign, Hroot, !Hsame. cbn [negb orb].
  cbn [extrude_with_preview extrude_feature.preview].
  destruct (derive_plan_face _ _ _ _ Hplan) as (Hid & Hface & _).
  destruct (extrude_apply_phase_plan H (extrude_with_preview rq false) ctx p w)
    as [Hreply Hcalls].
  split; [reflexivity|]. split; [reflexivity|]. split; [exact Hreply|].
  split; [exact Hcalls|]. split; [exact Hid | exact Hface].
Qed.

Lemma extrude_apply_follows_plan_witness :
  exists rest,
    calls (snd (extrude_feature.handle Examples.host_one_new_body
                  (extrude_with_preview (Examples.extrude_request (Z2float 10) true)
                     false)
                  Examples.ctx1 Examples.world1))
    = (calls Examples.world1
       ++ Call_apply
            (extrude_host_request (Examples.extrude_request (Z2float 10) true)
               Examples.ctx1
               (Examples.planned_for (Examples.extrude_request (Z2float 10) true)))
          :: rest)%list.
Proof.
  apply (extrude_apply_follows_plan Examples.host_one_new_body
           (Examples.extrude_request (Z2float 10) true) Examples.ctx1 Examples.world1
           (Examples.planned_for (Examples.extrude_request (Z2float 10) true))
           eq_refl eq_refl eq_refl).
Defined.

(** ** Units *)




(** ** The clock *)

(** X22: the [timing_ms] a command reports is the time between the clock
    reading before the operation and the reading after the recompute.
    The time guardrail is checked on that value, except in hole_feature,
    which reads the clock once more after it has counted the bodies
    again and checks that later reading. *)
Theorem time_guardrail_reading
  (prof : command_profile) (H : host) (request : apply_request) (compute : bool)
  (w w1 : world) (m : measured)
  (Happlied : apply_and_measure prof H request compute w = (Applied m, w1)) :
  let n := clock_reads w in
  m_timing_ms m = elapsed_ms (host_time H n) (host_time H (S n))
  /\ m_guard_ms m
     = elapsed_ms (host_time H n)
         (host_time H (if guard_rereads_clock prof then S (S n) else S n))
  /\ clock_reads w1 = (if guard_rereads_clock prof then S (S (S n)) else S (S n))
  /\ guard_rereads_clock hole_feature.profile = true
  /\ Forall (fun p => guard_rereads_clock p = false)
       [fillet_feature.profile; revolve_feature.profile; extrude_profile.profile;
        shell_feature.profile; mirror_feature.profile;
        pattern_feature.profile "rectangular"; pattern_feature.profile "circular"].
Proof.
  revert Happlied.
  unfold apply_and_measure, do_apply, time_time; simpl.
  destruct (host_apply H request (root_comp w)) as [[exc | feature] d1]; simpl;
    [discriminate|].
  unfold do_computeAll; simpl.
  destruct compute; [destruct (host_computeAll H d1) as [ran d2]|]; simpl;
    destruct (guard_rereads_clock prof); simpl;
    intros E; inversion E; subst; simpl;
    repeat split; repeat constructor.
Qed.

Lemma time_guardrail_reading_witness :
  exists m w1,
    apply_and_measure hole_feature.profile Examples.host_one_new_body
      (OtherFeature "hole_feature" PyNone) true Examples.world1 = (Applied m, w1)
    /\ clock_reads w1 = 3%nat.
Proof.
  eexists. eexists. split; [reflexivity|].
  apply (time_guardrail_reading hole_feature.profile Examples.host_one_new_body
           (OtherFeature "hole_feature" PyNone) true Examples.world1 _ _ eq_refl).
Defined.

(** ** The profile of a revolve *)

(** X23: with no curve identities [_find_profile] returns the first
    profile of the sketch; otherwise it returns the first profile whose
    curves carry every requested identity (the profile may have other
    curves as well), and nothing exactly when no profile does. *)
Theorem find_profile_spec (sketch : Sketch) (curve_ids : list string) :
  (curve_ids = [] ->
   revolve_feature._find_profile sketch curve_ids = hd_error (sketch_profiles sketch))
  /\ (curve_ids <> [] ->
      (forall p,
          revolve_feature._find_profile sketch curve_ids = Some p
          <-> exists before after,
                sketch_profiles sketch = (before ++ p :: after)%list
                /\ incl curve_ids (revolve_feature.profile_curve_found p)
                /\ forall q, In q before ->
                     ~ incl curve_ids (revolve_feature.profile_curve_found q))
      /\ (revolve_feature._find_profile sketch curve_ids = None
          <-> forall q, In q (sketch_profiles sketch) ->
                ~ incl curve_ids (revolve_feature.profile_curve_found q))).
Proof.
  assert (Hall : forall p,
             forallb (fun c => revolve_feature.str_in c
                                 (revolve_feature.profile_curve_found p)) curve_ids
             = true
             <-> incl curve_ids (revolve_feature.profile_curve_found p)).
  { intros p. rewrite forallb_forall. unfold incl, revolve_feature.str_in.
    split; intros Hin c Hc.
    - specialize (Hin c Hc). apply existsb_exists in Hin.
      destruct Hin as (x & Hx & E). apply String.eqb_eq in E. subst x. exact Hx.
    - apply existsb_exists. exists c. split; [apply Hin; exact Hc|].
      apply String.eqb_refl. }
  assert (Hnot : forall p,
             forallb (fun c => revolve_feature.str_in c
                                 (revolve_feature.profile_curve_found p)) curve_ids
             = false
             <-> ~ incl curve_ids (revolve_feature.profile_curve_found p)).
  { intros p. rewrite <- Hall. destruct (forallb _ curve_ids); split; congruence. }
  split; [intros ->; reflexivity|].
  intros Hne. unfold revolve_feature._find_profile.
  destruct curve_ids as [|c cs]; [contradiction Hne; reflexivity|].
  split.
  - intros p. rewrite find_first. split.
    + intros (l1 & l2 & E & Hp & Hl1). exists l1, l2. split; [exact E|].
      split; [apply Hall; exact Hp|]. intros q Hq. apply Hnot. apply Hl1; exact Hq.
    + intros (l1 & l2 & E & Hp & Hl1). exists l1, l2. split; [exact E|].
      split; [apply Hall; exact Hp|]. intros q Hq. apply Hnot. apply Hl1; exact Hq.
  - rewrite find_none_iff. split.
    + intros Hf q Hq. apply Hnot. apply Hf; exact Hq.
    + intros Hf q Hq. apply Hnot. apply Hf; exact Hq.
Qed.

Lemma find_profile_spec_witness :
  revolve_feature._find_profile Examples.sketch1 []
  = hd_error (sketch_profiles Examples.sketch1).
Proof.
  apply (proj1 (find_profile_spec Examples.sketch1 [])). reflexivity.
Defined.

Lemma host_untouched_unless_applying_witness :
  snd (shell_command.handle Examples.host_one_new_body
         (MoreExamples.shell_request 2 true) Examples.ctx1 Examples.world1)
  = Examples.world1.
Proof.
  apply (proj1 (proj2 (proj2 (proj2 (proj2
           (host_untouched_unless_applying Examples.host_one_new_body Examples.ctx1
              Examples.world1)))))
           (MoreExamples.shell_request 2 true)).
  left; reflexivity.
Defined.

(** ** The verification block *)







(** ** Ties *)

Section StableWinner.
Context {A K : Type} (key : A -> K) (cmp : K -> K -> comparison).
Context `{!PyOrd cmp}.

(** The first element of the stable sort is the earliest element of the
    pool among those with the least key. *)
Lemma sort_by_key_first_earliest (pool : list A) (first : A) (rest : list A) :
  sort_by_key key cmp pool = first :: rest ->
  exists before after,
    pool = (before ++ first :: after)%list
    /\ (forall c, In c before -> cmp (key first) (key c) = Lt)
    /\ (forall c, In c after -> key_le key cmp first c).
Proof.
  revert first rest. induction pool as [|a pool IH]; intros first rest E;
    [discriminate E|].
  cbn [sort_by_key fold_right] in E.
  change (fold_right (insert_by_key key cmp) [] pool)
    with (sort_by_key key cmp pool) in E.
  destruct (sort_by_key key cmp pool) as [|b r] eqn:Es.
  - apply sort_by_key_nil in Es. subst pool. cbn in E. inversion E; subst.
    exists [], []. split; [reflexivity|]. split; intros c Hc; contradiction.
  - cbn [insert_by_key] in E.
    destruct (is_lt (cmp (key b) (key a))) eqn:Eba; inversion E; subst.
    + destruct (IH first r eq_refl) as (before & after & Hpool & Hb & Ha).
      exists (a :: before), after. split; [rewrite Hpool; reflexivity|].
      split; [|exact Ha].
      intros c [<- | Hc]; [|apply Hb; exact Hc].
      destruct (cmp (key first) (key a)); try discriminate Eba. reflexivity.
    + exists [], pool. split; [reflexivity|]. split; [intros c Hc; contradiction|].
      intros c Hc.
      apply (key_le_trans key cmp first b c).
      * apply (not_lt_key_le key cmp); exact Eba.
      * apply (sort_by_key_first_least key cmp pool b r Es); exact Hc.
Qed.

Lemma winner_of_earliest (pool : list A) (w : A) (n : nat) :
  winner_of key cmp pool = (Some w, n) ->
  exists before after,
    pool = (before ++ w :: after)%list
    /\ (forall c, In c before -> cmp (key w) (key c) = Lt)
    /\ (forall c, In c after -> cmp (key w) (key c) <> Gt).
Proof.
  unfold winner_of.
  destruct (sort_by_key key cmp pool) as [|first rest] eqn:E;
    intros R; inversion R; subst.
  apply (sort_by_key_first_earliest pool w rest E).
Qed.

End StableWinner.

(** X25: the selectors resolve ties by enumeration order.  The candidate
    [_select_face], [_select_edge] or [_select_vertex] returns splits the
    pool of candidates, taken in the order the host enumerates them, in
    two: every candidate before it has a strictly greater tie-break key,
    and no candidate after it has a smaller one.  So the winner is the
    first enumerated candidate among those with the least key. *)
Theorem select_first_among_ties
  (um : option UnitsManager) (conv : option UnitsManager -> float -> float) :
  (forall body sel w n,
      selection_helpers._select_face body sel um conv = (Some w, n) ->
      exists before after,
        selection_helpers.face_candidates body sel um conv
        = (before ++ w :: after)%list
        /\ (forall c, In c before ->
              selection_helpers.cmp_face_key (selection_helpers._tie_key w)
                (selection_helpers._tie_key c) = Lt)
        /\ (forall c, In c after ->
              selection_helpers.cmp_face_key (selection_helpers._tie_key w)
                (selection_helpers._tie_key c) <> Gt))
  /\ (forall entity sel point w n,
         selection_helpers._select_edge entity sel um conv point = (Some w, n) ->
         exists before after,
           selection_helpers.collect
             (selection_helpers.edge_candidate_of sel um conv point) (b_edges entity)
           = (before ++ w :: after)%list
           /\ (forall c, In c before ->
                 selection_helpers.cmp_face_key (selection_helpers.edge_tie_key w)
                   (selection_helpers.edge_tie_key c) = Lt)
           /\ (forall c, In c after ->
                 selection_helpers.cmp_face_key (selection_helpers.edge_tie_key w)
                   (selection_helpers.edge_tie_key c) <> Gt))
  /\ (forall vertices sel point w n,
         vertex_selection._select_vertex vertices sel um conv point = (Some w, n) ->
         exists before after,
           vertex_selection.vertex_candidates vertices sel um conv point
           = (before ++ w :: after)%list
           /\ (forall c, In c before ->
                 vertex_selection.cmp_vertex_key (vertex_selection._tie_key w)
                   (vertex_selection._tie_key c) = Lt)
           /\ (forall c, In c after ->
                 vertex_selection.cmp_vertex_key (vertex_selection._tie_key w)
                   (vertex_selection._tie_key c) <> Gt)).
Proof.
  split; [|split].
  - intros body sel w n Hsel.
    apply (winner_of_earliest selection_helpers._tie_key
             selection_helpers.cmp_face_key _ w n Hsel).
  - intros entity sel point w n Hsel.
    apply (winner_of_earliest selection_helpers.edge_tie_key
             selection_helpers.cmp_face_key _ w n Hsel).
  - intros vertices sel point w n Hsel.
    apply (winner_of_earliest vertex_selection._tie_key
             vertex_selection.cmp_vertex_key _ w n Hsel).
Qed.

(** Of two faces with the same key, the one enumerated first is
    returned. *)
Lemma select_first_among_ties_witness :
  exists w before after,
    selection_helpers._select_face Examples.body_cylinder_first
      selection_helpers.largest_area None _convert_mm = (Some w, 2%nat)
    /\ selection_helpers.face_candidates Examples.body_cylinder_first
         selection_helpers.largest_area None _convert_mm
       = (before ++ w :: after)%list
    /\ selection_helpers.fc_face w = Examples.anon_cylinder.
Proof.
  destruct (proj1 (select_first_among_ties None _convert_mm)
              Examples.body_cylinder_first selection_helpers.largest_area
              _ 2%nat eq_refl) as (before & after & Hpool & _ & _).
  eexists. exists before, after. split; [reflexivity|]. split; [exact Hpool|].
  reflexivity.
Defined.

(** ** Further instances *)



Lemma guardrail_passes_iff_witness :
  guardrail_check hole_feature.limits (Z2float 5000) 200 400 1 = None.
Proof.
  apply (proj2 (guardrail_passes_iff hole_feature.limits (Z2float 5000) 200 400 1)).
  repeat split; discriminate.
Defined.

Lemma find_by_id_visible_only_witness :
  selection_helpers._entity_id (edge_ids MoreExamples.edge_z) = Some "e2".
Proof.
  apply (proj1 (find_by_id_visible_only MoreExamples.doc_edges "e2")
           MoreExamples.edge_z eq_refl).
Defined.

(** ** What the handlers select *)





